(** * Attendance_Impulse: the attendance-evidence pipeline and the
      reconciliation state machine, embedded from the Python sources

    - [utils/gps_extractor.py]   : module [GpsExtractor]
    - [models/*.py]              : module [Models]
    - [routes/employee_routes.py]: module [EmployeeRoutes]
    - [routes/admin_routes.py]   : module [AdminRoutes]

    Python values are modelled as follows.
    - [str] is a list of Unicode code points ([N]); [py "..."] embeds an
      ASCII literal.
    - [float] is the rational value of a binary64 number; every floating
      point operation of the source is the exact rational operation followed
      by [fl64], round-to-nearest-even to 53 significant bits (exponent range
      unbounded: no overflow to infinity, no subnormals, no NaN).
    - [None] is [option]'s [None]; a raised exception is an explicit
      outcome. *)

From Stdlib Require Import ZArith NArith QArith Qabs Qround Qpower.
From Stdlib Require Import List String Ascii Bool Lia Lqa DecimalString.
Import ListNotations.
Local Open Scope Z_scope.

(** ** Python strings *)

Definition str := list N.

Definition py (s : string) : str := map N_of_ascii (list_ascii_of_string s).
Arguments py : simpl never.

Definition str_eqb (a b : str) : bool :=
  if list_eq_dec N.eq_dec a b then true else false.

Definition chr (c : string) : N :=
  match c with
  | String a _ => N_of_ascii a
  | EmptyString => 0%N
  end.

(** [str.isspace] / regex [\s] on [str]: the Unicode white-space code points. *)
Definition isspace (c : N) : bool :=
  ((9 <=? c) && (c <=? 13) || (28 <=? c) && (c <=? 32) || (c =? 133) || (c =? 160)
   || (c =? 5760) || (8192 <=? c) && (c <=? 8202) || (c =? 8232) || (c =? 8233)
   || (c =? 8239) || (c =? 8287) || (c =? 12288))%N.

(** Regex [\d] and the digits accepted by [int()]/[float()]: modelled on the
    ASCII digits (the further Unicode [Nd] digits are outside the model). *)
Definition isdigit (c : N) : bool := ((48 <=? c) && (c <=? 57))%N.

Fixpoint lstrip_by (p : N -> bool) (s : str) : str :=
  match s with
  | c :: s' => if p c then lstrip_by p s' else s
  | [] => []
  end.

Definition rstrip_by (p : N -> bool) (s : str) : str :=
  rev (lstrip_by p (rev s)).

(** [s.strip()] *)
Definition strip (s : str) : str := rstrip_by isspace (lstrip_by isspace s).

(** [s.lower()] / [s.upper()], on the ASCII letters. *)
Definition lower_char (c : N) : N :=
  if ((65 <=? c) && (c <=? 90))%N then (c + 32)%N else c.
Definition upper_char (c : N) : N :=
  if ((97 <=? c) && (c <=? 122))%N then (c - 32)%N else c.
Definition lower (s : str) : str := map lower_char s.
Definition upper (s : str) : str := map upper_char s.

Fixpoint startswith (pre s : str) : bool :=
  match pre, s with
  | [], _ => true
  | p :: pre', c :: s' => (p =? c)%N && startswith pre' s'
  | _ :: _, [] => false
  end.

Definition endswith (suf s : str) : bool := startswith (rev suf) (rev s).

(** [s.replace(old, new)] for a one-character [old]. *)
Definition replace_char (old : N) (new : str) (s : str) : str :=
  flat_map (fun c => if (c =? old)%N then new else [c]) s.

(** [s.replace(old, new)], left to right, non-overlapping ([old] non-empty):
    [skip] counts the characters of the occurrence just replaced that are
    still to be passed over. *)
Fixpoint replace_from (old new : str) (skip : nat) (s : str) : str :=
  match s with
  | [] => []
  | c :: s' =>
      match skip with
      | S k => replace_from old new k s'
      | O =>
          if startswith old s
          then new ++ replace_from old new (pred (List.length old)) s'
          else c :: replace_from old new O s'
      end
  end.

Definition replace (old new s : str) : str := replace_from old new O s.

(** [s[:n]] *)
Definition slice_to (n : nat) (s : str) : str := firstn n s.

(** [int(s)] on a string of ASCII digits. *)
Definition int_of_digits (s : str) : Z :=
  fold_left (fun acc c => 10 * acc + (Z.of_N c - 48)) s 0.

(** [str(z)] for an [int]. *)
Definition str_of_Z (z : Z) : str := py (NilEmpty.string_of_int (Z.to_int z)).

(** [f"{z:0{w}d}"]: sign, then zeros up to width [w], then the digits. *)
Definition format_0d (w : nat) (z : Z) : str :=
  let digits := str_of_Z (Z.abs z) in
  let sign := if z <? 0 then py "-" else [] in
  let pad := (w - List.length sign - List.length digits)%nat in
  sign ++ repeat (chr "0") pad ++ digits.

(** ** Floating point *)

Definition float := Q.

Definition pow2 (e : Z) : Q := Qpower 2 e.

(** Rounding of a rational to the nearest integer, ties to the even one:
    Python's [round(x)], and the rounding of every binary64 operation. *)
Definition round_half_even (x : Q) : Z :=
  let f := Qfloor x in
  match Qcompare (x - inject_Z f) (1 # 2) with
  | Lt => f
  | Gt => f + 1
  | Eq => if Z.even f then f else f + 1
  end.

(** For [a > 0], the exponent [p] with [2^p <= a < 2^(p+1)]. *)
Definition binade (a : Q) : Z :=
  let e0 := Z.log2 (Qnum a) - Z.log2 (Zpos (Qden a)) in
  if Qle_bool (pow2 e0) a then e0 else e0 - 1.

(** Round to the nearest number with a 53-bit significand. *)
Definition fl64 (x : Q) : float :=
  if Qeq_bool x 0 then 0%Q
  else
    let p := binade (Qabs x) in
    Qred (inject_Z (round_half_even (x * pow2 (52 - p))) * pow2 (p - 52)).

Definition fadd (x y : float) : float := fl64 (x + y).
Definition fsub (x y : float) : float := fl64 (x - y).
Definition fmul (x y : float) : float := fl64 (x * y).
Definition fdiv (x y : float) : float := fl64 (x / y).
(** [float(n)] for an [int], and [n / m] for two [int]s (true division). *)
Definition float_of_int (n : Z) : float := fl64 (inject_Z n).
Definition int_truediv (n m : Z) : float := fl64 (inject_Z n / inject_Z m).

(** [int(x)] for a float: truncation towards zero. *)
Definition py_int (x : float) : Z := Z.quot (Qnum x) (Zpos (Qden x)).

(** [x // y] and [x % y] on floats, [y > 0]: the floor of the quotient and
    the remainder, both exact. *)
Definition float_floordiv (x y : float) : float := inject_Z (Qfloor (x / y)).
Definition float_mod (x y : float) : float :=
  Qred (x - inject_Z (Qfloor (x / y)) * y).

(** [float('inf')] beside the finite values. *)
Inductive xfloat : Type :=
| Finite (q : float)
| PosInf.

Definition xfloat_ltb (x : float) (y : xfloat) : bool :=
  match y with
  | Finite q => negb (Qle_bool q x)
  | PosInf => true
  end.

(** [f"{x:.{prec}f}"], [prec > 0]. *)
Definition format_f (prec : nat) (x : float) : str :=
  let scale := 10 ^ Z.of_nat prec in
  let n := round_half_even (Qabs x * inject_Z scale) in
  (if Qle_bool 0 x then [] else py "-")
    ++ str_of_Z (n / scale) ++ py "." ++ format_0d prec (n mod scale).

Definition format_xf (prec : nat) (x : xfloat) : str :=
  match x with
  | Finite q => format_f prec q
  | PosInf => py "inf"
  end.

(** [float(s)] for [s] matching [-?\d+\.\d+]. *)
Definition float_of_decimal (s : str) : float :=
  let neg := startswith (py "-") s in
  let body := if neg then tl s else s in
  let ip := (fix upto (t : str) : str :=
               match t with
               | c :: t' => if (c =? chr ".")%N then [] else c :: upto t'
               | [] => []
               end) body in
  let fp := skipn (S (List.length ip)) body in
  let v := (inject_Z (int_of_digits ip)
            + inject_Z (int_of_digits fp) / inject_Z (10 ^ Z.of_nat (List.length fp)))%Q in
  fl64 (if neg then - v else v)%Q.

(** ** [datetime]: the classes [date] ([pydate]), [time] ([pytime]) and
    [datetime] *)

Record pydate : Type := mkdate { year : Z; month : Z; day : Z }.
Record pytime : Type := mktime { hour : Z; minute : Z; second : Z; microsecond : Z }.
(** [dt.date()] is [dt_date dt], [dt.time()] is [dt_time dt]. *)
Record datetime : Type := mkdatetime { dt_date : pydate; dt_time : pytime }.

Definition date_eqb (a b : pydate) : bool :=
  (year a =? year b) && (month a =? month b) && (day a =? day b).

(** Dates compare as the tuples (year, month, day). *)
Definition date_ltb (a b : pydate) : bool :=
  (year a <? year b)
  || (year a =? year b) && ((month a <? month b)
                            || (month a =? month b) && (day a <? day b)).

(** Times of day compare as the tuples (hour, minute, second, microsecond). *)
Definition time_key (t : pytime) : Z :=
  ((hour t * 60 + minute t) * 60 + second t) * 1000000 + microsecond t.
Definition time_leb (a b : pytime) : bool := time_key a <=? time_key b.

Definition is_leap (y : Z) : bool :=
  (y mod 4 =? 0) && (negb (y mod 100 =? 0) || (y mod 400 =? 0)).

Definition days_in_month (y m : Z) : Z :=
  if m =? 2 then (if is_leap y then 29 else 28)
  else if (m =? 4) || (m =? 6) || (m =? 9) || (m =? 11) then 30 else 31.

Definition days_before_year (y : Z) : Z :=
  let y1 := y - 1 in y1 * 365 + y1 / 4 - y1 / 100 + y1 / 400.

Definition days_before_month (y m : Z) : Z :=
  fold_left (fun acc k => acc + days_in_month y (Z.of_nat k))
            (seq 1 (Z.to_nat (m - 1))) 0.

Definition toordinal (d : pydate) : Z :=
  days_before_year (year d) + days_before_month (year d) (month d) + day d.

(** [datetime(y, m, d, hh, mm, ss)]; [None] is the [ValueError] of an
    out-of-range field. *)
Definition make_datetime (y m d hh mm ss : Z) : option datetime :=
  if (1 <=? y) && (y <=? 9999) && (1 <=? m) && (m <=? 12)
     && (1 <=? d) && (d <=? days_in_month y m)
     && (0 <=? hh) && (hh <=? 23) && (0 <=? mm) && (mm <=? 59)
     && (0 <=? ss) && (ss <=? 59)
  then Some (mkdatetime (mkdate y m d) (mktime hh mm ss 0))
  else None.

(** [(a - b)] as a [timedelta], in microseconds, and its [total_seconds()]. *)
Definition timedelta_us (a b : datetime) : Z :=
  (toordinal (dt_date a) - toordinal (dt_date b)) * 86400000000
  + (time_key (dt_time a) - time_key (dt_time b)).

Definition total_seconds (us : Z) : float := int_truediv us 1000000.

(** [dt.strftime("%I:%M %p")] *)
Definition strftime_I_M_p (dt : datetime) : str :=
  let h := hour (dt_time dt) in
  let h12 := if h mod 12 =? 0 then 12 else h mod 12 in
  format_0d 2 h12 ++ py ":" ++ format_0d 2 (minute (dt_time dt))
    ++ (if h <? 12 then py " AM" else py " PM").

(** ** Regular expressions: the fragment of [re] used by the sources

    A backtracking matcher with Python's priorities: the alternatives of [|]
    left to right, greedy repetition, and [search] taking the leftmost start.
    Every repeated expression in the patterns below consumes at least one
    character per iteration. *)

Module Re.

Inductive re : Type :=
| Eps
| Chr (p : N -> bool)
| Seq (r1 r2 : re)
| Alt (r1 r2 : re)
| Rep (lo : nat) (hi : option nat) (r : re)
| Grp (i : nat) (r : re).

Definition groups := list (option str).

Fixpoint set_group (i : nat) (v : str) (g : groups) : groups :=
  match i, g with
  | _, [] => []
  | O, _ :: g' => Some v :: g'
  | S i', x :: g' => x :: set_group i' v g'
  end.

(** [run r s g k]: match [r] at the head of [s], then continue with [k] on
    the rest; [None] makes the matcher backtrack.  Group [i] is stored at
    index [i - 1]. *)
Fixpoint run (r : re) (s : str) (g : groups)
    (k : str -> groups -> option (str * groups)) {struct r}
    : option (str * groups) :=
  match r with
  | Eps => k s g
  | Chr p =>
      match s with
      | c :: s' => if p c then k s' g else None
      | [] => None
      end
  | Seq r1 r2 => run r1 s g (fun s1 g1 => run r2 s1 g1 k)
  | Alt r1 r2 =>
      match run r1 s g k with
      | Some x => Some x
      | None => run r2 s g k
      end
  | Grp i r1 =>
      run r1 s g
          (fun s1 g1 =>
             k s1 (set_group (pred i) (firstn (List.length s - List.length s1) s) g1))
  | Rep lo hi r1 =>
      (fix loop (fuel lo : nat) (hi : option nat) (s : str) (g : groups)
           {struct fuel} : option (str * groups) :=
         let stop := if (lo =? 0)%nat then k s g else None in
         match fuel, hi with
         | O, _ => stop
         | _, Some O => stop
         | S fuel', _ =>
             match run r1 s g
                       (fun s1 g1 =>
                          if (List.length s1 <? List.length s)%nat
                          then loop fuel' (pred lo) (option_map pred hi) s1 g1
                          else None) with
             | Some x => Some x
             | None => stop
             end
         end) (S (List.length s)) lo hi s g
  end.

Record match_ : Type := mkmatch { group0 : str; mgroups : groups }.

(** [match.group(i)], [i >= 1]. *)
Definition group (m : match_) (i : nat) : option str :=
  nth (pred i) (mgroups m) None.

(** [re.match(r, s)] for a pattern with [n] groups: the match and the
    unmatched rest of [s]. *)
Definition match_at (r : re) (n : nat) (s : str) : option (match_ * str) :=
  match run r s (repeat None n) (fun rest g => Some (rest, g)) with
  | Some (rest, g) =>
      Some (mkmatch (firstn (List.length s - List.length rest) s) g, rest)
  | None => None
  end.

(** [re.search(r, s)] *)
Fixpoint search (r : re) (n : nat) (s : str) : option match_ :=
  match match_at r n s with
  | Some (m, _) => Some m
  | None =>
      match s with
      | [] => None
      | _ :: s' => search r n s'
      end
  end.

(** [re.sub(r'\s+', ' ', s)]: [in_run] tells that the previous character was
    white space, already replaced. *)
Fixpoint sub_spaces_from (in_run : bool) (s : str) : str :=
  match s with
  | [] => []
  | c :: s' =>
      if isspace c
      then (if in_run then sub_spaces_from true s'
            else chr " " :: sub_spaces_from true s')
      else c :: sub_spaces_from false s'
  end.

Definition sub_spaces (s : str) : str := sub_spaces_from false s.

(** Pattern constructors. *)
Definition lit (c : string) : re := Chr (fun x => (x =? chr c)%N).
Definition code (c : N) : re := Chr (fun x => (x =? c)%N).
Definition one_of (cs : list N) : re := Chr (fun x => existsb (N.eqb x) cs).
Definition digit : re := Chr isdigit.
Definition ws : re := Chr isspace.
Definition opt (r : re) : re := Rep 0 (Some 1%nat) r.
Definition star (r : re) : re := Rep 0 None r.
Definition plus (r : re) : re := Rep 1 None r.
Definition times (lo hi : nat) (r : re) : re := Rep lo (Some hi) r.
Fixpoint cat (rs : list re) : re :=
  match rs with
  | [] => Eps
  | [r] => r
  | r :: rs' => Seq r (cat rs')
  end.
Fixpoint alt (rs : list re) : re :=
  match rs with
  | [] => Chr (fun _ => false)
  | [r] => r
  | r :: rs' => Alt r (alt rs')
  end.
Definition word (s : string) : re := cat (map code (py s)).
(** A letter under [re.IGNORECASE]. *)
Definition ilit (c : string) : re :=
  Chr (fun x => (lower_char x =? lower_char (chr c))%N).

End Re.

(** ** Uploaded photos

    What the imaging libraries report about a photo: OpenCV and Tesseract for
    the overlay text, piexif and PIL for the metadata block. *)

(** The OCR variants, named as the keys of [ocr_results]. *)
Inductive label : Type := cropped | full | cropped_th | full_th.

(** The GPS IFD of [piexif.load]: references as byte strings, coordinates as
    sequences of (numerator, denominator). *)
Record GpsIfd : Type := mkGpsIfd {
  GPSLatitudeRef : option str;
  GPSLatitude : option (list (Z * Z));
  GPSLongitudeRef : option str;
  GPSLongitude : option (list (Z * Z))
}.

Record Image : Type := mkImage {
  (** [cv2.imread] returned an image *)
  cv2_imread_ok : bool;
  (** [pytesseract.image_to_string] on each variant; [None] when it raises *)
  image_to_string : label -> option str;
  (** [piexif.load(img.info["exif"])["GPS"]], when the file opens, carries
      an EXIF block that loads, and the GPS dictionary is not empty *)
  exif_gps : option GpsIfd;
  (** what [extract_datetime_from_exif] reads from the tags [DateTimeOriginal]
      and [DateTime] *)
  exif_datetime : option datetime;
  (** [img.save(photo_path, exif=...)] succeeds *)
  pil_save_ok : bool;
  (** [face_recognition.face_encodings] on the loaded file: the number of
      faces found, or the text of the exception raised *)
  face_encodings : str + nat
}.

(** A werkzeug [FileStorage]. *)
Record FileStorage : Type := mkFileStorage { filename : str; content : Image }.

(** ** Models ([models/*.py]) *)

Module Models.

(** The two values of [attendance_type] / [pending_type]: ["in"], ["out"]. *)
Inductive AttType : Type := type_in | type_out.

Definition type_str (t : AttType) : str :=
  match t with type_in => py "in" | type_out => py "out" end.

Definition is_in (t : AttType) : bool :=
  match t with type_in => true | type_out => false end.

Module Attendance.
Record t : Type := mk {
  id : Z;
  employee_id : Z;
  date : pydate;
  in_time : option datetime;
  in_photo : option str;
  in_latitude : option float;
  in_longitude : option float;
  in_address : option str;
  out_time : option datetime;
  out_photo : option str;
  out_latitude : option float;
  out_longitude : option float;
  out_address : option str;
  site_id : option Z;
  status : str;
  working_hours : option str;
  pending_approval : bool;
  pending_type : option AttType;
  pending_latitude : option float;
  pending_longitude : option float;
  pending_address : option str;
  pending_time : option datetime;
  pending_photo : option str
}.

(** [Attendance(employee_id=e, date=d)] once inserted with key [i]: the
    column defaults ([status] "Absent", [pending_approval] False) apply. *)
Definition new (i e : Z) (d : pydate) : t :=
  mk i e d None None None None None None None None None None None
     (py "Absent") None false None None None None None None.

(** Assignments to groups of attributes. *)
Definition set_in (a : t) (tm : option datetime) (ph : option str)
    (la lo : option float) (ad : option str) : t :=
  mk (id a) (employee_id a) (date a) tm ph la lo ad
     (out_time a) (out_photo a) (out_latitude a) (out_longitude a) (out_address a)
     (site_id a) (status a) (working_hours a)
     (pending_approval a) (pending_type a) (pending_latitude a)
     (pending_longitude a) (pending_address a) (pending_time a) (pending_photo a).

Definition set_out (a : t) (tm : option datetime) (ph : option str)
    (la lo : option float) (ad : option str) : t :=
  mk (id a) (employee_id a) (date a)
     (in_time a) (in_photo a) (in_latitude a) (in_longitude a) (in_address a)
     tm ph la lo ad
     (site_id a) (status a) (working_hours a)
     (pending_approval a) (pending_type a) (pending_latitude a)
     (pending_longitude a) (pending_address a) (pending_time a) (pending_photo a).

Definition set_site_id (a : t) (s : option Z) : t :=
  mk (id a) (employee_id a) (date a)
     (in_time a) (in_photo a) (in_latitude a) (in_longitude a) (in_address a)
     (out_time a) (out_photo a) (out_latitude a) (out_longitude a) (out_address a)
     s (status a) (working_hours a)
     (pending_approval a) (pending_type a) (pending_latitude a)
     (pending_longitude a) (pending_address a) (pending_time a) (pending_photo a).

Definition set_status (a : t) (st : str) (wh : option str) : t :=
  mk (id a) (employee_id a) (date a)
     (in_time a) (in_photo a) (in_latitude a) (in_longitude a) (in_address a)
     (out_time a) (out_photo a) (out_latitude a) (out_longitude a) (out_address a)
     (site_id a) st wh
     (pending_approval a) (pending_type a) (pending_latitude a)
     (pending_longitude a) (pending_address a) (pending_time a) (pending_photo a).

Definition set_pending (a : t) (pa : bool) (ty : option AttType)
    (la lo : option float) (ad : option str) (tm : option datetime)
    (ph : option str) : t :=
  mk (id a) (employee_id a) (date a)
     (in_time a) (in_photo a) (in_latitude a) (in_longitude a) (in_address a)
     (out_time a) (out_photo a) (out_latitude a) (out_longitude a) (out_address a)
     (site_id a) (status a) (working_hours a)
     pa ty la lo ad tm ph.
End Attendance.

Module AttendanceApproval.
Record t : Type := mk {
  id : Z;
  employee_id : Z;
  attendance_id : option Z;
  date : pydate;
  attendance_type : AttType;
  photo : option str;
  latitude : float;
  longitude : float;
  address : option str;
  time : datetime;
  status : str;
  remarks : option str;
  created_at : datetime;
  approved_at : option datetime;
  approved_by : option Z
}.

(** The assignments of a decision: status, time, decider, remarks. *)
Definition decide (a : t) (st : str) (at_ : datetime) (by_ : Z) (rem : str) : t :=
  mk (id a) (employee_id a) (attendance_id a) (date a) (attendance_type a)
     (photo a) (latitude a) (longitude a) (address a) (time a)
     st (Some rem) (created_at a) (Some at_) (Some by_).
End AttendanceApproval.

Module Site.
Record t : Type := mk {
  id : Z; name : str; address : str; latitude : float; longitude : float;
  branch_id : Z
}.
End Site.

Module Employee.
Record t : Type := mk {
  id : Z; employee_id : str; name : str; email : str;
  photo : option str; is_active : bool; branch_id : option Z
}.
End Employee.

Module Admin.
Record t : Type := mk { id : Z; admin_id : str; name : str; email : str }.

(** The columns of the model ([models/admin.py]); the record keeps those
    the routes read. *)
Definition columns : list string :=
  ["id"; "admin_id"; "name"; "email"; "keyword"; "password_hash";
   "password_changed"; "reset_token"; "reset_token_expires"]%string.

(** [Admin.query.filter_by] with one keyword argument is built for a
    keyword that names an attribute of the model; for any other keyword
    SQLAlchemy raises [InvalidRequestError]. *)
Definition filter_by_builds (keyword : string) : bool :=
  existsb (String.eqb keyword) columns.
End Admin.

(** The tables, rows in the order the queries return them, and the
    sequences that number new rows. *)
Record DB : Type := mkDB {
  attendance : list Attendance.t;
  attendance_approval : list AttendanceApproval.t;
  attendance_id_seq : Z;
  attendance_approval_id_seq : Z;
  site : list Site.t;
  employee : list Employee.t;
  admins : list Admin.t
}.

Definition with_attendance (d : DB) (l : list Attendance.t) : DB :=
  mkDB l (attendance_approval d) (attendance_id_seq d)
       (attendance_approval_id_seq d) (site d) (employee d) (admins d).

Definition with_attendance_approval (d : DB) (l : list AttendanceApproval.t) : DB :=
  mkDB (attendance d) l (attendance_id_seq d)
       (attendance_approval_id_seq d) (site d) (employee d) (admins d).

(** [Attendance.query.filter_by(employee_id=e, date=d).first()] *)
Definition attendance_first (d : DB) (e : Z) (day : pydate) : option Attendance.t :=
  find (fun a => (Attendance.employee_id a =? e) && date_eqb (Attendance.date a) day)
       (attendance d).

(** Flushing a modified row: the row with its key is replaced. *)
Definition update_attendance (a : Attendance.t) (l : list Attendance.t)
    : list Attendance.t :=
  map (fun x => if Attendance.id x =? Attendance.id a then a else x) l.

Definition update_approval (a : AttendanceApproval.t)
    (l : list AttendanceApproval.t) : list AttendanceApproval.t :=
  map (fun x => if AttendanceApproval.id x =? AttendanceApproval.id a then a else x) l.

(** [db.session.delete(a)], on the attendance table.  The session also
    resets [attendance_id] in the approval requests linked to the record
    (the backref [approvals] has no cascade); that reset is not part of this
    table operation. *)
Definition delete_attendance (a : Attendance.t) (l : list Attendance.t)
    : list Attendance.t :=
  filter (fun x => negb (Attendance.id x =? Attendance.id a)) l.

(** [db.session.add(Attendance(employee_id=e, date=day))], flushed. *)
Definition insert_attendance (d : DB) (e : Z) (day : pydate) : Attendance.t * DB :=
  let a := Attendance.new (attendance_id_seq d) e day in
  (a, mkDB (attendance d ++ [a]) (attendance_approval d)
           (attendance_id_seq d + 1) (attendance_approval_id_seq d)
           (site d) (employee d) (admins d)).

Definition insert_approval (d : DB) (mkrow : Z -> AttendanceApproval.t) : DB :=
  mkDB (attendance d) (attendance_approval d ++ [mkrow (attendance_approval_id_seq d)])
       (attendance_id_seq d) (attendance_approval_id_seq d + 1)
       (site d) (employee d) (admins d).

End Models.

(** ** The world a request runs in *)

Import Models.

(** The external collaborators, as oracles. *)
Record Services : Type := mkServices {
  (** successive readings of [datetime.now()] and [datetime.utcnow()] *)
  clock_now : nat -> datetime;
  clock_utcnow : nat -> datetime;
  (** Nominatim reverse geocoding: the [display_name] of a 200 response *)
  nominatim_display_name : float -> float -> option str;
  (** [geodesic(p, q).kilometers]; [None] when geopy raises *)
  geodesic_km : float * float -> float * float -> option float;
  (** the reference photo stored under a path of the upload folder *)
  stored_photo : str -> option Image;
  (** [face_recognition.compare_faces] at tolerance 0.6 *)
  compare_faces : Image -> Image -> bool;
  (** the mail boundary of [send_admin_approval_email], on the employee's
      key, the direction, the coordinates, the address and the reason: the
      admins have addresses, the message is built and [mail.send] hands it
      to the mail server, all without an exception *)
  mail_delivered : Z -> AttType -> float -> float -> str -> str -> bool
}.

Inductive Event : Type :=
| FaceVerification
| EvidenceExtraction
| ReverseGeocoding
| ProximityCheck
| AdminEmail (sent : bool).

Record World : Type := mkWorld {
  env : Services;
  db : DB;
  ticks : nat;
  flashes : list (str * str);
  log : list Event
}.

Inductive Exn : Type :=
| NotFound404
| PyError (what : string).

(** The outcome of running a piece of a request: a value, or an exception;
    the database of the world is the committed one in both cases. *)
Inductive Res (A : Type) : Type :=
| Done (a : A) (w : World)
| Raised (e : Exn) (w : World).
Arguments Done {A} a w.
Arguments Raised {A} e w.

Definition M (A : Type) : Type := World -> Res A.

Definition ret {A} (a : A) : M A := fun w => Done a w.

Definition bind {A B} (c : M A) (k : A -> M B) : M B :=
  fun w =>
    match c w with
    | Done a w' => k a w'
    | Raised e w' => Raised e w'
    end.

Notation "x <- c ;; k" := (bind c (fun x => k))
  (at level 61, c at next level, right associativity).
Notation "' p <- c ;; k" := (bind c (fun x => let p := x in k))
  (at level 61, p pattern, c at next level, right associativity).
Notation "c ;;; k" := (bind c (fun _ => k))
  (at level 61, right associativity).

Definition raise {A} (e : Exn) : M A := fun w => Raised e w.

Definition services : M Services := fun w => Done (env w) w.

(** [datetime.now()]: the next reading of the clock. *)
Definition now : M datetime :=
  fun w => Done (clock_now (env w) (ticks w))
                (mkWorld (env w) (db w) (S (ticks w)) (flashes w) (log w)).

(** [datetime.utcnow()] *)
Definition utcnow : M datetime :=
  fun w => Done (clock_utcnow (env w) (ticks w))
                (mkWorld (env w) (db w) (S (ticks w)) (flashes w) (log w)).

Definition get_db : M DB := fun w => Done (db w) w.

(** [db.session.commit()] of the pending changes that lead to [d]. *)
Definition commit (d : DB) : M unit :=
  fun w => Done tt (mkWorld (env w) d (ticks w) (flashes w) (log w)).

(** [flash(message, category)] *)
Definition flash (message category : str) : M unit :=
  fun w => Done tt (mkWorld (env w) (db w) (ticks w)
                            (flashes w ++ [(message, category)]) (log w)).

Definition emit (e : Event) : M unit :=
  fun w => Done tt (mkWorld (env w) (db w) (ticks w) (flashes w) (log w ++ [e])).

(** ** [utils/gps_extractor.py] *)

Module GpsExtractor.
Import Re.

(** [clean_ocr_text] *)
Definition replacements : list (N * str) :=
  [(chr "O", py "0"); (chr "I", py "1"); (chr "l", py "1"); (chr "S", py "5");
   (chr "B", py "8"); (chr "G", py "6"); (chr "Z", py "2"); (chr "T", py "7")].

Definition clean_ocr_text (text : str) : str :=
  match text with
  | [] => []
  | _ =>
      let text := fold_left (fun t on => replace_char (fst on) (snd on) t)
                            replacements text in
      sub_spaces (strip text)
  end.

(** The patterns of [extract_gps_from_text_overlay], each with its number
    of groups.  176 is the degree sign, 8242 and 8243 the prime and the
    double prime, 39 and 34 the ASCII quotes. *)
Definition decimal : re := cat [opt (lit "-"); times 1 3 digit; lit "."; plus digit].
Definition colon_eq : re := one_of [chr ":"; chr "="].
Definition sep_deg : re := plus (one_of [176%N; chr ":"; chr " "]).
Definition sep_min : re := plus (one_of [39%N; 8242%N; chr ":"; chr " "]).
Definition sep_sec : re := plus (one_of [34%N; 8243%N; chr ":"; chr " "]).
Definition seconds_re : re := cat [times 1 2 digit; opt (cat [lit "."; plus digit])].

Definition labelled (lat_word lon_word : string) : re :=
  cat [word lat_word; star ws; opt colon_eq; star ws; Grp 1 decimal; star ws;
       opt (code 176); star ws; opt (one_of [chr ","; chr ";"]); star ws;
       word lon_word; star ws; opt colon_eq; star ws; Grp 2 decimal; star ws;
       opt (code 176)].

Definition gps_patterns : list (re * nat) :=
  [ (cat [Grp 1 decimal; star ws; plus (one_of [176%N; chr ","; chr " "]);
          star ws; Grp 2 decimal], 2%nat);
    (labelled "Lat" "Long", 2%nat);
    (labelled "Latitude" "Longitude", 2%nat);
    (cat [Grp 1 (times 1 3 digit); sep_deg; Grp 2 (times 1 2 digit); sep_min;
          Grp 3 seconds_re; sep_sec;
          opt (one_of [chr "N"; chr "S"; chr "n"; chr "s"]);
          plus (one_of [chr ","; chr " "]);
          Grp 4 (times 1 3 digit); sep_deg; Grp 5 (times 1 2 digit); sep_min;
          Grp 6 seconds_re; sep_sec;
          opt (one_of [chr "E"; chr "W"; chr "e"; chr "w"])], 6%nat) ].

Definition dash_slash : re := one_of [chr "-"; chr "/"].

Definition date_patterns : list re :=
  [ cat [Grp 1 (times 1 2 digit); dash_slash; Grp 2 (times 1 2 digit); dash_slash;
         Grp 3 (times 2 4 digit)];
    cat [Grp 1 (times 4 4 digit); dash_slash; Grp 2 (times 1 2 digit); dash_slash;
         Grp 3 (times 1 2 digit)] ].

Definition time_patterns : list re :=
  [ cat [Grp 1 (times 1 2 digit); lit ":"; Grp 2 (times 2 2 digit);
         opt (cat [lit ":"; Grp 3 (times 2 2 digit)]); star ws;
         opt (Grp 4 (alt [word "AM"; word "PM"; word "am"; word "pm"]))] ].

Definition address_class (c : N) : bool :=
  ((65 <=? c) && (c <=? 90) || (97 <=? c) && (c <=? 122) || (48 <=? c) && (c <=? 57)
   || (c =? chr ",") || (c =? chr "-") || (c =? chr " "))%N.

Definition address_pattern : re :=
  Grp 1 (alt [cat [plus (Chr address_class); word "Maharashtra"]; word "India";
              word "Pune"; word "Chinchwad"; word "Pimpri"; times 6 6 digit]).

Definition group_or_empty (m : match_) (i : nat) : str :=
  match group m i with Some s => s | None => [] end.

(** The coordinates a GPS match stands for: two groups are a decimal pair,
    six groups are degrees, minutes and seconds. *)
Definition coords_of_match (ngroups : nat) (m : match_) : float * float :=
  if (ngroups =? 2)%nat
  then (float_of_decimal (group_or_empty m 1), float_of_decimal (group_or_empty m 2))
  else
    let dms (d mi s : str) : float :=
      fadd (fadd (float_of_int (int_of_digits d)) (int_truediv (int_of_digits mi) 60))
           (fdiv (float_of_decimal s) 3600%Q) in
    (dms (group_or_empty m 1) (group_or_empty m 2) (group_or_empty m 3),
     dms (group_or_empty m 4) (group_or_empty m 5) (group_or_empty m 6)).

Definition in_range (lat lon : float) : bool :=
  Qle_bool (-90)%Q lat && Qle_bool lat 90%Q && Qle_bool (-180)%Q lon && Qle_bool lon 180%Q.

(** The loop over [gps_patterns] on one text: the first pattern whose match
    passes the range check. *)
Fixpoint find_gps (patterns : list (re * nat)) (text : str) : option (float * float) :=
  match patterns with
  | [] => None
  | (p, n) :: rest =>
      match search p n text with
      | Some m =>
          let '(lat, lon) := coords_of_match n m in
          if in_range lat lon then Some (lat, lon) else find_gps rest text
      | None => find_gps rest text
      end
  end.

(** Day, month and year from the three groups of a date match. *)
Definition date_fields (g1 g2 g3 : str) : Z * Z * Z :=
  if (List.length g3 =? 4)%nat
  then
    let a := int_of_digits g1 in
    let b := int_of_digits g2 in
    let y := int_of_digits g3 in
    if (12 <? a) && (1 <=? b) && (b <=? 12) then (a, b, y)
    else if (12 <? b) && (1 <=? a) && (a <=? 12) then (b, a, y)
    else (a, b, y)
  else (int_of_digits g3, int_of_digits g2, int_of_digits g1).

Definition format_date (dmy : Z * Z * Z) : str :=
  let '(d, m, y) := dmy in
  format_0d 2 d ++ py "/" ++ format_0d 2 m ++ py "/" ++ format_0d 4 y.

(** The loop over [date_patterns] on one text: the fields of the first
    pattern that matches, and the string stored in [found]. *)
Fixpoint find_date_fields (patterns : list re) (text : str) : option (Z * Z * Z) :=
  match patterns with
  | [] => None
  | p :: rest =>
      match search p 3 text with
      | Some m =>
          Some (date_fields (group_or_empty m 1) (group_or_empty m 2)
                            (group_or_empty m 3))
      | None => find_date_fields rest text
      end
  end.

Definition find_date (patterns : list re) (text : str) : option str :=
  option_map format_date (find_date_fields patterns text).

Fixpoint find_time (patterns : list re) (text : str) : option str :=
  match patterns with
  | [] => None
  | p :: rest =>
      match search p 4 text with
      | Some m =>
          let s := match group m 3 with
                   | Some (c :: r) => c :: r
                   | _ => py "00"
                   end in
          Some (strip (group_or_empty m 1 ++ py ":" ++ group_or_empty m 2 ++ py ":"
                       ++ s ++ py " " ++ group_or_empty m 4))
      | None => find_time rest text
      end
  end.

Definition find_address (text : str) : option str :=
  option_map group0 (search address_pattern 1 text).

(** The dictionary [found]. *)
Record Found : Type := mkFound {
  lat : option float;
  lon : option float;
  date : option str;
  time : option str;
  address : option str
}.

Definition found0 : Found := mkFound None None None None None.

(** One iteration of the loop over [ocr_results.items()]. *)
Definition scan (found : Found) (text : str) : Found :=
  let gps := find_gps gps_patterns text in
  mkFound
    (match gps with Some (la, _) => Some la | None => lat found end)
    (match gps with Some (_, lo) => Some lo | None => lon found end)
    (match find_date date_patterns text with Some d => Some d | None => date found end)
    (match find_time time_patterns text with Some t => Some t | None => time found end)
    (match find_address text with Some a => Some a | None => address found end).

(** The keys of [ocr_results], in the order of insertion. *)
Definition ocr_labels : list label := [cropped; full; cropped_th; full_th].

Fixpoint ocr_results (img : Image) (labels : list label) : option (list (label * str)) :=
  match labels with
  | [] => Some []
  | l :: rest =>
      match image_to_string img l with
      | None => None
      | Some text =>
          option_map (cons (l, clean_ocr_text text)) (ocr_results img rest)
      end
  end.

(** What [extract_gps_from_text_overlay] returns: the pair [(None, None)] of
    the failure paths, or the five values. *)
Inductive Overlay : Type :=
| NoneNone
| Five (lat lon : option float) (date_str time_str address : option str).

Definition extract_gps_from_text_overlay (img : Image) : Overlay :=
  if negb (cv2_imread_ok img) then NoneNone
  else
    match ocr_results img ocr_labels with
    | None => NoneNone
    | Some results =>
        let found := fold_left (fun f lt => scan f (snd lt)) results found0 in
        Five (lat found) (lon found) (date found) (time found) (address found)
    end.
(** *** EXIF helpers *)

(** [_deg_to_dms_rational] *)
Definition _deg_to_dms_rational (deg_float : float) : list (Z * Z) :=
  let deg_abs := Qabs deg_float in
  let d := py_int deg_abs in
  let m := py_int (fmul (fsub deg_abs (float_of_int d)) 60%Q) in
  let s := round_half_even
             (fmul (fmul (fsub (fsub deg_abs (float_of_int d)) (int_truediv m 60))
                         3600%Q) 100%Q) in
  [(d, 1); (m, 1); (s, 100)].

(** The dictionary [gps_ifd] of [inject_gps_into_exif]; 78, 83, 69 and 87
    are the bytes N, S, E and W. *)
Definition gps_ifd (lat lon : float) : GpsIfd :=
  mkGpsIfd (Some (if Qle_bool 0 lat then py "N" else py "S"))
           (Some (_deg_to_dms_rational lat))
           (Some (if Qle_bool 0 lon then py "E" else py "W"))
           (Some (_deg_to_dms_rational lon)).

(** [piexif.dump] packs every numerator and denominator as an unsigned
    32-bit integer and raises on any other value. *)
Definition dumpable (r : list (Z * Z)) : bool :=
  forallb (fun nd => (0 <=? fst nd) && (fst nd <? 2 ^ 32)
                     && (0 <=? snd nd) && (snd nd <? 2 ^ 32)) r.

(** [inject_gps_into_exif]: the file afterwards.  On success the EXIF block
    holds the GPS dictionary alone; any exception leaves the file as it was. *)
Definition inject_gps_into_exif (img : Image) (lat lon : float) : Image :=
  if dumpable (_deg_to_dms_rational lat) && dumpable (_deg_to_dms_rational lon)
     && pil_save_ok img
  then mkImage (cv2_imread_ok img) (image_to_string img)
               (Some (gps_ifd lat lon)) None (pil_save_ok img) (face_encodings img)
  else img.

(** [rational_to_float]; [None] is the exception of a short sequence or of a
    zero denominator. *)
Definition rational_to_float (rat : list (Z * Z)) : option float :=
  match rat with
  | (a, b) :: (c, d) :: (e, f) :: _ =>
      if (b =? 0) || (d =? 0) || (f =? 0) then None
      else Some (fadd (fadd (fdiv (float_of_int a) (float_of_int b))
                            (fdiv (fdiv (float_of_int c) (float_of_int d)) 60%Q))
                      (fdiv (fdiv (float_of_int e) (float_of_int f)) 3600%Q))
  | _ => None
  end.

(** [extract_gps_from_exif]: [None] is the pair [(None, None)]. *)
Definition extract_gps_from_exif (img : Image) : option (float * float) :=
  match exif_gps img with
  | None => None
  | Some gps =>
      match GPSLatitude gps with
      | None => None
      | Some rlat =>
          match rational_to_float rlat, GPSLongitude gps with
          | Some lat, Some rlon =>
              match rational_to_float rlon, GPSLatitudeRef gps, GPSLongitudeRef gps with
              | Some lon, Some latref, Some lonref =>
                  Some (if str_eqb latref (py "S") then (- lat)%Q else lat,
                        if str_eqb lonref (py "W") then (- lon)%Q else lon)
              | _, _, _ => None
              end
          | _, _ => None
          end
      end
  end.

(** [extract_datetime_from_exif] *)
Definition extract_datetime_from_exif (img : Image) : option datetime :=
  exif_datetime img.

(** *** Datetime from the overlay *)

(** [datetime.strptime]: the directives of the formats used below, with the
    regular expression the library compiles each one to (matched ignoring
    case), and the conversion of the matched fields. *)
Inductive directive : Type :=
| pct_d | pct_m | pct_Y | pct_I | pct_H | pct_M | pct_S | pct_p
| Literal (c : string)
| Space.

Definition range (lo hi : string) : re :=
  Chr (fun x => (chr lo <=? x) && (x <=? chr hi))%N.

Definition directive_re (d : directive) : re :=
  match d with
  | pct_d => Grp 1 (alt [cat [lit "3"; range "0" "1"]; cat [range "1" "2"; digit];
                         cat [lit "0"; range "1" "9"]; range "1" "9";
                         cat [lit " "; range "1" "9"]])
  | pct_m => Grp 2 (alt [cat [lit "1"; range "0" "2"]; cat [lit "0"; range "1" "9"];
                         range "1" "9"])
  | pct_Y => Grp 3 (times 4 4 digit)
  | pct_I => Grp 4 (alt [cat [lit "1"; range "0" "2"]; cat [lit "0"; range "1" "9"];
                         range "1" "9"])
  | pct_H => Grp 5 (alt [cat [lit "2"; range "0" "3"]; cat [range "0" "1"; digit];
                         digit])
  | pct_M => Grp 6 (alt [cat [range "0" "5"; digit]; digit])
  | pct_S => Grp 7 (alt [cat [lit "6"; range "0" "1"]; cat [range "0" "5"; digit];
                         digit])
  | pct_p => Grp 8 (alt [cat [ilit "a"; ilit "m"]; cat [ilit "p"; ilit "m"]])
  | Literal c => lit c
  | Space => plus ws
  end.

Definition int_field (m : match_) (i : nat) (default : Z) : Z :=
  match group m i with
  | Some s => int_of_digits (strip s)
  | None => default
  end.

Definition strptime (data_string : str) (format : list directive) : option datetime :=
  match match_at (cat (map directive_re format)) 8 data_string with
  | Some (m, []) =>
      let hour :=
        match group m 5, group m 4 with
        | Some h, _ => int_of_digits h
        | None, Some h =>
            let h := int_of_digits h in
            let ampm := lower (group_or_empty m 8) in
            if str_eqb ampm (py "pm")
            then (if h =? 12 then h else h + 12)
            else (if h =? 12 then 0 else h)
        | None, None => 0
        end in
      make_datetime (int_field m 3 1900) (int_field m 2 1) (int_field m 1 1)
                    hour (int_field m 6 0) (int_field m 7 0)
  | _ => None
  end.

(** The formats of [extract_datetime_from_text_overlay], in order. *)
Definition formats : list (list directive) :=
  let date_part := [pct_d; Literal "/"; pct_m; Literal "/"; pct_Y; Space] in
  [ date_part ++ [pct_I; Literal ":"; pct_M; Literal ":"; pct_S; Space; pct_p];
    date_part ++ [pct_I; Literal ":"; pct_M; Space; pct_p];
    date_part ++ [pct_H; Literal ":"; pct_M; Literal ":"; pct_S];
    date_part ++ [pct_H; Literal ":"; pct_M] ].

Fixpoint first_format (data_string : str) (fmts : list (list directive))
    : option datetime * bool :=
  match fmts with
  | [] => (None, false)
  | fmt :: rest =>
      match strptime data_string fmt with
      | Some dt => (Some dt, true)
      | None => first_format data_string rest
      end
  end.

(** [extract_datetime_from_text_overlay]: the pair (datetime, ok). *)
Definition extract_datetime_from_text_overlay (img : Image) : option datetime * bool :=
  match extract_gps_from_text_overlay img with
  | NoneNone => (None, false)
  | Five _ _ date_str time_str _ =>
      match date_str, time_str with
      | Some (c :: d), Some (e :: t) =>
          let time_str := strip (replace (py "  ") (py " ") (upper (e :: t))) in
          first_format ((c :: d) ++ py " " ++ time_str) formats
      | _, _ => (None, false)
      end
  end.

(** *** Main extraction *)

(** The five values [lat, lon, dt, address, method]. *)
Record Evidence : Type := mkEvidence {
  ev_lat : option float;
  ev_lon : option float;
  ev_dt : option datetime;
  ev_address : option str;
  ev_method : option str
}.

(** [extract_gps_and_datetime]: the five values and the photo file as the
    call leaves it. *)
Definition extract_gps_and_datetime (img : Image) : M (Evidence * Image) :=
  match extract_gps_from_exif img with
  | Some (lat, lon) =>
      ret (mkEvidence (Some lat) (Some lon) (extract_datetime_from_exif img)
                      (Some []) (Some (py "EXIF")), img)
  | None =>
      match extract_gps_from_text_overlay img with
      | NoneNone => raise (PyError "ValueError: not enough values to unpack")
      | Five (Some lat) (Some lon) _ _ address =>
          match extract_datetime_from_text_overlay img with
          | (Some dt, true) =>
              n <- now ;;
              if date_eqb (dt_date dt) (dt_date n)
              then ret (mkEvidence (Some lat) (Some lon) (Some dt) address
                                   (Some (py "OCR+Injected")),
                        inject_gps_into_exif img lat lon)
              else ret (mkEvidence None None None address
                                   (Some (py "DATE_MISMATCH")), img)
          | _ => ret (mkEvidence None None None address
                                 (Some (py "TIME_PARSE_FAILED")), img)
          end
      | Five _ _ _ _ _ => ret (mkEvidence None None None None None, img)
      end
  end.

(** [validate_photo_time]; [upload_time] is [None] when the argument is
    left out, and the clock is read then. *)
Definition validate_photo_time (photo_datetime upload_time : option datetime)
    (max_minutes_diff : Z) : M (bool * str) :=
  match photo_datetime with
  | None => ret (false, py "No time extracted from photo")
  | Some photo =>
      reference_time <- match upload_time with
                        | Some u => ret u
                        | None => now
                        end ;;
      let time_diff :=
        Qabs (fdiv (total_seconds (timedelta_us photo reference_time)) 60%Q) in
      if Qle_bool time_diff (inject_Z max_minutes_diff)
      then ret (true, py "Photo time valid (diff from upload: "
                      ++ format_f 1 time_diff ++ py " min)")
      else ret (false, py "Photo time differs from upload time by "
                       ++ format_f 1 time_diff ++ py " minutes (max allowed: "
                       ++ str_of_Z max_minutes_diff ++ py " min)")
  end.

End GpsExtractor.

(** ** [routes/employee_routes.py] *)

Module EmployeeRoutes.
Import GpsExtractor.

Definition nl : str := [10%N].

(** [verify_face_match]; [stored_path] is [None] when the employee has no
    photo, and the stored file exists when the services know it. *)
Definition verify_face_match (svc : Services) (uploaded : Image)
    (stored_path : option str) : bool * str :=
  match face_encodings uploaded with
  | inl e => (false, py "Face verification error: " ++ e)
  | inr O => (false, py "No face detected in uploaded photo")
  | inr (S (S _)) =>
      (false, py "Multiple faces detected. Please upload photo with single face")
  | inr (S O) =>
      match match stored_path with
            | Some p => stored_photo svc p
            | None => None
            end with
      | None => (false, py "Employee face not found in database")
      | Some stored =>
          match face_encodings stored with
          | inl e => (false, py "Face verification error: " ++ e)
          | inr O => (false, py "Database face image is invalid")
          | inr (S _) =>
              if compare_faces svc stored uploaded
              then (true, py "Face verified successfully")
              else (false, py "Face verification failed - faces do not match")
          end
      end
  end.

(** [get_address_from_coordinates] *)
Definition get_address_from_coordinates (svc : Services) (lat lon : float) : str :=
  match nominatim_display_name svc lat lon with
  | Some display_name => display_name
  | None => py "Location: " ++ format_f 6 lat ++ py ", " ++ format_f 6 lon
  end.

(** [is_within_site_range]: the loop over [sites], with [closest_distance]
    as it stands on entry. *)
Fixpoint is_within_site_range_from (svc : Services) (emp_lat emp_lon : float)
    (sites : list Site.t) (radius_km : float) (closest_distance : xfloat)
    : bool * option Site.t * xfloat :=
  match sites with
  | [] => (false, None, closest_distance)
  | site :: rest =>
      match geodesic_km svc (emp_lat, emp_lon)
                        (Site.latitude site, Site.longitude site) with
      | None => is_within_site_range_from svc emp_lat emp_lon rest radius_km
                                          closest_distance
      | Some distance =>
          let closest_distance :=
            if xfloat_ltb distance closest_distance
            then Finite distance else closest_distance in
          if Qle_bool distance radius_km
          then (true, Some site, Finite distance)
          else is_within_site_range_from svc emp_lat emp_lon rest radius_km
                                         closest_distance
      end
  end.

Definition is_within_site_range (svc : Services) (emp_lat emp_lon : float)
    (sites : list Site.t) (radius_km : float) : bool * option Site.t * xfloat :=
  is_within_site_range_from svc emp_lat emp_lon sites radius_km PosInf.

(** [format_time_12hour] on a datetime that is not [None]. *)
Definition format_time_12hour (dt : datetime) : str :=
  lstrip_by (fun c => (c =? chr "0")%N) (strftime_I_M_p dt).

(** [calculate_working_hours] *)
Definition calculate_working_hours (in_time out_time : option datetime) : str :=
  match in_time, out_time with
  | Some i, Some o =>
      let secs := total_seconds (timedelta_us o i) in
      let hours := py_int (float_floordiv secs 3600%Q) in
      let minutes := py_int (float_floordiv (float_mod secs 3600%Q) 60%Q) in
      str_of_Z hours ++ py ":" ++ format_0d 2 minutes
  | _, _ => py "0:00"
  end.

(** [determine_attendance_status] *)
Definition determine_attendance_status (in_time out_time : option datetime) : str :=
  match in_time, out_time with
  | None, None => py "Absent"
  | _, _ =>
      let valid_in :=
        match in_time with
        | Some i => time_leb (mktime 7 45 0 0) (dt_time i)
                    && time_leb (dt_time i) (mktime 8 15 0 0)
        | None => false
        end in
      let valid_out :=
        match out_time with
        | Some o => time_leb (mktime 18 0 0 0) (dt_time o)
        | None => false
        end in
      if valid_in && valid_out then py "Full Day" else py "Half Day"
  end.

(** The body of the loop of [cleanup_incomplete_attendance] over the
    records of earlier days. *)
Definition finalize (a : Attendance.t) : Attendance.t :=
  match Attendance.in_time a, Attendance.out_time a with
  | Some _, None => Attendance.set_status a (py "Half Day") (Some (py "0:00"))
  | None, Some _ => Attendance.set_status a (py "Half Day") (Some (py "0:00"))
  | None, None => Attendance.set_status a (py "Absent") (Some (py "0:00"))
  | Some _, Some _ => a
  end.

(** [cleanup_incomplete_attendance] *)
Definition cleanup_incomplete_attendance (employee_id : Z) : M unit :=
  n <- now ;;
  let today := dt_date n in
  d <- get_db ;;
  let swept :=
    map (fun a => if (Attendance.employee_id a =? employee_id)
                     && date_ltb (Attendance.date a) today
                  then finalize a else a) (attendance d) in
  let d1 := with_attendance d swept in
  let today_attendance := attendance_first d1 employee_id today in
  let d2 :=
    match today_attendance with
    | Some a =>
        match Attendance.in_time a, Attendance.out_time a with
        | None, None => with_attendance d1 (delete_attendance a (attendance d1))
        | _, _ => d1
        end
    | None => d1
    end in
  let d3 :=
    match today_attendance with
    | Some a =>
        match Attendance.in_time a with
        | Some i =>
            if date_ltb (dt_date i) today
            then with_attendance d2 (delete_attendance a (attendance d2))
            else d2
        | None => d2
        end
    | None => d2
    end in
  commit d3.

(** [url_for] on the endpoint [admin.approve_attendance]: the rule of the
    endpoint is "/attendance/approve/<int:approval_id>", and the URL is built
    only when the values give [approval_id]; werkzeug raises [BuildError]
    otherwise. *)
Definition url_for_approve_attendance (values : list string) : bool :=
  existsb (String.eqb "approval_id") values.

(** [send_admin_approval_email].  The whole body is one [try] block whose
    handler returns [False]: the function returns [True] when every call in
    it goes through and [False] as soon as one raises.  The calls, in order:
    the query [Admin.query.filter_by(is_active=True)], [url_for] with the
    values [employee_id], [attendance_type] and [date], and the rest (the
    admins' addresses, the message, [mail.send]), which is the oracle
    [mail_delivered]. *)
Definition send_admin_approval_email (emp : Employee.t) (attendance_type : AttType)
    (lat lon : float) (address reason : str) : M bool :=
  svc <- services ;;
  let sent :=
    if negb (Admin.filter_by_builds "is_active") then false
    else if negb (url_for_approve_attendance
                    ["employee_id"; "attendance_type"; "date"]%string)
         then false
         else mail_delivered svc (Employee.id emp) attendance_type lat lon
                             address reason in
  emit (AdminEmail sent) ;;;
  ret sent.

Definition title (t : AttType) : str :=
  match t with type_in => py "In" | type_out => py "Out" end.

Definition allowed_photo (name : str) : bool :=
  let l := lower name in
  endswith (py ".jpg") l || endswith (py ".jpeg") l || endswith (py ".png") l.

Definition failed_to_notify : str :=
  py "Failed to send approval request to admin. Please contact support.".

Definition pending_msg (address formatted_time : str) (distance : xfloat) : str :=
  py "Attendance request sent for admin approval." ++ nl
  ++ py "Your location: " ++ slice_to 100 address ++ py "..." ++ nl
  ++ py "Time: " ++ formatted_time ++ nl
  ++ py "Reason: Outside site range (" ++ format_xf 2 distance
  ++ py "km from nearest site)" ++ nl
  ++ py "Admin will review and approve if valid.".

Definition success_msg (attendance_type : AttType) (address formatted_time : str)
    (site_name : str) (distance : xfloat) : str :=
  title attendance_type ++ py " attendance marked successfully!" ++ nl
  ++ py "Location: " ++ slice_to 100 address ++ py "..." ++ nl
  ++ py "Photo Time: " ++ formatted_time ++ py " (extracted from photo)" ++ nl
  ++ py "Site: " ++ site_name ++ py " (Distance: " ++ format_xf 2 distance ++ py "km)".

Definition reason_msg (distance : xfloat) : str :=
  py "Employee location is outside the 2km range of assigned sites. Closest site distance: "
  ++ format_xf 2 distance ++ py "km".

(** The last step of [process_attendance], once the evidence is accepted:
    proximity, sweep, today's record, and the commit of either branch. *)
Definition record_attendance (emp : Employee.t) (attendance_type : AttType)
    (lat lon : float) (address : str) (current_time : datetime) : M (bool * str) :=
  let formatted_time := format_time_12hour current_time in
  svc <- services ;;
  d0 <- get_db ;;
  let employee_sites :=
    filter (fun s => match Employee.branch_id emp with
                     | Some b => Site.branch_id s =? b
                     | None => false
                     end) (site d0) in
  emit ProximityCheck ;;;
  let '(within_range, matched_site, distance) :=
    is_within_site_range svc lat lon employee_sites 2%Q in
  let today := dt_date current_time in
  cleanup_incomplete_attendance (Employee.id emp) ;;;
  d1 <- get_db ;;
  (* attendance, the database with it added, and [attendance.id] as read
     before any flush *)
  let '(attendance, d2, attendance_id) :=
    match attendance_first d1 (Employee.id emp) today with
    | Some a => (a, d1, Some (Attendance.id a))
    | None =>
        let '(a, d') := insert_attendance d1 (Employee.id emp) today in
        (a, d', None)
    end in
  if within_range
  then
    match matched_site with
    | None => raise (PyError "AttributeError")
    | Some matched =>
        let a1 :=
          if is_in attendance_type
          then Attendance.set_site_id
                 (Attendance.set_in attendance (Some current_time)
                    (Attendance.in_photo attendance) (Some lat) (Some lon)
                    (Some address))
                 (Some (Site.id matched))
          else Attendance.set_out attendance (Some current_time)
                 (Attendance.out_photo attendance) (Some lat) (Some lon)
                 (Some address) in
        let a2 :=
          Attendance.set_status a1
            (determine_attendance_status (Attendance.in_time a1) (Attendance.out_time a1))
            (Some (calculate_working_hours (Attendance.in_time a1)
                                           (Attendance.out_time a1))) in
        commit (with_attendance d2 (update_attendance a2 (Models.attendance d2))) ;;;
        ret (true, success_msg attendance_type address formatted_time
                               (Site.name matched) distance)
    end
  else
    let reason := reason_msg distance in
    let a1 := Attendance.set_pending attendance true (Some attendance_type)
                (Some lat) (Some lon) (Some address) (Some current_time) None in
    created <- utcnow ;;
    let d3 := with_attendance d2 (update_attendance a1 (Models.attendance d2)) in
    let d4 := insert_approval d3
                (fun i => AttendanceApproval.mk i (Employee.id emp) attendance_id
                            today attendance_type None lat lon (Some address)
                            current_time (py "Pending") None created None None) in
    commit d4 ;;;
    email_sent <- send_admin_approval_email emp attendance_type lat lon address reason ;;
    if email_sent
    then ret (true, pending_msg address formatted_time distance)
    else ret (false, failed_to_notify).

(** [stored_face_path]: the employee's photo in the upload folder, [None]
    for an employee without one. *)
Definition stored_face_path (emp : Employee.t) : option str :=
  match Employee.photo emp with
  | Some (c :: p) => Some (c :: p)
  | _ => None
  end.

(** [process_attendance] *)
Definition process_attendance (emp : Employee.t) (photo_file : option FileStorage)
    (attendance_type : AttType) : M (bool * str) :=
  match photo_file with
  | None => ret (false, py "Please upload a photo.")
  | Some photo =>
      match filename photo with
      | [] => ret (false, py "Please upload a photo.")
      | _ :: _ =>
          if negb (allowed_photo (filename photo))
          then ret (false, py "Please upload a valid image file (JPG, JPEG, or PNG).")
          else
            svc <- services ;;
            emit FaceVerification ;;;
            let '(face_match, face_message) :=
              verify_face_match svc (content photo) (stored_face_path emp) in
            if negb face_match
            then ret (false, py "Face verification failed: " ++ face_message)
            else
              emit EvidenceExtraction ;;;
              ev_file <- extract_gps_and_datetime (content photo) ;;
              let ev := fst ev_file in
              match ev_lat ev, ev_lon ev with
              | Some lat, Some lon =>
                  emit ReverseGeocoding ;;;
                  let address := get_address_from_coordinates svc lat lon in
                  match ev_dt ev with
                  | None =>
                      ret (false, py "Failed to extract date/time from photo. Please ensure the GPS photo shows a clear date and time overlay.")
                  | Some current_time =>
                      n <- now ;;
                      if negb (date_eqb (dt_date current_time) (dt_date n))
                      then ret (false, py "Photo date does not match today's date. Please use a fresh GPS photo taken today.")
                      else
                        upload_time <- now ;;
                        let time_diff_minutes :=
                          Qabs (fdiv (total_seconds (timedelta_us current_time upload_time))
                                     60%Q) in
                        if negb (Qle_bool time_diff_minutes 10%Q)
                        then ret (false,
                                  py "Time validation failed: Photo time differs from upload time by "
                                  ++ format_f 1 time_diff_minutes
                                  ++ py " minutes (max allowed: 10 min)")
                        else record_attendance emp attendance_type lat lon address
                                               current_time
                  end
              | _, _ =>
                  ret (false, py "Failed to extract GPS information from photo. Please ensure your GPS photo has clear, visible coordinates and date/time overlay. Try taking a new photo with better lighting or clearer text.")
              end
      end
  end.

(** The session of a request and the response of a handler. *)
Record Session : Type := mkSession {
  user_type : option str;
  user_id : option Z;
  admin_id : option Z
}.

Inductive Response : Type := Redirect (endpoint : string).

(** The decorator [login_required] of the employee routes. *)
Definition login_required (session : Session) (func : Z -> M Response) : M Response :=
  match user_type session, user_id session with
  | Some ut, Some uid =>
      if str_eqb ut (py "employee") && negb (uid =? 0)
      then func uid
      else flash (py "Please log in first.") (py "danger") ;;;
           ret (Redirect "employee.employee_login")
  | _, _ =>
      flash (py "Please log in first.") (py "danger") ;;;
      ret (Redirect "employee.employee_login")
  end.

Definition must_mark_in_first : str :=
  py "You must mark IN attendance before marking OUT attendance.".

(** [attendance_out] *)
Definition attendance_out (session : Session) (photo_file : option FileStorage)
    : M Response :=
  login_required session (fun uid =>
    d <- get_db ;;
    match find (fun e => Employee.id e =? uid) (employee d) with
    | None => now ;;; raise (PyError "AttributeError")
    | Some emp =>
        n <- now ;;
        let today := dt_date n in
        match attendance_first d (Employee.id emp) today with
        | Some attendance =>
            match Attendance.in_time attendance with
            | Some _ =>
                sm <- process_attendance emp photo_file type_out ;;
                flash (snd sm) (if fst sm then py "success" else py "danger") ;;;
                ret (Redirect "employee.employee_dashboard")
            | None =>
                flash must_mark_in_first (py "danger") ;;;
                ret (Redirect "employee.employee_dashboard")
            end
        | None =>
            flash must_mark_in_first (py "danger") ;;;
            ret (Redirect "employee.employee_dashboard")
        end
    end).

(** [attendance_in] *)
Definition attendance_in (session : Session) (photo_file : option FileStorage)
    : M Response :=
  login_required session (fun uid =>
    d <- get_db ;;
    match find (fun e => Employee.id e =? uid) (employee d) with
    | None => raise (PyError "AttributeError")
    | Some emp =>
        sm <- process_attendance emp photo_file type_in ;;
        flash (snd sm) (if fst sm then py "success" else py "danger") ;;;
        ret (Redirect "employee.employee_dashboard")
    end).

(** [extract_gps_from_photo]: the pair [(lat, lon)], [None] for
    [(None, None)], and the photo file as the call leaves it.  The handler of
    the [try] block turns every exception into [(None, None)]. *)
Definition extract_gps_from_photo (img : Image) : M (option (float * float) * Image) :=
  fun w =>
    match extract_gps_and_datetime img w with
    | Done (ev, file) w' =>
        match ev_lat ev, ev_lon ev with
        | Some lat, Some lon => Done (Some (lat, lon), file) w'
        | _, _ => Done (None, file) w'
        end
    | Raised _ w' => Done (None, img) w'
    end.

(** [validate_gps_photo] *)
Definition validate_gps_photo (photo_file : option FileStorage) : M (bool * str) :=
  match photo_file with
  | None => ret (false, py "No photo uploaded")
  | Some photo =>
      match filename photo with
      | [] => ret (false, py "No photo uploaded")
      | _ :: _ =>
          if negb (allowed_photo (filename photo))
          then ret (false, py "Invalid file type. Only JPG, JPEG, or PNG allowed")
          else
            found <- extract_gps_from_photo (content photo) ;;
            match fst found with
            | None => ret (false, py "Photo does not contain GPS location data")
            | Some (lat, lon) =>
                if negb (Qle_bool (-90)%Q lat && Qle_bool lat 90%Q)
                   || negb (Qle_bool (-180)%Q lon && Qle_bool lon 180%Q)
                then ret (false, py "Invalid GPS coordinates in photo")
                else ret (true, py "GPS photo validated successfully")
            end
      end
  end.

(** The records selected by the first query of
    [cleanup_all_incomplete_attendance], whatever their date: not both times
    are set. *)
Definition incomplete (a : Attendance.t) : bool :=
  match Attendance.in_time a, Attendance.out_time a with
  | Some _, Some _ => false
  | _, _ => true
  end.

(** [cleanup_all_incomplete_attendance]; the body of its first loop is that
    of the loop of [cleanup_incomplete_attendance]. *)
Definition cleanup_all_incomplete_attendance : M unit :=
  n <- now ;;
  let today := dt_date n in
  d <- get_db ;;
  let swept :=
    map (fun a => if date_ltb (Attendance.date a) today && incomplete a
                  then finalize a else a) (attendance d) in
  let empty_today_records :=
    filter (fun a => date_eqb (Attendance.date a) today
                     && match Attendance.in_time a, Attendance.out_time a with
                        | None, None => true
                        | _, _ => false
                        end) swept in
  commit (with_attendance d
            (fold_left (fun l record => delete_attendance record l)
                       empty_today_records swept)).

(** [clear_today_attendance] *)
Definition clear_today_attendance (session : Session) : M Response :=
  login_required session (fun uid =>
    d <- get_db ;;
    match find (fun e => Employee.id e =? uid) (employee d) with
    | None =>
        now ;;;
        flash (py "Failed to clear attendance: 'NoneType' object has no attribute 'id'")
              (py "danger") ;;;
        ret (Redirect "employee.employee_dashboard")
    | Some emp =>
        n <- now ;;
        let today := dt_date n in
        match attendance_first d (Employee.id emp) today with
        | Some today_attendance =>
            commit (with_attendance d
                      (delete_attendance today_attendance (Models.attendance d))) ;;;
            flash (py "Today's attendance cleared successfully!") (py "success") ;;;
            ret (Redirect "employee.employee_dashboard")
        | None =>
            flash (py "No attendance record found for today.") (py "info") ;;;
            ret (Redirect "employee.employee_dashboard")
        end
    end).

End EmployeeRoutes.

(** ** [routes/admin_routes.py] *)

Module AdminRoutes.
Import EmployeeRoutes.

(** The decorator [login_required] of the admin routes. *)
Definition login_required (session : Session) (func : Z -> M Response) : M Response :=
  match admin_id session with
  | Some aid => func aid
  | None =>
      flash (py "Please log in first.") (py "danger") ;;;
      ret (Redirect "admin.login")
  end.

(** [AttendanceApproval.query.get_or_404(approval_id)] *)
Definition get_or_404 (d : DB) (approval_id : Z) : M AttendanceApproval.t :=
  match find (fun a => AttendanceApproval.id a =? approval_id)
             (attendance_approval d) with
  | Some a => ret a
  | None => raise NotFound404
  end.

(** [admin.id] for [admin = Admin.query.get(session["admin_id"])] *)
Definition admin_dot_id (d : DB) (aid : Z) : M Z :=
  match find (fun a => Admin.id a =? aid) (admins d) with
  | Some a => ret (Admin.id a)
  | None => raise (PyError "AttributeError")
  end.

(** The seven assignments that clear the pending approval of a record. *)
Definition clear_pending (a : Attendance.t) : Attendance.t :=
  Attendance.set_pending a false None None None None None None.

(** [approve_attendance]; [remarks] is the field of the form, if sent. *)
Definition approve_attendance (session : Session) (remarks : option str)
    (approval_id : Z) : M Response :=
  login_required session (fun aid =>
    d <- get_db ;;
    approval <- get_or_404 d approval_id ;;
    approved_at <- utcnow ;;
    approved_by <- admin_dot_id d aid ;;
    let approval' :=
      AttendanceApproval.decide approval (py "Approved") approved_at approved_by
        (match remarks with Some r => r | None => [] end) in
    let d1 := with_attendance_approval d
                (update_approval approval' (attendance_approval d)) in
    let '(attendance, d2) :=
      match attendance_first d1 (AttendanceApproval.employee_id approval)
                             (AttendanceApproval.date approval) with
      | Some a => (a, d1)
      | None => insert_attendance d1 (AttendanceApproval.employee_id approval)
                                  (AttendanceApproval.date approval)
      end in
    let a1 :=
      if is_in (AttendanceApproval.attendance_type approval)
      then Attendance.set_in attendance
             (Some (AttendanceApproval.time approval))
             (AttendanceApproval.photo approval)
             (Some (AttendanceApproval.latitude approval))
             (Some (AttendanceApproval.longitude approval))
             (AttendanceApproval.address approval)
      else Attendance.set_out attendance
             (Some (AttendanceApproval.time approval))
             (AttendanceApproval.photo approval)
             (Some (AttendanceApproval.latitude approval))
             (Some (AttendanceApproval.longitude approval))
             (AttendanceApproval.address approval) in
    let a2 := clear_pending a1 in
    let a3 :=
      Attendance.set_status a2
        (determine_attendance_status (Attendance.in_time a2) (Attendance.out_time a2))
        (Some (calculate_working_hours (Attendance.in_time a2)
                                       (Attendance.out_time a2))) in
    commit (with_attendance d2 (update_attendance a3 (Models.attendance d2))) ;;;
    flash (py "Attendance approved successfully!") (py "success") ;;;
    ret (Redirect "admin.dashboard")).

(** [reject_attendance] *)
Definition reject_attendance (session : Session) (remarks : option str)
    (approval_id : Z) : M Response :=
  login_required session (fun aid =>
    d <- get_db ;;
    approval <- get_or_404 d approval_id ;;
    approved_at <- utcnow ;;
    approved_by <- admin_dot_id d aid ;;
    let approval' :=
      AttendanceApproval.decide approval (py "Rejected") approved_at approved_by
        (match remarks with Some r => r | None => py "Rejected by admin" end) in
    let d1 := with_attendance_approval d
                (update_approval approval' (attendance_approval d)) in
    let d2 :=
      match attendance_first d1 (AttendanceApproval.employee_id approval)
                             (AttendanceApproval.date approval) with
      | Some attendance =>
          with_attendance d1 (update_attendance (clear_pending attendance)
                                                (Models.attendance d1))
      | None => d1
      end in
    commit d2 ;;;
    flash (py "Attendance rejected successfully!") (py "success") ;;;
    ret (Redirect "admin.dashboard")).

(** [ALLOWED_EXTENSIONS] of [config.py], as [create_app] loads it into
    [app.config]. *)
Definition ALLOWED_EXTENSIONS : list str := [py "png"; py "jpg"; py "jpeg"; py "gif"].

(** The characters of [s] before its first dot, all of [s] without one. *)
Fixpoint before_first_dot (s : str) : str :=
  match s with
  | [] => []
  | c :: s' => if (c =? chr ".")%N then [] else c :: before_first_dot s'
  end.

(** [filename.rsplit(".", 1)[1]] for a name with a dot: what follows the
    last dot. *)
Definition rsplit_dot_1 (filename : str) : str :=
  rev (before_first_dot (rev filename)).

(** [allowed_file] *)
Definition allowed_file (filename : str) : bool :=
  existsb (N.eqb (chr ".")) filename
  && existsb (str_eqb (lower (rsplit_dot_1 filename))) ALLOWED_EXTENSIONS.

(** The keyword arguments of the [render_template] call of [dashboard]. *)
Module DashboardContext.
Record t : Type := mk {
  admin : option Admin.t;
  pending_approvals : list AttendanceApproval.t;
  total_employees : Z;
  present_today : Z;
  full_day : Z;
  half_day : Z;
  absent : Z;
  today : pydate
}.
End DashboardContext.



End AdminRoutes.

(** ** Tables and views used in the statements *)

(** Writing a row back into a table: the row with its key is replaced. *)
Definition put {A : Type} (key : A -> Z) (a : A) (l : list A) : list A :=
  map (fun x => if key x =? key a then a else x) l.

(** The pending side-channel of a record with no request pending. *)
Definition no_pending : bool * option AttType * option float * option float
                        * option str * option datetime * option str :=
  (false, None, None, None, None, None, None).

(** The sites of the employee's branch, as [record_attendance] queries them. *)
Definition employee_sites (d : DB) (emp : Employee.t) : list Site.t :=
  filter (fun s => match Employee.branch_id emp with
                   | Some b => Site.branch_id s =? b
                   | None => false
                   end) (site d).

(** ** The last reading of a field *)

(** The value of the last element that has one. *)
Definition last_found {A : Type} (l : list (option A)) : option A :=
  fold_left (fun acc o => match o with Some x => Some x | None => acc end) l None.

(** ** Distances to sites *)

(** The distance from a point to a site, when geopy computes one. *)
Definition site_distance (svc : Services) (lat lon : float) (s : Site.t)
    : option float :=
  geodesic_km svc (lat, lon) (Site.latitude s, Site.longitude s).

(** The site is within the radius of the point. *)
Definition within (svc : Services) (lat lon radius_km : float) (s : Site.t) : bool :=
  match site_distance svc lat lon s with
  | Some d => Qle_bool d radius_km
  | None => false
  end.

(** [m <= d], where [m] may be [float('inf')]. *)
Definition xle_float (m : xfloat) (d : float) : Prop :=
  match m with
  | Finite q => (q <= d)%Q
  | PosInf => False
  end.

(** ** Well-formed databases and views of a record *)

(** No key occurs twice. *)
Fixpoint unique (ids : list Z) : bool :=
  match ids with
  | [] => true
  | i :: rest => negb (existsb (Z.eqb i) rest) && unique rest
  end.

(** The primary keys of a database: unique in each table, and below the
    next value of the table's sequence. *)
Definition pk_ok (d : DB) : bool :=
  unique (map Attendance.id (attendance d))
  && forallb (fun a => Attendance.id a <? attendance_id_seq d) (attendance d)
  && unique (map AttendanceApproval.id (attendance_approval d))
  && forallb (fun a => AttendanceApproval.id a <? attendance_approval_id_seq d)
             (attendance_approval d).

(** Everything of a record but its pending approval: the key, the IN and
    OUT slots, the site, the status and the working hours. *)
Definition slots (a : Attendance.t) :=
  (Attendance.id a, Attendance.employee_id a, Attendance.date a,
   (Attendance.in_time a, Attendance.in_photo a, Attendance.in_latitude a,
    Attendance.in_longitude a, Attendance.in_address a),
   (Attendance.out_time a, Attendance.out_photo a, Attendance.out_latitude a,
    Attendance.out_longitude a, Attendance.out_address a),
   Attendance.site_id a, Attendance.status a, Attendance.working_hours a).

(** The pending approval of a record. *)
Definition pending (a : Attendance.t) :=
  (Attendance.pending_approval a, Attendance.pending_type a,
   Attendance.pending_latitude a, Attendance.pending_longitude a,
   Attendance.pending_address a, Attendance.pending_time a,
   Attendance.pending_photo a).

(** [Attendance.query.get(i)] *)
Definition attendance_get (d : DB) (i : Z) : option Attendance.t :=
  find (fun a => Attendance.id a =? i) (attendance d).

(** Exactly one of IN and OUT is populated. *)
Definition half_open (a : Attendance.t) : bool :=
  match Attendance.in_time a, Attendance.out_time a with
  | Some _, None | None, Some _ => true
  | _, _ => false
  end.



(** ** A sample deployment

    One branch with one site, one employee, one admin; a GPS-camera photo
    taken some 23 km from the site; the clock at 08:07 on 22 September 2025
    (02:37 UTC). *)

Module Sample.

Definition today : pydate := mkdate 2025 9 22.

Definition overlay : str :=
  py "Lat 18.5913 Long 73.7389 22/09/2025 08:05 AM Hinjewadi, Pune".

Definition photo_image : Image :=
  mkImage true
          (fun l => match l with
                    | cropped | cropped_th => Some overlay
                    | full | full_th => Some (py "GPS Map Camera")
                    end)
          None None true (inr 1%nat).

Definition reference_image : Image :=
  mkImage true (fun _ => Some []) None None true (inr 1%nat).

Definition photo : FileStorage := mkFileStorage (py "checkin.JPG") photo_image.

Definition office : Site.t :=
  Site.mk 1 (py "Head Office") (py "Shivajinagar, Pune")
          (float_of_decimal (py "18.5204")) (float_of_decimal (py "73.8567")) 1.

Definition emp : Employee.t :=
  Employee.mk 7 (py "E007") (py "Asha") (py "asha@example.com")
              (Some (py "asha.jpg")) true (Some 1).

Definition admin : Admin.t :=
  Admin.mk 1 (py "A001") (py "Admin") (py "admin@example.com").

(** The services, with the mail boundary answering [mail]. *)
Definition services (mail : bool) : Services :=
  mkServices
    (fun n => mkdatetime today (mktime 8 7 30 (Z.of_nat n)))
    (fun n => mkdatetime today (mktime 2 37 30 (Z.of_nat n)))
    (fun _ _ => Some (py "Hinjewadi, Pune, Maharashtra, India"))
    (fun _ _ => Some (117 # 5)%Q)
    (fun p => if str_eqb p (py "asha.jpg") then Some reference_image else None)
    (fun _ _ => true)
    (fun _ _ _ _ _ _ => mail).

(** The same services for a photo taken 300 m from the site. *)
Definition services_near : Services :=
  mkServices (clock_now (services true)) (clock_utcnow (services true))
             (nominatim_display_name (services true))
             (fun _ _ => Some (3 # 10)%Q)
             (stored_photo (services true)) (compare_faces (services true))
             (mail_delivered (services true)).

(** A photo whose overlay shows the coordinates but no date and no time. *)
Definition photo_without_time : Image :=
  mkImage true (fun _ => Some (py "Lat 18.5913 Long 73.7389 Hinjewadi, Pune"))
          None None true (inr 1%nat).

(** A photo on which two OCR variants read different overlays. *)
Definition photo_two_readings : Image :=
  mkImage true
          (fun l => match l with
                    | full => Some (py "18.5204, 73.8567 22/09/2025 08:05 AM Pune")
                    | cropped_th => Some (py "19.0760, 72.8777 21/09/2025 09:15 PM Pimpri")
                    | cropped | full_th => Some []
                    end)
          None None true (inr 1%nat).

Definition world_with (mail : bool) (d : DB) : World :=
  mkWorld (services mail) d 0 [] [].

Definition empty_db : DB := mkDB [] [] 1 1 [office] [emp] [admin].

(** The world before any submission of the day. *)
Definition world (mail : bool) : World := world_with mail empty_db.

(** The database after the employee's IN submission from that photo. *)
Definition pending_db : DB :=
  match EmployeeRoutes.process_attendance emp (Some photo) type_in (world false) with
  | Done _ w => db w
  | Raised _ w => db w
  end.

(** The approval request that submission stores. *)
Definition request : AttendanceApproval.t :=
  AttendanceApproval.mk 1 7 None today type_in None
    (float_of_decimal (py "18.5913")) (float_of_decimal (py "73.7389"))
    (Some (py "Hinjewadi, Pune, Maharashtra, India"))
    (mkdatetime today (mktime 8 5 0 0)) (py "Pending") None
    (mkdatetime today (mktime 2 37 30 4)) None None.

(** A record of three days before, with the IN slot alone populated. *)
Definition half_open_record : Attendance.t :=
  Attendance.set_in (Attendance.new 1 7 (mkdate 2025 9 19))
    (Some (mkdatetime (mkdate 2025 9 19) (mktime 8 1 0 0))) None
    (Some (float_of_decimal (py "18.5204"))) (Some (float_of_decimal (py "73.8567")))
    (Some (py "Shivajinagar, Pune")).

Definition stale_db : DB := mkDB [half_open_record] [] 2 1 [office] [emp] [admin].

Definition employee_session : EmployeeRoutes.Session :=
  EmployeeRoutes.mkSession (Some (py "employee")) (Some 7) None.

Definition admin_session : EmployeeRoutes.Session :=
  EmployeeRoutes.mkSession None None (Some 1).

End Sample.
(** ** Views used in the further properties *)

(** The letters [clean_ocr_text] replaces by digits. *)
Definition confusable (c : N) : bool :=
  existsb (N.eqb c) (map fst GpsExtractor.replacements).

(** No two white-space characters follow one another. *)
Fixpoint single_spaced (s : str) : bool :=
  match s with
  | a :: (b :: _) as rest => negb (isspace a && isspace b) && single_spaced rest
  | _ => true
  end.

(** A date of the calendar with a time of day, to the second. *)
Definition valid_datetime (dt : datetime) : bool :=
  let d := dt_date dt in
  let t := dt_time dt in
  (1 <=? year d) && (year d <=? 9999) && (1 <=? month d) && (month d <=? 12)
  && (1 <=? day d) && (day d <=? days_in_month (year d) (month d))
  && (0 <=? hour t) && (hour t <=? 23) && (0 <=? minute t) && (minute t <=? 59)
  && (0 <=? second t) && (second t <=? 59) && (microsecond t =? 0).

(** The clock, read once. *)
Definition tick (w : World) : World :=
  mkWorld (env w) (db w) (S (ticks w)) (flashes w) (log w).

(** The outcomes of [extract_gps_and_datetime], one by one: the value or the
    exception, and the world the call leaves. *)
Inductive resolved (img : Image) (w : World)
    : Res (GpsExtractor.Evidence * Image) -> Prop :=
| from_exif : forall la lo,
    GpsExtractor.extract_gps_from_exif img = Some (la, lo) ->
    resolved img w
      (Done (GpsExtractor.mkEvidence (Some la) (Some lo)
               (GpsExtractor.extract_datetime_from_exif img)
               (Some []) (Some (py "EXIF")), img) w)
| unreadable :
    GpsExtractor.extract_gps_from_exif img = None ->
    GpsExtractor.extract_gps_from_text_overlay img = GpsExtractor.NoneNone ->
    resolved img w (Raised (PyError "ValueError: not enough values to unpack") w)
| injected : forall la lo d t a dt,
    GpsExtractor.extract_gps_from_exif img = None ->
    GpsExtractor.extract_gps_from_text_overlay img
    = GpsExtractor.Five (Some la) (Some lo) d t a ->
    GpsExtractor.extract_datetime_from_text_overlay img = (Some dt, true) ->
    dt_date dt = dt_date (clock_now (env w) (ticks w)) ->
    resolved img w
      (Done (GpsExtractor.mkEvidence (Some la) (Some lo) (Some dt) a
               (Some (py "OCR+Injected")),
             GpsExtractor.inject_gps_into_exif img la lo) (tick w))
| date_mismatch : forall la lo d t a dt,
    GpsExtractor.extract_gps_from_exif img = None ->
    GpsExtractor.extract_gps_from_text_overlay img
    = GpsExtractor.Five (Some la) (Some lo) d t a ->
    GpsExtractor.extract_datetime_from_text_overlay img = (Some dt, true) ->
    date_eqb (dt_date dt) (dt_date (clock_now (env w) (ticks w))) = false ->
    resolved img w
      (Done (GpsExtractor.mkEvidence None None None a (Some (py "DATE_MISMATCH")), img)
            (tick w))
| time_parse_failed : forall la lo d t a,
    GpsExtractor.extract_gps_from_exif img = None ->
    GpsExtractor.extract_gps_from_text_overlay img
    = GpsExtractor.Five (Some la) (Some lo) d t a ->
    GpsExtractor.extract_datetime_from_text_overlay img = (None, false) ->
    resolved img w
      (Done (GpsExtractor.mkEvidence None None None a (Some (py "TIME_PARSE_FAILED")),
             img) w)
| no_coordinates : forall d t a,
    GpsExtractor.extract_gps_from_exif img = None ->
    GpsExtractor.extract_gps_from_text_overlay img = GpsExtractor.Five None None d t a ->
    resolved img w (Done (GpsExtractor.mkEvidence None None None None None, img) w).

(** The world an outcome leaves. *)
Definition res_world {A : Type} (r : Res A) : World :=
  match r with
  | Done _ w => w
  | Raised _ w => w
  end.

(** The fields of an approval request other than its link to the attendance
    record, the link the session resets when the record is deleted. *)
Definition request_fields (ap : Models.AttendanceApproval.t) :=
  (Models.AttendanceApproval.id ap, Models.AttendanceApproval.employee_id ap,
   Models.AttendanceApproval.date ap, Models.AttendanceApproval.attendance_type ap,
   Models.AttendanceApproval.photo ap,
   (Models.AttendanceApproval.latitude ap, Models.AttendanceApproval.longitude ap,
    Models.AttendanceApproval.address ap, Models.AttendanceApproval.time ap),
   (Models.AttendanceApproval.status ap, Models.AttendanceApproval.remarks ap,
    Models.AttendanceApproval.created_at ap, Models.AttendanceApproval.approved_at ap,
    Models.AttendanceApproval.approved_by ap)).

(** The status and the working hours of a record agree with its times: the
    status is the one [determine_attendance_status] gives, and the working
    hours, once written, are those [calculate_working_hours] gives. *)
Definition consistent (a : Models.Attendance.t) : Prop :=
  Models.Attendance.status a
  = EmployeeRoutes.determine_attendance_status (Models.Attendance.in_time a)
                                               (Models.Attendance.out_time a)
  /\ (Models.Attendance.working_hours a = None
      \/ Models.Attendance.working_hours a
         = Some (EmployeeRoutes.calculate_working_hours (Models.Attendance.in_time a)
                                                        (Models.Attendance.out_time a))).

(** The IN slot and the OUT slot of a record. *)
Definition in_slot (a : Models.Attendance.t) :=
  (Models.Attendance.in_time a, Models.Attendance.in_photo a,
   Models.Attendance.in_latitude a, Models.Attendance.in_longitude a,
   Models.Attendance.in_address a).

Definition out_slot (a : Models.Attendance.t) :=
  (Models.Attendance.out_time a, Models.Attendance.out_photo a,
   Models.Attendance.out_latitude a, Models.Attendance.out_longitude a,
   Models.Attendance.out_address a).

(** ** Further sample worlds *)

Module Scenario.

Local Open Scope Z_scope.

(** The sample deployment with the photo taken 300 m from the site. *)
Definition near_world : World := mkWorld Sample.services_near Sample.empty_db 0 [] [].

(** The sample services with the clock at 08:20:30, a quarter of an hour
    after the photo. *)
Definition services_late : Services :=
  mkServices (fun n => mkdatetime Sample.today (mktime 8 20 30 (Z.of_nat n)))
             (clock_utcnow (Sample.services true))
             (nominatim_display_name (Sample.services true))
             (geodesic_km (Sample.services true))
             (stored_photo (Sample.services true))
             (compare_faces (Sample.services true))
             (mail_delivered (Sample.services true)).

Definition late_world : World := mkWorld services_late Sample.empty_db 0 [] [].

(** The sample services on the day after the photo. *)
Definition services_next_day : Services :=
  mkServices (fun n => mkdatetime (mkdate 2025 9 23) (mktime 8 7 30 (Z.of_nat n)))
             (clock_utcnow (Sample.services true))
             (nominatim_display_name (Sample.services true))
             (geodesic_km (Sample.services true))
             (stored_photo (Sample.services true))
             (compare_faces (Sample.services true))
             (mail_delivered (Sample.services true)).

Definition next_day_world : World :=
  mkWorld services_next_day Sample.empty_db 0 [] [].

(** A photo file that OpenCV cannot read and that carries no EXIF block. *)
Definition unreadable_photo : FileStorage :=
  mkFileStorage (py "blank.png")
                (mkImage false (fun _ => None) None None true (inr 1%nat)).

(** The sample employee without a reference photo. *)
Definition emp_without_photo : Models.Employee.t :=
  Models.Employee.mk 7 (py "E007") (py "Asha") (py "asha@example.com")
                     None true (Some 1).

End Scenario.
(** * Properties *)

Import Re GpsExtractor.

(** ** The model of the Python library on known values *)

(** Formatting and replacement. *)
Example format_and_replace :
  format_0d 2 5 = py "05" /\ format_0d 4 2025 = py "2025" /\ format_0d 2 (-5) = py "-5"
  /\ replace (py "  ") (py " ") (py "a   b  c") = py "a  b c"
  /\ format_f 2 (117 # 5) = py "23.40"
  /\ format_f 6 (-37041 # 2000) = py "-18.520500".
Proof. vm_compute. repeat split. Qed.

(** Rounding: [float("0.1")], [float("18.5913")] and [float("73.7389")] are
    the binary64 numbers Python prints with [as_integer_ratio]. *)
Example binary64_values :
  fl64 (1 # 2) = (1 # 2)%Q /\ fl64 90 = 90%Q
  /\ fl64 (1 # 10) = (3602879701896397 # 36028797018963968)%Q
  /\ float_of_decimal (py "18.5913") = (5232985734520819 # 281474976710656)%Q
  /\ float_of_decimal (py "73.7389") = (1297228447510587 # 17592186044416)%Q
  /\ float_of_decimal (py "-18.5") = (-37 # 2)%Q
  /\ py_int (-37 # 10) = -3
  /\ round_half_even (5 # 2) = 2 /\ round_half_even (-7 # 2) = -4.
Proof. vm_compute. repeat split. Qed.

(** The patterns on overlay texts. *)
Example patterns_on_overlays :
  find_gps gps_patterns (py "Lat 18.5913 Long 73.7389 22/09/2025 08:05 AM")
  = Some (float_of_decimal (py "18.5913"), float_of_decimal (py "73.7389"))
  /\ find_gps gps_patterns
       (py "18" ++ [176%N] ++ py "31'13.4" ++ [34%N] ++ py "N 73" ++ [176%N]
        ++ py "51'24.1" ++ [34%N] ++ py "E")
     = Some ((1303256507793073 # 70368744177664)%Q,
             (5197202837169009 # 70368744177664)%Q)
  /\ find_date date_patterns (py "x 15/03/2025 y") = Some (py "15/03/2025")
  /\ find_date date_patterns (py "2025-09-22") = Some (py "22/09/0025")
  /\ find_time time_patterns (py "at 9:05 PM") = Some (py "9:05:00 PM")
  /\ find_time time_patterns (py "at 19:05:33") = Some (py "19:05:33")
  /\ clean_ocr_text (py "GPS  Map Camera ") = py "6P5 Map Camera"
  /\ find_address (clean_ocr_text (py "Pimpri  Chinchwad, Maharashtra 411018, India"))
     = Some (py "Pimpri Chinchwad, Maharashtra").
Proof. vm_compute. repeat split. Qed.

(** [strptime] on the four formats. *)
Example strptime_on_formats :
  strptime (py "22/09/2025 10:35:00 AM") (nth 0 formats []) = make_datetime 2025 9 22 10 35 0
  /\ strptime (py "22/09/2025 12:35:00 am") (nth 0 formats []) = make_datetime 2025 9 22 0 35 0
  /\ strptime (py "22/09/2025 7:35:00 PM") (nth 0 formats []) = make_datetime 2025 9 22 19 35 0
  /\ strptime (py "22/09/2025 19:35:00") (nth 0 formats []) = None
  /\ strptime (py "22/09/2025 19:35:00") (nth 2 formats []) = make_datetime 2025 9 22 19 35 0
  /\ strptime (py "22/09/2025 19:35:00") (nth 3 formats []) = None
  /\ strptime (py "31/02/2025 19:35:00") (nth 2 formats []) = None
  /\ strptime (py "00/15/2025 19:35:00") (nth 2 formats []) = None.
Proof. vm_compute. repeat split. Qed.

(** Degrees to rationals, working hours, status, ordinal of a date. *)
Example conversions :
  _deg_to_dms_rational (float_of_decimal (py "18.5913")) = [(18, 1); (35, 1); (2868, 100)]
  /\ _deg_to_dms_rational (float_of_decimal (py "-33.8688")) = [(33, 1); (52, 1); (768, 100)]
  /\ rational_to_float [(179, 1); (59, 1); (6000, 100)] = Some 180%Q
  /\ toordinal (mkdate 2025 9 22) = 739516
  /\ EmployeeRoutes.calculate_working_hours
       (Some (mkdatetime (mkdate 2025 9 22) (mktime 9 0 0 0)))
       (Some (mkdatetime (mkdate 2025 9 22) (mktime 17 45 0 0))) = py "8:45"
  /\ EmployeeRoutes.determine_attendance_status
       (Some (mkdatetime (mkdate 2025 9 22) (mktime 8 0 0 0)))
       (Some (mkdatetime (mkdate 2025 9 22) (mktime 18 30 0 0))) = py "Full Day"
  /\ EmployeeRoutes.determine_attendance_status
       (Some (mkdatetime (mkdate 2025 9 22) (mktime 8 30 0 0)))
       (Some (mkdatetime (mkdate 2025 9 22) (mktime 18 30 0 0))) = py "Half Day".
Proof. vm_compute. repeat split. Qed.

Import Models EmployeeRoutes AdminRoutes.

(** ** Tables *)

Section Tables.
Context {A : Type} (key : A -> Z).

Lemma unique_not_in : forall (l : list A) (a : A),
    existsb (Z.eqb (key a)) (map key l) = false ->
    forall x, In x l -> (key x =? key a) = false.
Proof.
  induction l as [|y l IH]; simpl; intros a H x Hx; [contradiction|].
  apply orb_false_iff in H as [Hy Hl].
  destruct Hx as [->|Hx]; [now rewrite Z.eqb_sym | now apply IH].
Qed.

(** Writing back a row changes no view [v] on which it agrees with the
    stored row. *)
Lemma put_view : forall {B} (v : A -> B) (l : list A) (a a' : A),
    unique (map key l) = true -> In a l -> key a' = key a -> v a' = v a ->
    map v (put key a' l) = map v l.
Proof.
  intros B v l a a' Hu Hin Hk Hv. unfold put. rewrite Hk.
  induction l as [|y l IH]; simpl in *; [reflexivity|].
  apply andb_true_iff in Hu as [Hy Hu]. apply negb_true_iff in Hy.
  destruct Hin as [->|Hin].
  - rewrite Z.eqb_refl, Hv. f_equal.
    pose proof (unique_not_in l a Hy) as Hno.
    rewrite map_map. apply map_ext_in. intros x Hx. now rewrite (Hno x Hx).
  - destruct (key y =? key a) eqn:E.
    + apply Z.eqb_eq in E. exfalso.
      pose proof (unique_not_in l y Hy a Hin) as Hne.
      rewrite E, Z.eqb_refl in Hne. discriminate.
    + f_equal. now apply IH.
Qed.

(** After writing a row back, the first row that satisfies [p] is the
    written one, when the stored row was the first and [p] holds of both. *)
Lemma find_put : forall (p : A -> bool) (l : list A) (a a' : A),
    find p l = Some a -> key a' = key a -> p a' = true ->
    find p (put key a' l) = Some a'.
Proof.
  intros p l a a' Hf Hk Hp. unfold put. rewrite Hk.
  induction l as [|y l IH]; simpl in *; [discriminate|].
  destruct (p y) eqn:Py.
  - injection Hf as ->. now rewrite Z.eqb_refl, Hp.
  - destruct (key y =? key a); [now rewrite Hp|]. rewrite Py. now apply IH.
Qed.
End Tables.

Lemma pk_ok_unique : forall d,
    pk_ok d = true -> unique (map Attendance.id (attendance d)) = true.
Proof.
  intros d H. unfold pk_ok in H.
  repeat (apply andb_true_iff in H as [H ?]). exact H.
Qed.

Lemma pk_ok_fresh : forall d,
    pk_ok d = true ->
    forallb (fun a => Attendance.id a <? attendance_id_seq d) (attendance d) = true.
Proof.
  intros d H. unfold pk_ok in H.
  repeat (apply andb_true_iff in H as [H ?]). assumption.
Qed.

Lemma update_attendance_put : forall a l,
    update_attendance a l = put Attendance.id a l.
Proof. reflexivity. Qed.

Lemma update_approval_put : forall a l,
    update_approval a l = put AttendanceApproval.id a l.
Proof. reflexivity. Qed.

(** ** Admin decisions *)

Ltac run_monad :=
  cbv [bind ret raise get_db commit flash emit utcnow now services
       AdminRoutes.login_required get_or_404 admin_dot_id].

(** What a rejection does, for an admin in session and a stored request. *)
Lemma reject_attendance_run :
  forall (w : World) (session : Session) (remarks : option str)
         (approval_id aid : Z) (approval : AttendanceApproval.t) (admin : Admin.t),
    pk_ok (db w) = true ->
    admin_id session = Some aid ->
    find (fun a => AttendanceApproval.id a =? approval_id)
         (attendance_approval (db w)) = Some approval ->
    find (fun a => Admin.id a =? aid) (admins (db w)) = Some admin ->
    exists w' approval',
      reject_attendance session remarks approval_id w
      = Done (Redirect "admin.dashboard") w'
      /\ find (fun a => AttendanceApproval.id a =? approval_id)
              (attendance_approval (db w')) = Some approval'
      /\ AttendanceApproval.status approval' = py "Rejected"
      /\ AttendanceApproval.approved_by approval' = Some (Admin.id admin)
      /\ AttendanceApproval.approved_at approval'
         = Some (clock_utcnow (env w) (ticks w))
      /\ AttendanceApproval.remarks approval'
         = Some (match remarks with Some r => r | None => py "Rejected by admin" end)
      /\ (forall a,
             attendance_first (db w) (AttendanceApproval.employee_id approval)
                              (AttendanceApproval.date approval) = Some a ->
             exists a',
               attendance_first (db w') (AttendanceApproval.employee_id approval)
                                (AttendanceApproval.date approval) = Some a'
               /\ pending a' = no_pending /\ slots a' = slots a)
      /\ map slots (attendance (db w')) = map slots (attendance (db w)).
Proof.
  intros w session remarks approval_id aid approval admin Hpk Hs Hap Had.
  unfold reject_attendance. run_monad. rewrite Hs, Hap. cbn. rewrite Had. cbn.
  pose proof (pk_ok_unique _ Hpk) as Hua.
  assert (Hid : AttendanceApproval.id approval = approval_id).
  { apply find_some in Hap as [_ E]. now apply Z.eqb_eq in E. }
  set (approval' := AttendanceApproval.decide approval _ _ _ _).
  eexists. exists approval'. split; [reflexivity|]. cbn.
  assert (Hfind : find (fun a => AttendanceApproval.id a =? approval_id)
                       (update_approval approval' (attendance_approval (db w)))
                  = Some approval').
  { rewrite update_approval_put.
    apply find_put with (a := approval); auto.
    cbn. rewrite Hid. apply Z.eqb_refl. }
  unfold attendance_first. cbn.
  destruct (find _ (attendance (db w))) as [a|] eqn:Ha; cbn.
  - repeat split; auto.
    + intros a0 H0. injection H0 as <-. exists (clear_pending a). repeat split.
      apply (@find_put _ Attendance.id _ _ a (clear_pending a)); auto.
      apply find_some in Ha as [_ E]. exact E.
    + apply (@put_view _ Attendance.id _ slots _ a (clear_pending a)); auto.
      now apply find_some in Ha as [I _].
  - repeat split; auto. intros a0 H0. discriminate.
Qed.

(** ** The daily sweep *)

Lemma date_ltb_not_eqb : forall a b, date_ltb a b = true -> date_eqb a b = false.
Proof.
  intros [y m d] [y' m' d']. unfold date_ltb, date_eqb. cbn [year month day].
  destruct (Z.ltb_spec y y'), (Z.eqb_spec y y'), (Z.ltb_spec m m'),
    (Z.eqb_spec m m'), (Z.ltb_spec d d'), (Z.eqb_spec d d');
    cbn; intros; try reflexivity; try discriminate; lia.
Qed.

Lemma unique_filter : forall (p : Attendance.t -> bool) l,
    unique (map Attendance.id l) = true ->
    unique (map Attendance.id (filter p l)) = true.
Proof.
  induction l as [|x l IH]; cbn; intros H; [reflexivity|].
  apply andb_true_iff in H as [Hx Hl]. apply negb_true_iff in Hx.
  destruct (p x); cbn; auto.
  rewrite (IH Hl), andb_true_r. apply negb_true_iff.
  destruct (existsb _ (map Attendance.id (filter p l))) eqn:E; [|reflexivity].
  apply existsb_exists in E as (i & Hi & Ei).
  apply in_map_iff in Hi as (y & <- & Hy). apply filter_In in Hy as [Hy _].
  assert (existsb (Z.eqb (Attendance.id x)) (map Attendance.id l) = true).
  { apply existsb_exists. exists (Attendance.id y). split; [now apply in_map|exact Ei]. }
  congruence.
Qed.

(** Deleting a row leaves the rows with other keys where they are. *)
Lemma get_delete : forall (b : Attendance.t) l i,
    (Attendance.id b =? i) = false ->
    find (fun a => Attendance.id a =? i) (delete_attendance b l)
    = find (fun a => Attendance.id a =? i) l.
Proof.
  intros b l i Hb. unfold delete_attendance.
  induction l as [|x l IH]; cbn; [reflexivity|].
  destruct (Attendance.id x =? Attendance.id b) eqn:E; cbn.
  - apply Z.eqb_eq in E. rewrite E, Hb. exact IH.
  - destruct (Attendance.id x =? i); [reflexivity|exact IH].
Qed.

Lemma get_map : forall (f : Attendance.t -> Attendance.t) l i a,
    (forall x, Attendance.id (f x) = Attendance.id x) ->
    find (fun a => Attendance.id a =? i) l = Some a ->
    find (fun a => Attendance.id a =? i) (map f l) = Some (f a).
Proof.
  intros f l i a Hf. induction l as [|x l IH]; cbn; [discriminate|].
  rewrite Hf. destruct (Attendance.id x =? i); [now intros [= ->]|exact IH].
Qed.

Lemma finalize_id : forall a, Attendance.id (finalize a) = Attendance.id a.
Proof.
  intros a. unfold finalize.
  now destruct (Attendance.in_time a), (Attendance.out_time a).
Qed.

(** A run of the per-employee sweep on a record of an earlier day of that
    employee: the run completes, and the record is still there, finalized. *)
Lemma cleanup_row :
  forall (w : World) (e i : Z) (a : Attendance.t),
    unique (map Attendance.id (attendance (db w))) = true ->
    attendance_get (db w) i = Some a ->
    Attendance.employee_id a = e ->
    date_ltb (Attendance.date a) (dt_date (clock_now (env w) (ticks w))) = true ->
    exists w',
      cleanup_incomplete_attendance e w = Done tt w'
      /\ env w' = env w /\ ticks w' = S (ticks w)
      /\ unique (map Attendance.id (attendance (db w'))) = true
      /\ attendance_get (db w') i = Some (finalize a).
Proof.
  intros w e i a Hu Hget He Hlt.
  unfold cleanup_incomplete_attendance, attendance_get in *. run_monad.
  cbn -[delete_attendance attendance_first].
  set (today := dt_date (clock_now (env w) (ticks w))) in *.
  set (sweep := fun x : Attendance.t =>
                  if (Attendance.employee_id x =? e) && date_ltb (Attendance.date x) today
                  then finalize x else x).
  assert (Hsid : forall x, Attendance.id (sweep x) = Attendance.id x).
  { intros x. unfold sweep. destruct (_ && _); [apply finalize_id|reflexivity]. }
  assert (Hus : unique (map Attendance.id (map sweep (attendance (db w)))) = true).
  { rewrite map_map. erewrite map_ext; [exact Hu|]. intros x. apply Hsid. }
  assert (Hgs : find (fun x => Attendance.id x =? i) (map sweep (attendance (db w)))
                = Some (finalize a)).
  { rewrite (get_map sweep _ i a Hsid Hget). unfold sweep.
    now rewrite He, Z.eqb_refl, Hlt. }
  assert (Hi : Attendance.id a = i).
  { apply find_some in Hget as [_ E]. now apply Z.eqb_eq in E. }
  eexists. split; [reflexivity|]. cbn -[delete_attendance attendance_first].
  repeat split.
  - repeat match goal with
           | |- context [match ?x with _ => _ end] =>
               destruct x eqn:?; cbn -[delete_attendance attendance_first]
           end;
      unfold delete_attendance; repeat apply unique_filter; exact Hus.
  - unfold attendance_first. cbn -[delete_attendance].
    destruct (find (fun a0 => (Attendance.employee_id a0 =? e)
                              && date_eqb (Attendance.date a0) today)
                   (map sweep (attendance (db w)))) as [b|] eqn:Hb;
      cbn -[delete_attendance].
    2: exact Hgs.
    assert (Hbi : (Attendance.id b =? i) = false).
    { apply find_some in Hb as [Hin Hp]. apply andb_true_iff in Hp as [_ Hd].
      destruct (Attendance.id b =? i) eqn:E; [|reflexivity]. exfalso.
      apply Z.eqb_eq in E.
      assert (b = finalize a).
      { clear - Hus Hgs Hin E.
        induction (map sweep (attendance (db w))) as [|x l IH]; cbn in *; [contradiction|].
        apply andb_true_iff in Hus as [Hx Hl]. apply negb_true_iff in Hx.
        destruct (Attendance.id x =? i) eqn:Ex.
        - injection Hgs as <-. destruct Hin as [->|Hin]; [reflexivity|].
          exfalso. apply Z.eqb_eq in Ex.
          pose proof (unique_not_in Attendance.id l x Hx b Hin) as Hne.
          rewrite E, Ex, Z.eqb_refl in Hne. discriminate.
        - destruct Hin as [->|Hin]; [rewrite E, Z.eqb_refl in Ex; discriminate|].
          now apply IH. }
      subst b. 
      assert (Attendance.date (finalize a) = Attendance.date a).
      { unfold finalize. now destruct (Attendance.in_time a), (Attendance.out_time a). }
      rewrite H in Hd. rewrite (date_ltb_not_eqb _ _ Hlt) in Hd. discriminate. }
    destruct (Attendance.in_time b), (Attendance.out_time b);
      cbn -[delete_attendance];
      repeat match goal with
             | |- context [if ?x then _ else _] => destruct x; cbn -[delete_attendance]
             end;
      rewrite ?get_delete by exact Hbi; exact Hgs.
Qed.

Lemma finalize_half_open : forall a,
    half_open a = true ->
    finalize a = Attendance.set_status a (py "Half Day") (Some (py "0:00")).
Proof.
  intros a. unfold half_open, finalize.
  destruct (Attendance.in_time a), (Attendance.out_time a);
    reflexivity || discriminate.
Qed.

Lemma finalize_twice : forall a,
    half_open a = true -> finalize (finalize a) = finalize a.
Proof.
  intros a H. rewrite (finalize_half_open a H). revert H.
  unfold half_open, finalize. cbn.
  destruct (Attendance.in_time a), (Attendance.out_time a);
    reflexivity || discriminate.
Qed.

(** C8. The per-employee sweep is idempotent on a record of an earlier day
    with exactly one of IN and OUT populated: the first run leaves the record
    in place with status "Half Day" and working hours "0:00" and nothing else
    changed, and a second run leaves that record exactly as the first run
    left it. *)
Theorem cleanup_incomplete_attendance_idempotent :
  forall (w : World) (e i : Z) (a : Attendance.t),
    pk_ok (db w) = true ->
    attendance_get (db w) i = Some a ->
    Attendance.employee_id a = e ->
    half_open a = true ->
    date_ltb (Attendance.date a) (dt_date (clock_now (env w) (ticks w))) = true ->
    date_ltb (Attendance.date a) (dt_date (clock_now (env w) (S (ticks w)))) = true ->
    exists w1 w2 a1,
      cleanup_incomplete_attendance e w = Done tt w1
      /\ attendance_get (db w1) i = Some a1
      /\ a1 = Attendance.set_status a (py "Half Day") (Some (py "0:00"))
      /\ Attendance.status a1 = py "Half Day"
      /\ Attendance.working_hours a1 = Some (py "0:00")
      /\ cleanup_incomplete_attendance e w1 = Done tt w2
      /\ attendance_get (db w2) i = Some a1.
Proof.
  intros w e i a Hpk Hget He Hho Hlt1 Hlt2.
  pose proof (pk_ok_unique _ Hpk) as Hu.
  destruct (cleanup_row w e i a Hu Hget He Hlt1) as (w1 & R1 & Henv & Htk & Hu1 & G1).
  assert (Hlt2' : date_ltb (Attendance.date (finalize a))
                           (dt_date (clock_now (env w1) (ticks w1))) = true).
  { rewrite Henv, Htk, (finalize_half_open a Hho). exact Hlt2. }
  assert (He' : Attendance.employee_id (finalize a) = e).
  { rewrite (finalize_half_open a Hho). exact He. }
  destruct (cleanup_row w1 e i (finalize a) Hu1 G1 He' Hlt2')
    as (w2 & R2 & _ & _ & _ & G2).
  rewrite (finalize_twice a Hho) in G2.
  exists w1, w2, (finalize a).
  rewrite (finalize_half_open a Hho) in *.
  repeat split; assumption.
Qed.

(** On the sample database with a half-open record of 19 September. *)
Lemma cleanup_incomplete_attendance_idempotent_witness :
  pk_ok Sample.stale_db = true
  /\ half_open Sample.half_open_record = true
  /\ exists w1 w2 a1,
      cleanup_incomplete_attendance 7 (Sample.world_with true Sample.stale_db)
      = Done tt w1
      /\ attendance_get (db w1) 1 = Some a1
      /\ Attendance.status a1 = py "Half Day"
      /\ Attendance.working_hours a1 = Some (py "0:00")
      /\ cleanup_incomplete_attendance 7 w1 = Done tt w2
      /\ attendance_get (db w2) 1 = Some a1.
Proof.
  split; [reflexivity|]. split; [reflexivity|].
  destruct (cleanup_incomplete_attendance_idempotent
              (Sample.world_with true Sample.stale_db) 7 1 Sample.half_open_record)
    as (w1 & w2 & a1 & R1 & G1 & _ & Hst & Hwh & R2 & G2).
  - reflexivity.
  - reflexivity.
  - reflexivity.
  - reflexivity.
  - reflexivity.
  - reflexivity.
  - exists w1, w2, a1. repeat split; assumption.
Defined.

(** ** Checking out *)

(** C10. For a logged-in employee, an OUT submission is handed to
    [process_attendance] only when the attendance table holds a record of
    that employee for today with a populated [in_time]; when no such record
    exists the request is answered with the must-mark-IN-first message, and
    nothing but the clock has moved: no face verification, no evidence
    extraction, no change to the database. *)
Theorem attendance_out_requires_in :
  forall (w : World) (session : Session) (photo_file : option FileStorage)
         (uid : Z) (emp : Employee.t),
    user_type session = Some (py "employee") ->
    user_id session = Some uid ->
    uid <> 0 ->
    find (fun e => Employee.id e =? uid) (employee (db w)) = Some emp ->
    let today := dt_date (clock_now (env w) (ticks w)) in
    let ticked := mkWorld (env w) (db w) (S (ticks w)) (flashes w) (log w) in
    let rejected :=
      Done (Redirect "employee.employee_dashboard")
           (mkWorld (env w) (db w) (S (ticks w))
                    (flashes w ++ [(must_mark_in_first, py "danger")]) (log w)) in
    ((forall a, In a (attendance (db w)) ->
                Attendance.employee_id a = Employee.id emp ->
                date_eqb (Attendance.date a) today = true ->
                Attendance.in_time a = None) ->
     attendance_out session photo_file w = rejected)
    /\ (attendance_out session photo_file w = rejected
        \/ (exists a t,
               In a (attendance (db w))
               /\ Attendance.employee_id a = Employee.id emp
               /\ date_eqb (Attendance.date a) today = true
               /\ Attendance.in_time a = Some t)
           /\ attendance_out session photo_file w
              = (sm <- process_attendance emp photo_file type_out ;;
                 flash (snd sm) (if fst sm then py "success" else py "danger") ;;;
                 ret (Redirect "employee.employee_dashboard")) ticked).
Proof.
  intros w session photo_file uid emp Hut Hid Hnz Hemp today ticked rejected.
  assert (Hrun : attendance_out session photo_file w
                 = match attendance_first (db w) (Employee.id emp) today with
                   | Some a =>
                       match Attendance.in_time a with
                       | Some _ =>
                           (sm <- process_attendance emp photo_file type_out ;;
                            flash (snd sm) (if fst sm then py "success" else py "danger") ;;;
                            ret (Redirect "employee.employee_dashboard")) ticked
                       | None => rejected
                       end
                   | None => rejected
                   end).
  { unfold attendance_out, EmployeeRoutes.login_required. rewrite Hut, Hid.
    replace (str_eqb (py "employee") (py "employee")) with true by reflexivity.
    replace (uid =? 0) with false by (symmetry; now apply Z.eqb_neq).
    cbn [andb negb]. unfold bind at 1. unfold get_db at 1. rewrite Hemp.
    unfold bind at 1. unfold now at 1. fold today. fold ticked.
    destruct (attendance_first (db w) (Employee.id emp) today) as [a|]; [|reflexivity].
    destruct (Attendance.in_time a); reflexivity. }
  rewrite Hrun. unfold attendance_first.
  destruct (find _ (attendance (db w))) as [a|] eqn:Ha.
  - apply find_some in Ha as [Hin Hp]. apply andb_true_iff in Hp as [He Hd].
    apply Z.eqb_eq in He.
    destruct (Attendance.in_time a) as [t|] eqn:Ht.
    + split.
      * intros Hnone. rewrite (Hnone a Hin He Hd) in Ht. discriminate.
      * right. split; [|reflexivity]. now exists a, t.
    + split; [reflexivity | now left].
  - split; [reflexivity | now left].
Qed.

(** On the sample world, where the employee has no record for today. *)
Lemma attendance_out_requires_in_witness :
  attendance_out Sample.employee_session (Some Sample.photo) (Sample.world true)
  = Done (Redirect "employee.employee_dashboard")
         (mkWorld (Sample.services true) Sample.empty_db 1
                  [(must_mark_in_first, py "danger")] []).
Proof.
  destruct (attendance_out_requires_in (Sample.world true) Sample.employee_session
              (Some Sample.photo) 7 Sample.emp) as [Hrejected _].
  - reflexivity.
  - reflexivity.
  - discriminate.
  - reflexivity.
  - apply Hrejected. intros a [].
Defined.

(** ** Submissions out of range *)

Lemma forallb_filter_ids : forall (P : Z -> bool) (q : Attendance.t -> bool) l,
    forallb (fun a => P (Attendance.id a)) l = true ->
    forallb (fun a => P (Attendance.id a)) (filter q l) = true.
Proof.
  intros P q l H. rewrite forallb_forall in *. intros x Hx.
  apply filter_In in Hx as [Hx _]. now apply H.
Qed.

(** A run of the per-employee sweep always completes; it moves the clock by
    one reading and rewrites the attendance table alone, keeping its keys
    unique and within any bound they satisfied. *)
Lemma cleanup_run : forall (w : World) (e : Z),
    exists l',
      cleanup_incomplete_attendance e w
      = Done tt (mkWorld (env w) (with_attendance (db w) l') (S (ticks w))
                         (flashes w) (log w))
      /\ (unique (map Attendance.id (attendance (db w))) = true ->
          unique (map Attendance.id l') = true)
      /\ (forall P : Z -> bool,
             forallb (fun a => P (Attendance.id a)) (attendance (db w)) = true ->
             forallb (fun a => P (Attendance.id a)) l' = true).
Proof.
  intros w e. unfold cleanup_incomplete_attendance. run_monad.
  cbn -[delete_attendance attendance_first].
  set (today := dt_date (clock_now (env w) (ticks w))).
  set (sweep := fun x : Attendance.t =>
                  if (Attendance.employee_id x =? e) && date_ltb (Attendance.date x) today
                  then finalize x else x).
  assert (Hsid : forall x, Attendance.id (sweep x) = Attendance.id x).
  { intros x. unfold sweep. destruct (_ && _); [apply finalize_id|reflexivity]. }
  assert (Hus : unique (map Attendance.id (attendance (db w))) = true ->
                unique (map Attendance.id (map sweep (attendance (db w)))) = true).
  { intros Hu. rewrite map_map. erewrite map_ext; [exact Hu|]. intros x. apply Hsid. }
  assert (Hfs : forall P : Z -> bool,
             forallb (fun a => P (Attendance.id a)) (attendance (db w)) = true ->
             forallb (fun a => P (Attendance.id a)) (map sweep (attendance (db w))) = true).
  { intros P H. rewrite forallb_forall in *. intros x Hx.
    apply in_map_iff in Hx as (y & <- & Hy). rewrite Hsid. now apply H. }
  destruct (attendance_first _ e today) as [b|];
    [destruct (Attendance.in_time b) as [i|], (Attendance.out_time b);
     try destruct (date_ltb (dt_date i) today)|];
    cbn -[delete_attendance];
    eexists; (split; [reflexivity|]); split; intros;
    unfold delete_attendance;
    repeat (apply unique_filter || apply forallb_filter_ids); auto.
Qed.

Lemma date_eqb_refl : forall d, date_eqb d d = true.
Proof. intros [y m d]. unfold date_eqb. cbn. now rewrite !Z.eqb_refl. Qed.

(** The notification never goes out: the query of the active admins names
    an attribute the [Admin] model does not have, it raises, and the handler
    of the [try] block returns [False], whatever the mail boundary would
    answer. *)
Lemma send_admin_approval_email_fails :
  forall (emp : Employee.t) (ty : AttType) (lat lon : float) (address reason : str)
         (w : World),
    send_admin_approval_email emp ty lat lon address reason w
    = Done false (mkWorld (env w) (db w) (ticks w) (flashes w)
                          (log w ++ [AdminEmail false])).
Proof. reflexivity. Qed.

(** The commit of the out-of-range branch: today's record carries the
    pending request, an approval request with the same snapshot is stored,
    and the submission is answered not accepted, the notification having
    failed. *)
Lemma record_attendance_pending :
  forall (w : World) (emp : Employee.t) (ty : AttType) (lat lon : float)
         (address : str) (current_time : datetime)
         (matched : option Site.t) (distance : xfloat),
    pk_ok (db w) = true ->
    is_within_site_range (env w) lat lon (employee_sites (db w) emp) 2%Q
    = (false, matched, distance) ->
    exists w' a ap,
      record_attendance emp ty lat lon address current_time w
      = Done (false, failed_to_notify) w'
      /\ attendance_first (db w') (Employee.id emp) (dt_date current_time) = Some a
      /\ pending a = (true, Some ty, Some lat, Some lon, Some address,
                      Some current_time, None)
      /\ In ap (attendance_approval (db w'))
      /\ AttendanceApproval.status ap = py "Pending"
      /\ (AttendanceApproval.employee_id ap, AttendanceApproval.date ap,
          AttendanceApproval.attendance_type ap)
         = (Employee.id emp, dt_date current_time, ty)
      /\ (AttendanceApproval.latitude ap, AttendanceApproval.longitude ap,
          AttendanceApproval.address ap, AttendanceApproval.time ap,
          AttendanceApproval.photo ap)
         = (lat, lon, Some address, current_time, None)
      /\ log w' = log w ++ [ProximityCheck; AdminEmail false].
Proof.
  intros w emp ty lat lon address current_time matched distance Hpk Hrange.
  unfold record_attendance. unfold bind at 1, services at 1.
  unfold bind at 1, get_db at 1. fold (employee_sites (db w) emp).
  unfold bind at 1, emit at 1. cbn [env db]. rewrite Hrange.
  set (w0 := mkWorld _ _ _ _ _).
  destruct (cleanup_run w0 (Employee.id emp)) as (l' & Hrun & Hu & Hf).
  unfold bind at 1. rewrite Hrun. unfold bind at 1, get_db at 1.
  cbn [db env ticks flashes log w0] in *.
  specialize (Hu (pk_ok_unique _ Hpk)).
  specialize (Hf (fun i => i <? attendance_id_seq (db w)) (pk_ok_fresh _ Hpk)).
  set (e := Employee.id emp) in *. set (today := dt_date current_time).
  fold e.
  set (d1 := with_attendance (db w) l').
  destruct (attendance_first d1 e today) as [a0|] eqn:Ha0.
  - cbn -[py reason_msg pending_msg format_time_12hour failed_to_notify].
    set (a1 := Attendance.set_pending a0 _ _ _ _ _ _ _).
    (eexists; exists a1; eexists; split; [reflexivity|]);
      cbn -[py reason_msg pending_msg format_time_12hour failed_to_notify];
      (split; [|split; [reflexivity|]]).
    all: try (apply (@find_put _ Attendance.id _ _ a0 a1); auto;
              apply find_some in Ha0 as [_ E]; exact E).
    all: (split; [apply in_or_app; right; left; reflexivity|]);
      repeat split; rewrite <- app_assoc; reflexivity.
  - cbn -[py reason_msg pending_msg format_time_12hour failed_to_notify
          update_attendance Attendance.new].
    set (a1 := Attendance.set_pending _ _ _ _ _ _ _ _).
    assert (Hput : update_attendance a1 (l' ++ [Attendance.new (attendance_id_seq (db w)) e today])
                   = l' ++ [a1]).
    { unfold update_attendance. rewrite map_app. cbn. rewrite Z.eqb_refl. f_equal.
      rewrite <- (map_id l') at 2. apply map_ext_in. intros x Hx.
      rewrite forallb_forall in Hf. specialize (Hf x Hx). cbn in Hf.
      apply Z.ltb_lt in Hf.
      replace (Attendance.id x =? attendance_id_seq (db w)) with false; [reflexivity|].
      symmetry. apply Z.eqb_neq. lia. }
    assert (Hfirst : find (fun a => (Attendance.employee_id a =? e)
                                    && date_eqb (Attendance.date a) today) (l' ++ [a1])
                     = Some a1).
    { unfold attendance_first in Ha0. cbn in Ha0.
      clear - Ha0. induction l' as [|x l IH]; cbn in *.
      - now rewrite Z.eqb_refl, date_eqb_refl.
      - destruct (_ && _); [discriminate|]. now apply IH. }
    (eexists; exists a1; eexists; split; [reflexivity|]);
      cbn -[py update_attendance Attendance.new reason_msg pending_msg
            format_time_12hour failed_to_notify];
      rewrite Hput;
      (split; [exact Hfirst|split; [reflexivity|]]);
      (split; [apply in_or_app; right; left; reflexivity|]);
      repeat split; rewrite <- app_assoc; reflexivity.
Qed.

(** The evidence resolver touches nothing of the world but the clock. *)
Lemma extract_gps_and_datetime_world :
  forall (img : Image) (w0 w1 : World) (r : Evidence * Image),
    extract_gps_and_datetime img w0 = Done r w1 ->
    w1 = mkWorld (env w0) (db w0) (ticks w1) (flashes w0) (log w0).
Proof.
  intros img w0 w1 r. unfold extract_gps_and_datetime.
  destruct (extract_gps_from_exif img) as [[la lo]|].
  - cbv [ret]. intros [= _ <-]. now destruct w0.
  - destruct (extract_gps_from_text_overlay img) as [|[la|] [lo|] ds ts ad];
      try (cbv [ret raise]; intros [= _ <-]; now destruct w0);
      try (cbv [raise]; discriminate).
    destruct (extract_datetime_from_text_overlay img) as [[dt|] [|]];
      try (cbv [ret]; intros [= _ <-]; now destruct w0).
    cbv [bind now]. destruct (date_eqb _ _); cbv [ret]; intros [= _ <-]; reflexivity.
Qed.

(** A submission whose photo passes the identity check, yields coordinates
    and a timestamp of today, no more than ten minutes from the upload time,
    goes on to the proximity step. *)
Lemma process_attendance_reaches_record :
  forall (w w1 : World) (emp : Employee.t) (photo : FileStorage) (ty : AttType)
         (face_message : str) (lat lon : float) (current_time : datetime)
         (ev_addr ev_meth : option str) (file : Image),
    filename photo <> [] ->
    allowed_photo (filename photo) = true ->
    verify_face_match (env w) (content photo) (stored_face_path emp)
    = (true, face_message) ->
    extract_gps_and_datetime (content photo)
      (mkWorld (env w) (db w) (ticks w) (flashes w)
               ((log w ++ [FaceVerification]) ++ [EvidenceExtraction]))
    = Done (mkEvidence (Some lat) (Some lon) (Some current_time) ev_addr ev_meth, file)
           w1 ->
    date_eqb (dt_date current_time) (dt_date (clock_now (env w) (ticks w1))) = true ->
    Qle_bool (Qabs (fdiv (total_seconds
                            (timedelta_us current_time
                                          (clock_now (env w) (S (ticks w1)))))
                         60%Q)) 10%Q = true ->
    process_attendance emp (Some photo) ty w
    = record_attendance emp ty lat lon
        (get_address_from_coordinates (env w) lat lon) current_time
        (mkWorld (env w) (db w) (S (S (ticks w1))) (flashes w)
                 (((log w ++ [FaceVerification]) ++ [EvidenceExtraction])
                  ++ [ReverseGeocoding])).
Proof.
  intros w w1 emp photo ty face_message lat lon current_time ev_addr ev_meth file
         Hname Hext Hface Hev Hdate Hskew.
  pose proof (extract_gps_and_datetime_world _ _ _ _ Hev) as Hw1.
  destruct w1 as [e1 d1 t1 f1 l1]. cbn [env db ticks flashes log] in *.
  injection Hw1 as -> -> -> ->.
  unfold process_attendance.
  destruct (filename photo) as [|c name] eqn:Hn; [contradiction|].
  rewrite Hext. cbn [negb].
  unfold bind at 1, services at 1. unfold bind at 1, emit at 1.
  cbn [env db ticks flashes log]. rewrite Hface. cbn [negb].
  unfold bind at 1, emit at 1. cbn [env db ticks flashes log].
  unfold bind at 1. rewrite Hev. cbn [fst ev_lat ev_lon ev_dt].
  unfold bind at 1, emit at 1. unfold bind at 1, now at 1.
  cbn [env db ticks flashes log].
  rewrite Hdate. cbn [negb]. unfold bind at 1, now at 1.
  cbn [env db ticks flashes log]. rewrite Hskew. cbn [negb]. reflexivity.
Qed.

(** *** The mail boundary and the commit *)







(** ** Approvals *)

(** A record created for (employee, day) and written back is the first
    record of that employee and day, when there was none and the new key is
    above the stored ones. *)
Lemma first_after_insert :
  forall (l : list Attendance.t) (k e : Z) (day : pydate) (a1 : Attendance.t),
    forallb (fun a => Attendance.id a <? k) l = true ->
    find (fun a => (Attendance.employee_id a =? e)
                   && date_eqb (Attendance.date a) day) l = None ->
    Attendance.id a1 = k -> Attendance.employee_id a1 = e -> Attendance.date a1 = day ->
    find (fun a => (Attendance.employee_id a =? e) && date_eqb (Attendance.date a) day)
         (update_attendance a1 (l ++ [Attendance.new k e day]))
    = Some a1.
Proof.
  intros l k e day a1 Hf Hnone Hk He Hd.
  unfold update_attendance. rewrite map_app. cbn. rewrite Hk, Z.eqb_refl.
  induction l as [|x l IH]; cbn in *.
  - now rewrite He, Hd, Z.eqb_refl, date_eqb_refl.
  - apply andb_true_iff in Hf as [Hx Hl]. apply Z.ltb_lt in Hx.
    replace (Attendance.id x =? k) with false by (symmetry; apply Z.eqb_neq; lia).
    destruct (_ && _); [discriminate|]. now apply IH.
Qed.

(** An approval always ends with the record of (employee, date) holding the
    snapshot in the slot of the approved direction and no pending request. *)
Lemma approve_attendance_run :
  forall (w : World) (session : Session) (remarks : option str)
         (approval_id aid : Z) (approval : AttendanceApproval.t) (admin : Admin.t),
    pk_ok (db w) = true ->
    admin_id session = Some aid ->
    find (fun a => AttendanceApproval.id a =? approval_id)
         (attendance_approval (db w)) = Some approval ->
    find (fun a => Admin.id a =? aid) (admins (db w)) = Some admin ->
    exists w' a',
      approve_attendance session remarks approval_id w
      = Done (Redirect "admin.dashboard") w'
      /\ attendance_first (db w') (AttendanceApproval.employee_id approval)
                          (AttendanceApproval.date approval) = Some a'
      /\ pending a' = no_pending
      /\ (if is_in (AttendanceApproval.attendance_type approval)
          then Attendance.in_time a' else Attendance.out_time a')
         = Some (AttendanceApproval.time approval).
Proof.
  intros w session remarks approval_id aid approval admin Hpk Hs Hap Had.
  unfold approve_attendance. run_monad. rewrite Hs, Hap. cbn -[py]. rewrite Had.
  cbn -[py update_attendance attendance_first insert_attendance
        determine_attendance_status calculate_working_hours].
  set (e := AttendanceApproval.employee_id approval).
  set (day := AttendanceApproval.date approval).
  set (ty := AttendanceApproval.attendance_type approval).
  destruct (find _ (attendance (db w))) as [a0|] eqn:Ha0.
  - eexists. eexists. split; [reflexivity|]. unfold attendance_first.
    cbn -[py update_attendance determine_attendance_status calculate_working_hours].
    split.
    { apply (@find_put _ Attendance.id _ _ a0); auto.
      - destruct ty; reflexivity.
      - apply find_some in Ha0 as [_ E]. destruct ty; exact E. }
    split; [reflexivity|destruct ty; reflexivity].
  - eexists. eexists. split; [reflexivity|]. unfold attendance_first.
    cbn -[py update_attendance determine_attendance_status calculate_working_hours
          Attendance.new].
    split.
    { apply first_after_insert; auto using pk_ok_fresh; destruct ty; reflexivity. }
    split; [reflexivity|destruct ty; reflexivity].
Qed.

(** C7. Rejecting an approval request marks it Rejected with the deciding
    admin, the decision time and the remarks; the matching attendance record,
    when there is one, has its whole pending side-channel cleared; and no
    record has its key, IN slot, OUT slot, site, status or working hours
    changed: a rejection never writes [in_time], [out_time] or their
    coordinate, address and photo fields. *)
Theorem reject_attendance_frame :
  forall (w : World) (session : Session) (remarks : option str)
         (approval_id aid : Z) (approval : AttendanceApproval.t) (admin : Admin.t),
    pk_ok (db w) = true ->
    admin_id session = Some aid ->
    find (fun a => AttendanceApproval.id a =? approval_id)
         (attendance_approval (db w)) = Some approval ->
    find (fun a => Admin.id a =? aid) (admins (db w)) = Some admin ->
    exists w' approval',
      reject_attendance session remarks approval_id w
      = Done (Redirect "admin.dashboard") w'
      /\ find (fun a => AttendanceApproval.id a =? approval_id)
              (attendance_approval (db w')) = Some approval'
      /\ AttendanceApproval.status approval' = py "Rejected"
      /\ AttendanceApproval.approved_by approval' = Some (Admin.id admin)
      /\ AttendanceApproval.approved_at approval'
         = Some (clock_utcnow (env w) (ticks w))
      /\ AttendanceApproval.remarks approval'
         = Some (match remarks with Some r => r | None => py "Rejected by admin" end)
      /\ (forall a,
             attendance_first (db w) (AttendanceApproval.employee_id approval)
                              (AttendanceApproval.date approval) = Some a ->
             exists a',
               attendance_first (db w') (AttendanceApproval.employee_id approval)
                                (AttendanceApproval.date approval) = Some a'
               /\ pending a' = no_pending /\ slots a' = slots a)
      /\ map slots (attendance (db w')) = map slots (attendance (db w)).
Proof.
  intros w session remarks approval_id aid approval admin Hpk Hs Hap Had.
  exact (reject_attendance_run w session remarks approval_id aid approval admin
                               Hpk Hs Hap Had).
Qed.

(** On the database the sample submission leaves behind. *)
Lemma reject_attendance_frame_witness :
  pk_ok Sample.pending_db = true
  /\ exists w' approval',
      reject_attendance Sample.admin_session (Some (py "Too far from the site")) 1
                        (Sample.world_with true Sample.pending_db)
      = Done (Redirect "admin.dashboard") w'
      /\ find (fun a => AttendanceApproval.id a =? 1) (attendance_approval (db w'))
         = Some approval'
      /\ AttendanceApproval.status approval' = py "Rejected"
      /\ map slots (attendance (db w')) = map slots (attendance Sample.pending_db).
Proof.
  split; [reflexivity|].
  destruct (reject_attendance_frame
              (Sample.world_with true Sample.pending_db) Sample.admin_session
              (Some (py "Too far from the site")) 1 1
              Sample.request Sample.admin)
    as (w' & approval' & Hrun & Hfind & Hst & _ & _ & _ & _ & Hslots).
  - reflexivity.
  - reflexivity.
  - reflexivity.
  - reflexivity.
  - exists w', approval'. repeat split; assumption.
Defined.

(** ** The pending side-channel *)

(** C2 (amended). After each operation that commits an attendance record,
    its pending fields are in one of two shapes.  After a submission that
    creates a pending request: the flag set, the type the submitted
    direction, latitude, longitude, address and time populated, and the
    pending photo null (photos are not stored).  After an admin approval and
    after an admin rejection: the flag cleared and every other pending field
    null. *)
Theorem pending_fields_after_commit :
  (forall (w w1 : World) (emp : Employee.t) (photo : FileStorage) (ty : AttType)
          (face_message : str) (lat lon : float) (current_time : datetime)
          (ev_addr ev_meth : option str) (file : Image)
          (matched : option Site.t) (distance : xfloat),
      pk_ok (db w) = true ->
      filename photo <> [] ->
      allowed_photo (filename photo) = true ->
      verify_face_match (env w) (content photo) (stored_face_path emp)
      = (true, face_message) ->
      extract_gps_and_datetime (content photo)
        (mkWorld (env w) (db w) (ticks w) (flashes w)
                 ((log w ++ [FaceVerification]) ++ [EvidenceExtraction]))
      = Done (mkEvidence (Some lat) (Some lon) (Some current_time) ev_addr ev_meth,
              file) w1 ->
      date_eqb (dt_date current_time) (dt_date (clock_now (env w) (ticks w1))) = true ->
      Qle_bool (Qabs (fdiv (total_seconds
                              (timedelta_us current_time
                                            (clock_now (env w) (S (ticks w1)))))
                           60%Q)) 10%Q = true ->
      is_within_site_range (env w) lat lon (employee_sites (db w) emp) 2%Q
      = (false, matched, distance) ->
      exists r w' a,
        process_attendance emp (Some photo) ty w = Done r w'
        /\ attendance_first (db w') (Employee.id emp) (dt_date current_time) = Some a
        /\ pending a
           = (true, Some ty, Some lat, Some lon,
              Some (get_address_from_coordinates (env w) lat lon),
              Some current_time, None))
  /\ (forall (w : World) (session : Session) (remarks : option str)
             (approval_id aid : Z) (approval : AttendanceApproval.t) (admin : Admin.t),
         pk_ok (db w) = true ->
         admin_id session = Some aid ->
         find (fun a => AttendanceApproval.id a =? approval_id)
              (attendance_approval (db w)) = Some approval ->
         find (fun a => Admin.id a =? aid) (admins (db w)) = Some admin ->
         exists w' a,
           approve_attendance session remarks approval_id w
           = Done (Redirect "admin.dashboard") w'
           /\ attendance_first (db w') (AttendanceApproval.employee_id approval)
                               (AttendanceApproval.date approval) = Some a
           /\ pending a = (false, None, None, None, None, None, None))
  /\ (forall (w : World) (session : Session) (remarks : option str)
             (approval_id aid : Z) (approval : AttendanceApproval.t) (admin : Admin.t)
             (a0 : Attendance.t),
         pk_ok (db w) = true ->
         admin_id session = Some aid ->
         find (fun a => AttendanceApproval.id a =? approval_id)
              (attendance_approval (db w)) = Some approval ->
         find (fun a => Admin.id a =? aid) (admins (db w)) = Some admin ->
         attendance_first (db w) (AttendanceApproval.employee_id approval)
                          (AttendanceApproval.date approval) = Some a0 ->
         exists w' a,
           reject_attendance session remarks approval_id w
           = Done (Redirect "admin.dashboard") w'
           /\ attendance_first (db w') (AttendanceApproval.employee_id approval)
                               (AttendanceApproval.date approval) = Some a
           /\ pending a = (false, None, None, None, None, None, None)).
Proof.
  split; [|split].
  - intros w w1 emp photo ty face_message lat lon current_time ev_addr ev_meth file
           matched distance Hpk Hname Hext Hface Hev Hdate Hskew Hrange.
    rewrite (process_attendance_reaches_record w w1 emp photo ty face_message lat lon
               current_time ev_addr ev_meth file Hname Hext Hface Hev Hdate Hskew).
    destruct (record_attendance_pending
                (mkWorld (env w) (db w) (S (S (ticks w1))) (flashes w)
                         (((log w ++ [FaceVerification]) ++ [EvidenceExtraction])
                          ++ [ReverseGeocoding]))
                emp ty lat lon (get_address_from_coordinates (env w) lat lon)
                current_time matched distance Hpk Hrange)
      as (w' & a & ap & Hrun & Hfirst & Hpend & _).
    eexists. exists w', a. split; [exact Hrun|]. split; assumption.
  - intros w session remarks approval_id aid approval admin Hpk Hs Hap Had.
    destruct (approve_attendance_run w session remarks approval_id aid approval admin
                                     Hpk Hs Hap Had)
      as (w' & a & Hrun & Hfirst & Hpend & _).
    exists w', a. repeat split; assumption.
  - intros w session remarks approval_id aid approval admin a0 Hpk Hs Hap Had Ha0.
    destruct (reject_attendance_run w session remarks approval_id aid approval admin
                                    Hpk Hs Hap Had)
      as (w' & ap' & Hrun & _ & _ & _ & _ & _ & Hrec & _).
    destruct (Hrec a0 Ha0) as (a & Hfirst & Hpend & _).
    exists w', a. repeat split; assumption.
Qed.

(** On the sample submission, and on approving or rejecting its request. *)
Lemma pending_fields_after_commit_witness :
  pk_ok (db (Sample.world true)) = true
  /\ pk_ok Sample.pending_db = true
  /\ (exists r w' a,
         process_attendance Sample.emp (Some Sample.photo) type_in (Sample.world true)
         = Done r w'
         /\ attendance_first (db w') 7 Sample.today = Some a
         /\ pending a
            = (true, Some type_in, Some (float_of_decimal (py "18.5913")),
               Some (float_of_decimal (py "73.7389")),
               Some (py "Hinjewadi, Pune, Maharashtra, India"),
               Some (mkdatetime Sample.today (mktime 8 5 0 0)), None))
  /\ (exists w' a,
         approve_attendance Sample.admin_session None 1
                            (Sample.world_with true Sample.pending_db)
         = Done (Redirect "admin.dashboard") w'
         /\ attendance_first (db w') 7 Sample.today = Some a
         /\ pending a = (false, None, None, None, None, None, None))
  /\ (exists w' a,
         reject_attendance Sample.admin_session None 1
                           (Sample.world_with true Sample.pending_db)
         = Done (Redirect "admin.dashboard") w'
         /\ attendance_first (db w') 7 Sample.today = Some a
         /\ pending a = (false, None, None, None, None, None, None)).
Proof.
  destruct pending_fields_after_commit as (Hsubmit & Happrove & Hreject).
  split; [reflexivity|]. split; [reflexivity|]. split; [|split].
  - apply (Hsubmit (Sample.world true)
                   (mkWorld (Sample.services true) Sample.empty_db 1 []
                            [FaceVerification; EvidenceExtraction])
                   Sample.emp Sample.photo type_in (py "Face verified successfully")
                   (float_of_decimal (py "18.5913")) (float_of_decimal (py "73.7389"))
                   (mkdatetime Sample.today (mktime 8 5 0 0))
                   (Some (py "Pune")) (Some (py "OCR+Injected"))
                   (inject_gps_into_exif Sample.photo_image
                      (float_of_decimal (py "18.5913"))
                      (float_of_decimal (py "73.7389")))
                   None (Finite (117 # 5)%Q)).
    + reflexivity.
    + discriminate.
    + reflexivity.
    + reflexivity.
    + vm_compute. reflexivity.
    + reflexivity.
    + reflexivity.
    + reflexivity.
  - apply (Happrove (Sample.world_with true Sample.pending_db) Sample.admin_session
                    None 1 1 Sample.request Sample.admin); reflexivity.
  - apply (Hreject (Sample.world_with true Sample.pending_db) Sample.admin_session
                   None 1 1 Sample.request Sample.admin
                   (Attendance.set_pending (Attendance.new 1 7 Sample.today) true
                      (Some type_in) (Some (float_of_decimal (py "18.5913")))
                      (Some (float_of_decimal (py "73.7389")))
                      (Some (py "Hinjewadi, Pune, Maharashtra, India"))
                      (Some (mkdatetime Sample.today (mktime 8 5 0 0))) None));
      reflexivity.
Defined.

(** C2, counterexample: the record committed by the sample submission has
    its pending latitude, longitude, address and time populated and its
    pending photo null. *)
Lemma pending_photo_null_while_pending :
  exists r w' a,
    process_attendance Sample.emp (Some Sample.photo) type_in (Sample.world true)
    = Done r w'
    /\ attendance_first (db w') 7 Sample.today = Some a
    /\ Attendance.pending_approval a = true
    /\ Attendance.pending_latitude a <> None
    /\ Attendance.pending_longitude a <> None
    /\ Attendance.pending_address a <> None
    /\ Attendance.pending_time a <> None
    /\ Attendance.pending_photo a = None.
Proof.
  eexists. eexists. eexists. split; [vm_compute; reflexivity|].
  split; [vm_compute; reflexivity|]. cbn. repeat split; discriminate.
Qed.

(** ** Proximity *)

Section Proximity.
Variables (svc : Services) (lat lon radius_km : float).

Lemma is_within_site_range_from_first :
  forall (pre post : list Site.t) (s : Site.t) (d : float) (closest : xfloat),
    (forall x, In x pre -> within svc lat lon radius_km x = false) ->
    site_distance svc lat lon s = Some d ->
    Qle_bool d radius_km = true ->
    is_within_site_range_from svc lat lon (pre ++ s :: post) radius_km closest
    = (true, Some s, Finite d).
Proof.
  induction pre as [|x pre IH]; intros post s d closest Hpre Hd Hle; cbn.
  - unfold site_distance in Hd. now rewrite Hd, Hle.
  - pose proof (Hpre x (or_introl eq_refl)) as Hx. unfold within, site_distance in Hx.
    destruct (geodesic_km svc _ _) as [dx|]; [rewrite Hx|];
      apply IH; auto; intros y Hy; apply Hpre; now right.
Qed.

Lemma is_within_site_range_from_none :
  forall (sites : list Site.t) (closest : xfloat),
    (forall x, In x sites -> within svc lat lon radius_km x = false) ->
    exists m,
      is_within_site_range_from svc lat lon sites radius_km closest = (false, None, m)
      /\ (forall c, closest = Finite c -> xle_float m c)
      /\ (forall x d, In x sites -> site_distance svc lat lon x = Some d -> xle_float m d)
      /\ (m = closest
          \/ exists x, In x sites /\ site_distance svc lat lon x = Some (match m with
                                                                       | Finite q => q
                                                                       | PosInf => 0%Q
                                                                       end)
                       /\ m <> PosInf).
Proof.
  induction sites as [|x sites IH]; intros closest Hall; cbn.
  - exists closest. split; [reflexivity|]. split.
    + intros c ->. cbn. apply Qle_refl.
    + split; [intros x d []|now left].
  - pose proof (Hall x (or_introl eq_refl)) as Hx.
    assert (Hrest : forall y, In y sites -> within svc lat lon radius_km y = false)
      by (intros y Hy; apply Hall; now right).
    unfold within, site_distance in Hx.
    destruct (geodesic_km svc (lat, lon) _) as [dx|] eqn:Hdx.
    + rewrite Hx.
      destruct (IH (if xfloat_ltb dx closest then Finite dx else closest) Hrest)
        as (m & Hrun & Hm & Hmin & Hwhich).
      exists m. split; [exact Hrun|].
      assert (Hmdx : xle_float m dx).
      { destruct (xfloat_ltb dx closest) eqn:Hlt; [now apply Hm|].
        destruct closest as [c|]; [|discriminate]. cbn in Hlt.
        apply negb_false_iff, Qle_bool_iff in Hlt.
        specialize (Hm c eq_refl). destruct m as [q|]; [|contradiction].
        cbn in *. eapply Qle_trans; eauto. }
      split; [|split].
      * intros c ->. destruct (xfloat_ltb dx (Finite c)) eqn:Hlt; [|now apply Hm].
        cbn in Hlt. apply negb_true_iff in Hlt.
        destruct m as [q|]; [|contradiction]. cbn in *.
        apply Qle_trans with dx; [exact Hmdx|].
        apply Qlt_le_weak, Qnot_le_lt. intros Hc.
        apply Qle_bool_iff in Hc. congruence.
      * intros y d [<-|Hy] Hd.
        -- unfold site_distance in Hd. rewrite Hdx in Hd. now injection Hd as <-.
        -- now apply (Hmin y d).
      * destruct Hwhich as [->|(y & Hy & Hd & Hne)].
        -- destruct (xfloat_ltb dx closest); [|now left].
           right. exists x. split; [now left|]. split; [exact Hdx|discriminate].
        -- right. exists y. split; [now right|]. split; assumption.
    + destruct (IH closest Hrest) as (m & Hrun & Hm & Hmin & Hwhich).
      exists m. split; [exact Hrun|]. split; [exact Hm|]. split.
      * intros y d [<-|Hy] Hd; [unfold site_distance in Hd; congruence|].
        now apply (Hmin y d).
      * destruct Hwhich as [->|(y & Hy & Hd & Hne)]; [now left|].
        right. exists y. split; [now right|]. split; assumption.
Qed.
End Proximity.

(** C6 (amended). With the radius of 2.0 km: when some candidate site is
    within the radius, the check returns true with the first such site in
    iteration order and the distance to it, whether or not another site is
    nearer; when no site is within the radius, it returns false with no site
    at all ([None]) and the least of the distances to the sites, however
    large (infinity when no distance could be computed). *)
Theorem is_within_site_range_first_or_least :
  forall (svc : Services) (lat lon : float) (sites : list Site.t),
    (forall (pre post : list Site.t) (s : Site.t) (d : float),
        sites = pre ++ s :: post ->
        (forall x, In x pre -> within svc lat lon 2%Q x = false) ->
        site_distance svc lat lon s = Some d ->
        Qle_bool d 2%Q = true ->
        is_within_site_range svc lat lon sites 2%Q = (true, Some s, Finite d))
    /\ ((forall x, In x sites -> within svc lat lon 2%Q x = false) ->
        exists m,
          is_within_site_range svc lat lon sites 2%Q = (false, None, m)
          /\ (forall x d, In x sites -> site_distance svc lat lon x = Some d ->
                          xle_float m d)
          /\ ((m = PosInf
               /\ forall x, In x sites -> site_distance svc lat lon x = None)
              \/ exists x d, In x sites /\ site_distance svc lat lon x = Some d
                             /\ m = Finite d)).
Proof.
  intros svc lat lon sites. split.
  - intros pre post s d -> Hpre Hd Hle. unfold is_within_site_range.
    now apply is_within_site_range_from_first.
  - intros Hall. unfold is_within_site_range.
    destruct (is_within_site_range_from_none svc lat lon 2%Q sites PosInf Hall)
      as (m & Hrun & _ & Hmin & Hwhich).
    exists m. split; [exact Hrun|]. split; [exact Hmin|].
    destruct Hwhich as [->|(x & Hx & Hd & Hne)].
    + left. split; [reflexivity|]. intros x Hx.
      destruct (site_distance svc lat lon x) as [d|] eqn:Hd; [|reflexivity].
      destruct (Hmin x d Hx Hd).
    + right. destruct m as [q|]; [|congruence]. now exists x, q.
Qed.

(** On the sample site, 300 m away and 23.4 km away. *)
Lemma is_within_site_range_first_or_least_witness :
  is_within_site_range Sample.services_near
    (float_of_decimal (py "18.5213")) (float_of_decimal (py "73.8545"))
    [Sample.office] 2%Q
  = (true, Some Sample.office, Finite (3 # 10)%Q)
  /\ exists m,
      is_within_site_range (Sample.services true)
        (float_of_decimal (py "18.5913")) (float_of_decimal (py "73.7389"))
        [Sample.office] 2%Q
      = (false, None, m)
      /\ xle_float m (117 # 5)%Q.
Proof.
  split.
  - apply (proj1 (is_within_site_range_first_or_least Sample.services_near
                    (float_of_decimal (py "18.5213")) (float_of_decimal (py "73.8545"))
                    [Sample.office]) [] [] Sample.office (3 # 10)%Q).
    + reflexivity.
    + intros x [].
    + reflexivity.
    + reflexivity.
  - destruct (proj2 (is_within_site_range_first_or_least (Sample.services true)
                       (float_of_decimal (py "18.5913"))
                       (float_of_decimal (py "73.7389")) [Sample.office]))
      as (m & Hrun & Hmin & _).
    + intros x [<-|[]]. reflexivity.
    + exists m. split; [exact Hrun|].
      apply (Hmin Sample.office); [now left|reflexivity].
Defined.

(** C6, counterexample: with the single site 23.4 km away the check returns
    the distance but no site, not the nearest site. *)
Lemma is_within_site_range_returns_no_site :
  is_within_site_range (Sample.services true)
    (float_of_decimal (py "18.5913")) (float_of_decimal (py "73.7389"))
    [Sample.office] 2%Q
  = (false, None, Finite (117 # 5)%Q)
  /\ site_distance (Sample.services true)
       (float_of_decimal (py "18.5913")) (float_of_decimal (py "73.7389"))
       Sample.office
     = Some (117 # 5)%Q.
Proof. split; reflexivity. Qed.

(** ** The overlay extractor *)

(** C5 (amended). For a numeric date n1/n2/yyyy with a four-digit year, the
    resulting (day, month) is (n1, n2) when the first component exceeds 12,
    (n2, n1) when the second component exceeds 12 and the first lies between
    1 and 12, and (n1, n2) when both are at most 12; "15/03/2025" yields day
    15, month 3, "03/15/2025" yields day 15, month 3, and "03/04/2025" yields
    day 3, month 4. *)
Theorem date_fields_disambiguation :
  forall g1 g2 g3 : str,
    List.length g3 = 4%nat ->
    let n1 := int_of_digits g1 in
    let n2 := int_of_digits g2 in
    let yyyy := int_of_digits g3 in
    (12 < n1 -> date_fields g1 g2 g3 = (n1, n2, yyyy))
    /\ (12 < n2 -> 1 <= n1 <= 12 -> date_fields g1 g2 g3 = (n2, n1, yyyy))
    /\ (n1 <= 12 -> n2 <= 12 -> date_fields g1 g2 g3 = (n1, n2, yyyy))
    /\ find_date_fields date_patterns (py "15/03/2025") = Some (15, 3, 2025)
    /\ find_date_fields date_patterns (py "03/15/2025") = Some (15, 3, 2025)
    /\ find_date_fields date_patterns (py "03/04/2025") = Some (3, 4, 2025).
Proof.
  intros g1 g2 g3 Hlen n1 n2 yyyy. unfold date_fields. rewrite Hlen. cbn [Nat.eqb].
  fold n1 n2 yyyy.
  repeat split; try (vm_compute; reflexivity); intros;
    destruct (Z.ltb_spec 12 n1), (Z.ltb_spec 12 n2), (Z.leb_spec 1 n1),
      (Z.leb_spec 1 n2), (Z.leb_spec n1 12), (Z.leb_spec n2 12);
    cbn; try reflexivity; lia.
Qed.

(** On the dates of the three examples. *)
Lemma date_fields_disambiguation_witness :
  List.length (py "2025") = 4%nat
  /\ date_fields (py "03") (py "15") (py "2025") = (15, 3, 2025)
  /\ date_fields (py "15") (py "03") (py "2025") = (15, 3, 2025)
  /\ date_fields (py "03") (py "04") (py "2025") = (3, 4, 2025).
Proof.
  split; [reflexivity|]. split; [|split].
  - apply (proj1 (proj2 (date_fields_disambiguation (py "03") (py "15") (py "2025")
                           eq_refl))); vm_compute; intuition discriminate.
  - apply (proj1 (date_fields_disambiguation (py "15") (py "03") (py "2025") eq_refl)).
    reflexivity.
  - apply (proj1 (proj2 (proj2 (date_fields_disambiguation (py "03") (py "04")
                                   (py "2025") eq_refl)))); vm_compute; discriminate.
Defined.

(** C5, counterexample: in "00/15/2025" the second component exceeds 12 and
    the components are not swapped: day 0, month 15. *)
Lemma date_fields_zero_first_not_swapped :
  find_date_fields date_patterns (py "00/15/2025") = Some (0, 15, 2025)
  /\ 12 < int_of_digits (py "15")
  /\ date_fields (py "00") (py "15") (py "2025") <> (15, 0, 2025).
Proof.
  split; [vm_compute; reflexivity|]. split; [reflexivity|]. vm_compute. discriminate.
Qed.

(** C4. When the metadata carries no coordinates, the overlay yields a
    coordinate pair, and no datetime can be rebuilt from the date and time
    strings of the overlay, the resolver returns latitude, longitude and
    timestamp all null with the reason TIME_PARSE_FAILED (a reason of no
    other outcome): the coordinates found are dropped; the photo is left as
    it was. *)
Theorem extract_gps_and_datetime_time_parse_failed :
  forall (img : Image) (w : World) (lat lon : float)
         (date_str time_str address : option str),
    extract_gps_from_exif img = None ->
    extract_gps_from_text_overlay img
    = Five (Some lat) (Some lon) date_str time_str address ->
    fst (extract_datetime_from_text_overlay img) = None
    \/ snd (extract_datetime_from_text_overlay img) = false ->
    extract_gps_and_datetime img w
    = Done (mkEvidence None None None address (Some (py "TIME_PARSE_FAILED")), img) w
    /\ py "TIME_PARSE_FAILED" <> py "DATE_MISMATCH"
    /\ py "TIME_PARSE_FAILED" <> py "OCR+Injected"
    /\ py "TIME_PARSE_FAILED" <> py "EXIF".
Proof.
  intros img w lat lon date_str time_str address Hexif Hocr Hdt.
  split; [|repeat split; vm_compute; discriminate].
  unfold extract_gps_and_datetime. rewrite Hexif, Hocr.
  destruct (extract_datetime_from_text_overlay img) as [[dt|] [|]];
    cbn in Hdt; try reflexivity.
  destruct Hdt; discriminate.
Qed.

(** On a photo whose overlay shows coordinates and no time. *)
Lemma extract_gps_and_datetime_time_parse_failed_witness :
  extract_gps_from_text_overlay Sample.photo_without_time
  = Five (Some (float_of_decimal (py "18.5913"))) (Some (float_of_decimal (py "73.7389")))
         None None (Some (py "Pune"))
  /\ extract_gps_and_datetime Sample.photo_without_time (Sample.world true)
     = Done (mkEvidence None None None (Some (py "Pune"))
                        (Some (py "TIME_PARSE_FAILED")),
             Sample.photo_without_time) (Sample.world true).
Proof.
  split; [vm_compute; reflexivity|].
  apply (extract_gps_and_datetime_time_parse_failed Sample.photo_without_time
           (Sample.world true) (float_of_decimal (py "18.5913"))
           (float_of_decimal (py "73.7389")) None None (Some (py "Pune"))).
  - reflexivity.
  - vm_compute. reflexivity.
  - left. vm_compute. reflexivity.
Defined.

(** C3 (amended). The extractor scans the four OCR variants in the fixed
    order lower-crop, full, lower-crop-thresholded, full-thresholded.  Each
    field is decided on its own: the returned coordinates are those of the
    last variant in that order whose text yields a range-validated pair, and
    the date, the time and the address are each the match of the last variant
    in that order that has one. *)
Theorem extract_gps_from_text_overlay_last_variant :
  forall (img : Image) (t_cropped t_full t_cropped_th t_full_th : str),
    cv2_imread_ok img = true ->
    image_to_string img cropped = Some t_cropped ->
    image_to_string img full = Some t_full ->
    image_to_string img cropped_th = Some t_cropped_th ->
    image_to_string img full_th = Some t_full_th ->
    let texts := map clean_ocr_text [t_cropped; t_full; t_cropped_th; t_full_th] in
    ocr_labels = [cropped; full; cropped_th; full_th]
    /\ extract_gps_from_text_overlay img
       = Five (option_map fst (last_found (map (find_gps gps_patterns) texts)))
              (option_map snd (last_found (map (find_gps gps_patterns) texts)))
              (last_found (map (find_date date_patterns) texts))
              (last_found (map (find_time time_patterns) texts))
              (last_found (map find_address texts)).
Proof.
  intros img t_cropped t_full t_cropped_th t_full_th Hread Hc Hf Hct Hft texts.
  split; [reflexivity|].
  unfold extract_gps_from_text_overlay, ocr_labels, ocr_results.
  rewrite Hread, Hc, Hf, Hct, Hft. subst texts.
  cbn [negb option_map map fold_left snd last_found].
  unfold scan. cbn [lat lon date time address found0].
  destruct (find_gps gps_patterns (clean_ocr_text t_cropped)) as [[la1 lo1]|],
           (find_gps gps_patterns (clean_ocr_text t_full)) as [[la2 lo2]|],
           (find_gps gps_patterns (clean_ocr_text t_cropped_th)) as [[la3 lo3]|],
           (find_gps gps_patterns (clean_ocr_text t_full_th)) as [[la4 lo4]|];
    reflexivity.
Qed.

(** On the sample photo. *)
Lemma extract_gps_from_text_overlay_last_variant_witness :
  extract_gps_from_text_overlay Sample.photo_image
  = Five (Some (float_of_decimal (py "18.5913"))) (Some (float_of_decimal (py "73.7389")))
         (Some (py "22/09/2025")) (Some (py "08:05:00 AM")) (Some (py "Pune")).
Proof.
  destruct (extract_gps_from_text_overlay_last_variant Sample.photo_image
              Sample.overlay (py "GPS Map Camera") Sample.overlay (py "GPS Map Camera"))
    as [_ H].
  - reflexivity.
  - reflexivity.
  - reflexivity.
  - reflexivity.
  - reflexivity.
  - rewrite H. vm_compute. reflexivity.
Defined.

(** C3, counterexample: the full variant reads one overlay and the
    thresholded lower crop another; the full variant comes first in the
    order full, lower-crop, full-thresholded, lower-crop-thresholded, yet the
    coordinates, the date, the time and the address returned are those of
    the thresholded lower crop. *)
Lemma extract_gps_from_text_overlay_not_first_variant :
  find_gps gps_patterns
           (clean_ocr_text (py "18.5204, 73.8567 22/09/2025 08:05 AM Pune"))
  = Some (float_of_decimal (py "18.5204"), float_of_decimal (py "73.8567"))
  /\ find_date date_patterns
               (clean_ocr_text (py "18.5204, 73.8567 22/09/2025 08:05 AM Pune"))
     = Some (py "22/09/2025")
  /\ extract_gps_from_text_overlay Sample.photo_two_readings
     = Five (Some (float_of_decimal (py "19.0760")))
            (Some (float_of_decimal (py "72.8777")))
            (Some (py "21/09/2025")) (Some (py "09:15:00 PM")) (Some (py "Pimpri")).
Proof. repeat split; vm_compute; reflexivity. Qed.

(** ** Floating point *)

Local Open Scope Q_scope.

Lemma round_half_even_bounds : forall x : Q,
    x - (1 # 2) <= inject_Z (round_half_even x) <= x + (1 # 2).
Proof.
  intros x. unfold round_half_even.
  pose proof (Qfloor_le x) as Hl. pose proof (Qlt_floor x) as Hu.
  rewrite inject_Z_plus in Hu. change (inject_Z 1) with 1 in Hu.
  destruct (Qcompare (x - inject_Z (Qfloor x)) (1 # 2)) eqn:E.
  - apply Qeq_alt in E.
    destruct (Z.even (Qfloor x)); rewrite ?inject_Z_plus;
      change (inject_Z 1) with 1; lra.
  - apply Qlt_alt in E. lra.
  - apply Qgt_alt in E. rewrite inject_Z_plus. change (inject_Z 1) with 1. lra.
Qed.

Lemma py_int_bounds : forall x : Q,
    x - 1 < inject_Z (py_int x) < x + 1
    /\ (0 <= x -> 0 <= inject_Z (py_int x) <= x)
    /\ (x <= 0 -> x <= inject_Z (py_int x) <= 0).
Proof.
  intros [n d]. unfold py_int. cbn [Qnum Qden].
  pose proof (Z.quot_rem' n (Zpos d)) as Hqr.
  pose proof (Z.rem_bound_abs n (Zpos d) ltac:(discriminate)) as Hb.
  set (q := Z.quot n (Zpos d)) in *. set (r := Z.rem n (Zpos d)) in *.
  unfold Qlt, Qle, Qminus, Qplus, Qopp, inject_Z. cbn.
  split; [split; nia|]. split.
  - intros Hn. assert (0 <= n)%Z by lia.
    pose proof (Z.rem_nonneg n (Zpos d) ltac:(discriminate) H) as Hr.
    pose proof (Z.quot_pos n (Zpos d) H ltac:(lia)) as Hq.
    fold q in Hq. fold r in Hr. split; nia.
  - intros Hn. assert (n <= 0)%Z by lia.
    pose proof (Z.rem_nonpos n (Zpos d) ltac:(discriminate) H) as Hr.
    fold r in Hr. split; nia.
Qed.

Lemma pow2_pos : forall e : Z, 0 < pow2 e.
Proof. intros e. apply Qpower_0_lt. reflexivity. Qed.

Lemma pow2_add : forall a b : Z, pow2 (a + b) == pow2 a * pow2 b.
Proof. intros a b. apply Qpower_plus. discriminate. Qed.

Lemma pow2_inject : forall k : Z, (0 <= k)%Z -> pow2 k == inject_Z (2 ^ k).
Proof. intros k Hk. unfold pow2. now rewrite Zpower_Qpower. Qed.

Lemma binade_le : forall a : Q, 0 < a -> pow2 (binade a) <= a.
Proof.
  intros a Ha. unfold binade.
  destruct (Qle_bool _ a) eqn:E; [now apply Qle_bool_iff|]. clear E.
  destruct a as [n d]. cbn [Qnum Qden].
  assert (Hn : (0 < n)%Z).
  { unfold Qlt in Ha. cbn in Ha. lia. }
  pose proof (Z.log2_spec n Hn) as [Hln _].
  pose proof (Z.log2_spec (Zpos d) ltac:(lia)) as [_ Hld].
  pose proof (Z.log2_nonneg n) as Hln0.
  pose proof (Z.log2_nonneg (Zpos d)) as Hld0.
  set (ln := Z.log2 n) in *. set (ld := Z.log2 (Zpos d)) in *.
  assert (HD : 0 < pow2 (ld + 1)) by apply pow2_pos.
  apply Qmult_le_r with (z := pow2 (ld + 1)); [exact HD|].
  rewrite <- pow2_add.
  replace (ln - ld - 1 + (ld + 1))%Z with ln by lia.
  rewrite !pow2_inject by lia.
  replace (Z.succ ld) with (ld + 1)%Z in Hld by lia.
  assert (HA : (0 < 2 ^ ln)%Z) by (apply Z.pow_pos_nonneg; lia).
  clearbody ln ld. generalize dependent (2 ^ ln)%Z. generalize dependent (2 ^ (ld + 1))%Z.
  intros B HB A HA1 HA2. unfold Qle, Qmult, inject_Z. cbn [Qnum Qden].
  rewrite Pos.mul_1_r, Z.mul_1_r. nia.
Qed.

Lemma fl64_error : forall x : Q, Qabs (fl64 x - x) <= Qabs x * pow2 (-53).
Proof.
  intros x. unfold fl64.
  destruct (Qeq_bool x 0) eqn:E.
  - apply Qeq_bool_eq in E. rewrite E. cbn. discriminate.
  - apply Qeq_bool_neq in E. rewrite Qred_correct.
    assert (Ha : 0 < Qabs x).
    { destruct (Q_dec 0 x) as [[H|H]|H].
      - rewrite Qabs_pos; lra.
      - rewrite Qabs_neg; lra.
      - exfalso. apply E. now symmetry. }
    set (p := binade (Qabs x)).
    pose proof (binade_le _ Ha) as Hp. fold p in Hp.
    pose proof (round_half_even_bounds (x * pow2 (52 - p))) as Hm.
    set (m := inject_Z (round_half_even (x * pow2 (52 - p)))) in *.
    pose proof (pow2_pos (p - 52)) as HP.
    assert (Hone : pow2 (52 - p) * pow2 (p - 52) == 1).
    { rewrite <- pow2_add. replace (52 - p + (p - 52))%Z with 0%Z by lia. reflexivity. }
    assert (Hhalf : (1 # 2) * pow2 (p - 52) == pow2 p * pow2 (-53)).
    { replace (p - 52)%Z with (p + -52)%Z by lia. rewrite pow2_add.
      assert (pow2 (-52) == 2 * pow2 (-53)) by reflexivity.
      rewrite H. field. }
    assert (Hdiff : m * pow2 (p - 52) - x == (m - x * pow2 (52 - p)) * pow2 (p - 52)).
    { transitivity (m * pow2 (p - 52) - x * (pow2 (52 - p) * pow2 (p - 52))).
      - rewrite Hone. ring.
      - ring. }
    rewrite Hdiff, Qabs_Qmult, (Qabs_pos (pow2 (p - 52))) by lra.
    apply Qle_trans with ((1 # 2) * pow2 (p - 52)).
    + apply Qmult_le_compat_r; [|lra]. apply Qabs_Qle_condition. lra.
    + rewrite Hhalf. apply Qmult_le_compat_r; [exact Hp|].
      apply Qlt_le_weak, pow2_pos.
Qed.

(** On numbers up to a million in magnitude a rounding moves the value by
    less than a billionth. *)
Lemma fl64_near : forall x : Q,
    - (1000000) <= x <= 1000000 ->
    x - (1 # 1000000000) <= fl64 x <= x + (1 # 1000000000).
Proof.
  intros x Hx. pose proof (fl64_error x) as H.
  assert (Hp : pow2 (-53) == 1 # 9007199254740992) by reflexivity.
  rewrite Hp in H.
  assert (Hax : Qabs x <= 1000000) by (apply Qabs_Qle_condition; lra).
  assert (Hb : Qabs (fl64 x - x) <= 1 # 1000000000) by lra.
  apply Qabs_Qle_condition in Hb. lra.
Qed.

Lemma inject_Z_nonneg : forall z : Z, -1 < inject_Z z -> (0 <= z)%Z.
Proof.
  intros z H. destruct (Z_le_gt_dec 0 z) as [Hz|Hz]; [exact Hz|]. exfalso.
  assert (Hle : (z <= -1)%Z) by lia. rewrite Zle_Qle in Hle.
  change (inject_Z (-1)) with (-1) in Hle. lra.
Qed.

Lemma inject_Z_below : forall z : Z, inject_Z z < 1000000 -> (z < 2 ^ 32)%Z.
Proof.
  intros z H. destruct (Z_lt_le_dec z 1000000) as [Hz|Hz]; [lia|]. exfalso.
  rewrite Zle_Qle in Hz. change (inject_Z 1000000) with 1000000 in Hz. lra.
Qed.

Lemma fl64_near_as : forall x x' : Q,
    x == x' ->
    - (1000000) <= x' <= 1000000 ->
    x' - (1 # 1000000000) <= fl64 x <= x' + (1 # 1000000000).
Proof.
  intros x x' E Hx. rewrite <- E in Hx. pose proof (fl64_near x Hx). lra.
Qed.

(** [near e] bounds [fl64 e] around [e]; [near_as e e'] around [e'], a form
    of [e] without division. *)
Ltac near e :=
  let H := fresh "Hnear" in
  assert (H : e - (1 # 1000000000) <= fl64 e <= e + (1 # 1000000000))
    by (apply fl64_near; lra).

Ltac near_as e e' :=
  let H := fresh "Hnear" in
  assert (H : e' - (1 # 1000000000) <= fl64 e <= e' + (1 # 1000000000))
    by (apply fl64_near_as; [field | lra]).

(** Degrees to degrees, minutes and seconds and back: the three rationals
    fit an EXIF block, and their sum is within a ten-thousandth of the
    magnitude of the coordinate. *)
Lemma dms_roundtrip : forall deg : float,
    -180 <= deg <= 180 ->
    dumpable (_deg_to_dms_rational deg) = true
    /\ exists y : float,
        rational_to_float (_deg_to_dms_rational deg) = Some y
        /\ Qabs deg - (1 # 10000) <= y <= Qabs deg + (1 # 10000).
Proof.
  intros deg Hdeg. unfold _deg_to_dms_rational.
  assert (Hx : 0 <= Qabs deg <= 180).
  { split; [apply Qabs_nonneg|apply Qabs_Qle_condition; lra]. }
  set (x := Qabs deg) in *.
  destruct (py_int_bounds x) as (Hd1 & Hd2 & _). specialize (Hd2 (proj1 Hx)).
  set (d := py_int x) in *.
  unfold fsub, fmul, fdiv, fadd, float_of_int, int_truediv.
  near (inject_Z d). set (fd := fl64 (inject_Z d)) in *.
  near (x - fd). set (f1 := fl64 (x - fd)) in *.
  near (f1 * 60). set (t := fl64 (f1 * 60)) in *.
  destruct (py_int_bounds t) as (Hm1 & Hm2 & Hm3).
  set (m := py_int t) in *.
  assert (Hm0 : 0 <= inject_Z m).
  { destruct (Qlt_le_dec t 0) as [Ht|Ht].
    - assert (Hz : (0 <= m)%Z) by (apply inject_Z_nonneg; lra).
      rewrite Zle_Qle in Hz. exact Hz.
    - apply Hm2. exact Ht. }
  assert (Hmt : inject_Z m <= t \/ (t < 0 /\ inject_Z m <= 0)).
  { destruct (Qlt_le_dec t 0) as [Ht|Ht]; [right|left].
    - split; [exact Ht|]. apply Hm3. lra.
    - apply Hm2. exact Ht. }
  change (inject_Z 60) with 60.
  near_as (inject_Z m / 60) (inject_Z m * (1 # 60)).
  set (q := fl64 (inject_Z m / 60)) in *.
  near (f1 - q). set (r := fl64 (f1 - q)) in *.
  near (r * 3600). set (u := fl64 (r * 3600)) in *.
  near (u * 100). set (v := fl64 (u * 100)) in *.
  pose proof (round_half_even_bounds v) as Hs.
  set (s := round_half_even v) in *.
  assert (Hs0 : (0 <= s)%Z) by (apply inject_Z_nonneg; lra).
  assert (Hs1 : (s < 2 ^ 32)%Z) by (apply inject_Z_below; lra).
  assert (Hd0 : (0 <= d)%Z) by (apply inject_Z_nonneg; lra).
  assert (Hdu : (d < 2 ^ 32)%Z) by (apply inject_Z_below; lra).
  assert (Hmz : (0 <= m)%Z) by (apply inject_Z_nonneg; lra).
  assert (Hmu : (m < 2 ^ 32)%Z) by (apply inject_Z_below; lra).
  split.
  - cbn [dumpable forallb fst snd].
    repeat (apply andb_true_intro; split);
      try reflexivity; try (apply Z.leb_le; lia); try (apply Z.ltb_lt; lia).
  - cbn [rational_to_float]. cbn [Z.eqb orb].
    unfold fsub, fmul, fdiv, fadd, float_of_int.
    replace (fl64 (inject_Z 1)) with 1 by (vm_compute; reflexivity).
    replace (fl64 (inject_Z 100)) with 100 by (vm_compute; reflexivity).
    fold fd.
    near_as (fd / 1) fd. set (a1 := fl64 (fd / 1)) in *.
    near (inject_Z m). set (fm := fl64 (inject_Z m)) in *.
    near_as (fm / 1) fm. set (a2 := fl64 (fm / 1)) in *.
    near_as (a2 / 60) (a2 * (1 # 60)). set (a3 := fl64 (a2 / 60)) in *.
    near (a1 + a3). set (a4 := fl64 (a1 + a3)) in *.
    near (inject_Z s). set (fs := fl64 (inject_Z s)) in *.
    near_as (fs / 100) (fs * (1 # 100)). set (a5 := fl64 (fs / 100)) in *.
    near_as (a5 / 3600) (a5 * (1 # 3600)). set (a6 := fl64 (a5 / 3600)) in *.
    near (a4 + a6). set (y := fl64 (a4 + a6)) in *.
    exists y. split; [reflexivity|]. lra.
Qed.

(** C9. For every latitude in [-90, 90] and longitude in [-180, 180], writing
    the pair into the metadata of a photo as degree, minute and second
    rationals with the N/S and E/W references, and reading the metadata back
    as d + m/60 + s/3600 with the sign of the reference, gives back each
    coordinate within 1e-4 degrees (every operation rounded as binary64). *)
Theorem exif_gps_roundtrip :
  forall (img : Image) (lat lon : float),
    pil_save_ok img = true ->
    -90 <= lat <= 90 ->
    -180 <= lon <= 180 ->
    exists lat' lon' : float,
      extract_gps_from_exif (inject_gps_into_exif img lat lon) = Some (lat', lon')
      /\ Qabs (lat' - lat) <= 1 # 10000
      /\ Qabs (lon' - lon) <= 1 # 10000.
Proof.
  intros img lat lon Hsave Hlat Hlon.
  destruct (dms_roundtrip lat ltac:(lra)) as (Hd1 & y1 & Hr1 & Hy1).
  destruct (dms_roundtrip lon Hlon) as (Hd2 & y2 & Hr2 & Hy2).
  unfold inject_gps_into_exif. rewrite Hd1, Hd2, Hsave. cbn [andb].
  unfold extract_gps_from_exif, gps_ifd.
  cbn [exif_gps GPSLatitude GPSLongitude GPSLatitudeRef GPSLongitudeRef].
  rewrite Hr1, Hr2.
  exists (if str_eqb (if Qle_bool 0 lat then py "N" else py "S") (py "S")
          then - y1 else y1),
         (if str_eqb (if Qle_bool 0 lon then py "E" else py "W") (py "W")
          then - y2 else y2).
  split; [reflexivity|]. split.
  - destruct (Qle_bool 0 lat) eqn:E.
    + apply Qle_bool_iff in E. rewrite (Qabs_pos lat E) in Hy1.
      replace (str_eqb (py "N") (py "S")) with false by reflexivity.
      apply Qabs_Qle_condition. lra.
    + assert (Hneg : lat <= 0).
      { destruct (Qlt_le_dec 0 lat) as [H|H]; [|exact H].
        apply Qlt_le_weak, Qle_bool_iff in H. congruence. }
      rewrite (Qabs_neg lat Hneg) in Hy1.
      replace (str_eqb (py "S") (py "S")) with true by reflexivity.
      apply Qabs_Qle_condition. lra.
  - destruct (Qle_bool 0 lon) eqn:E.
    + apply Qle_bool_iff in E. rewrite (Qabs_pos lon E) in Hy2.
      replace (str_eqb (py "E") (py "W")) with false by reflexivity.
      apply Qabs_Qle_condition. lra.
    + assert (Hneg : lon <= 0).
      { destruct (Qlt_le_dec 0 lon) as [H|H]; [|exact H].
        apply Qlt_le_weak, Qle_bool_iff in H. congruence. }
      rewrite (Qabs_neg lon Hneg) in Hy2.
      replace (str_eqb (py "W") (py "W")) with true by reflexivity.
      apply Qabs_Qle_condition. lra.
Qed.

(** On the coordinates of Sydney, south and east. *)
Lemma exif_gps_roundtrip_witness :
  pil_save_ok Sample.photo_image = true
  /\ -90 <= float_of_decimal (py "-33.8688") <= 90
  /\ -180 <= float_of_decimal (py "151.2093") <= 180
  /\ exists lat' lon' : float,
      extract_gps_from_exif
        (inject_gps_into_exif Sample.photo_image (float_of_decimal (py "-33.8688"))
                              (float_of_decimal (py "151.2093")))
      = Some (lat', lon')
      /\ Qabs (lat' - float_of_decimal (py "-33.8688")) <= 1 # 10000
      /\ Qabs (lon' - float_of_decimal (py "151.2093")) <= 1 # 10000.
Proof.
  assert (H1 : -90 <= float_of_decimal (py "-33.8688") <= 90)
    by (split; vm_compute; discriminate).
  assert (H2 : -180 <= float_of_decimal (py "151.2093") <= 180)
    by (split; vm_compute; discriminate).
  split; [reflexivity|]. split; [exact H1|]. split; [exact H2|].
  exact (exif_gps_roundtrip Sample.photo_image (float_of_decimal (py "-33.8688"))
                            (float_of_decimal (py "151.2093")) eq_refl H1 H2).
Defined.
(** * Further properties of the sources *)

(** ** Cleaning of the OCR text *)

Local Close Scope Q_scope.

Lemma replace_char_in : forall (old : N) (new s : str) (c : N),
    In c (replace_char old new s) -> In c new \/ (In c s /\ c <> old).
Proof.
  intros old new s c. unfold replace_char. rewrite in_flat_map.
  intros (x & Hx & Hc). destruct (N.eqb_spec x old) as [->|Hne].
  - now left.
  - destruct Hc as [<-|[]]. right. split; assumption.
Qed.

Lemma replace_char_absent : forall (old : N) (new s : str),
    ~ In old s -> replace_char old new s = s.
Proof.
  intros old new s. unfold replace_char. induction s as [|c s IH]; intros Hn.
  - reflexivity.
  - cbn [flat_map]. destruct (N.eqb_spec c old) as [->|Hne].
    + exfalso. apply Hn. now left.
    + cbn [app]. f_equal. apply IH. intros H. apply Hn. now right.
Qed.

Lemma lstrip_by_in : forall (p : N -> bool) (s : str) (c : N),
    In c (lstrip_by p s) -> In c s.
Proof.
  intros p s c. induction s as [|x s IH]; cbn [lstrip_by]; [easy|].
  destruct (p x); [intros H; right; now apply IH | easy].
Qed.

Lemma strip_in : forall (s : str) (c : N), In c (strip s) -> In c s.
Proof.
  intros s c. unfold strip, rstrip_by. rewrite <- in_rev.
  intros H. apply lstrip_by_in in H. rewrite <- in_rev in H.
  now apply lstrip_by_in in H.
Qed.

Lemma sub_spaces_from_in : forall (s : str) (in_run : bool) (c : N),
    In c (sub_spaces_from in_run s) -> c = chr " " \/ In c s.
Proof.
  induction s as [|x s IH]; intros in_run c; cbn [sub_spaces_from]; [easy|].
  destruct (isspace x).
  - destruct in_run.
    + intros H. destruct (IH _ _ H); [now left | right; now right].
    + intros [<-|H]; [now left|]. destruct (IH _ _ H); [now left | right; now right].
  - intros [<-|H]; [right; now left|]. destruct (IH _ _ H); [now left | right; now right].
Qed.

Lemma digit_not_confusable : forall c : N,
    In c (py "0") \/ In c (py "1") \/ In c (py "5") \/ In c (py "8")
    \/ In c (py "6") \/ In c (py "2") \/ In c (py "7") \/ c = chr " " ->
    confusable c = false.
Proof.
  intros c H. unfold py, chr in H. cbn in H.
  repeat destruct H as [H|H]; subst; try reflexivity; contradiction.
Qed.

(** After the replacements no replaced letter is left. *)
Lemma replacements_in : forall (text : str) (c : N),
    In c (fold_left (fun t on => replace_char (fst on) (snd on) t) replacements text) ->
    confusable c = false.
Proof.
  intros text c. cbn [fold_left replacements fst snd]. intros H.
  repeat (apply replace_char_in in H;
          destruct H as [H|[H ?]];
          [apply digit_not_confusable; tauto|]).
  unfold confusable. cbn [map fst replacements existsb].
  repeat match goal with
         | Hne : c <> ?x |- _ => apply N.eqb_neq in Hne; rewrite Hne; clear Hne
         end.
  reflexivity.
Qed.

(** *** White space *)

Lemma lstrip_by_head : forall (p : N -> bool) (s : str) (d : N),
    p d = false -> p (hd d (lstrip_by p s)) = false.
Proof.
  intros p s d Hd. induction s as [|c s IH]; cbn [lstrip_by hd]; [exact Hd|].
  destruct (p c) eqn:E; [exact IH | exact E].
Qed.

Lemma lstrip_by_id : forall (p : N -> bool) (s : str) (d : N),
    p (hd d s) = false -> lstrip_by p s = s.
Proof.
  intros p [|c s] d H; cbn [lstrip_by hd] in *; [reflexivity|].
  now rewrite H.
Qed.

(** What [lstrip_by] removes is a run of characters satisfying [p]. *)
Lemma lstrip_by_suffix : forall (p : N -> bool) (s : str),
    exists r, s = r ++ lstrip_by p s /\ forallb p r = true.
Proof.
  intros p s. induction s as [|c s (r & Hr & Hp)]; cbn [lstrip_by].
  - now exists [].
  - destruct (p c) eqn:E.
    + exists (c :: r). cbn [app forallb]. rewrite E, Hp. split; [now f_equal|reflexivity].
    + now exists [].
Qed.

Lemma last_rev : forall (l : str) (d : N), last (rev l) d = hd d l.
Proof.
  intros [|c l] d; [reflexivity|]. cbn [rev hd]. apply last_last.
Qed.

Lemma hd_rev : forall (l : str) (d : N), hd d (rev l) = last l d.
Proof.
  intros l d. rewrite <- (rev_involutive l) at 2. now rewrite last_rev.
Qed.

Lemma last_app_nonempty : forall (r v : str) (d : N),
    v <> [] -> last (r ++ v) d = last v d.
Proof.
  intros r v d Hv. induction r as [|x r IH]; [reflexivity|].
  cbn [app]. destruct (r ++ v) eqn:E.
  - destruct r, v; cbn in E; congruence.
  - exact IH.
Qed.

Lemma strip_ends : forall s : str,
    isspace (hd 0%N (strip s)) = false /\ isspace (last (strip s) 0%N) = false.
Proof.
  intros s. unfold strip, rstrip_by. set (u := lstrip_by isspace s).
  split.
  - rewrite hd_rev.
    destruct (lstrip_by_suffix isspace (rev u)) as (r & Hr & _).
    destruct (lstrip_by isspace (rev u)) as [|x v] eqn:E; [reflexivity|].
    rewrite <- (last_app_nonempty r (x :: v) 0%N) by discriminate.
    rewrite <- Hr, last_rev. apply lstrip_by_head. reflexivity.
  - rewrite last_rev. apply lstrip_by_head. reflexivity.
Qed.

Lemma strip_id : forall s : str,
    isspace (hd 0%N s) = false -> isspace (last s 0%N) = false -> strip s = s.
Proof.
  intros s Hh Hl. unfold strip, rstrip_by.
  rewrite (lstrip_by_id isspace s 0%N Hh).
  rewrite (lstrip_by_id isspace (rev s) 0%N) by now rewrite hd_rev.
  apply rev_involutive.
Qed.

Lemma sub_spaces_from_chars : forall (s : str) (in_run : bool) (c : N),
    In c (sub_spaces_from in_run s) ->
    c = chr " " \/ (In c s /\ isspace c = false).
Proof.
  induction s as [|x s IH]; intros in_run c; cbn [sub_spaces_from]; [easy|].
  destruct (isspace x) eqn:E.
  - destruct in_run.
    + intros H. destruct (IH _ _ H) as [?|[? ?]]; [now left | right; split; [now right|easy]].
    + intros [<-|H]; [now left|].
      destruct (IH _ _ H) as [?|[? ?]]; [now left | right; split; [now right|easy]].
  - intros [<-|H]; [right; split; [now left|easy]|].
    destruct (IH _ _ H) as [?|[? ?]]; [now left | right; split; [now right|easy]].
Qed.

Lemma sub_spaces_from_single : forall (s : str) (in_run : bool),
    single_spaced (sub_spaces_from in_run s) = true
    /\ (in_run = true -> isspace (hd 0%N (sub_spaces_from in_run s)) = false).
Proof.
  induction s as [|x s IH]; intros in_run; cbn [sub_spaces_from].
  - split; reflexivity.
  - destruct (isspace x) eqn:E.
    + destruct (IH true) as (H1 & H2). specialize (H2 eq_refl).
      destruct in_run; [split; [exact H1|intros _; exact H2]|].
      split; [|discriminate].
      destruct (sub_spaces_from true s) as [|b rest] eqn:Es; [reflexivity|].
      cbn [hd] in H2. change (negb (isspace (chr " ") && isspace b)
                              && single_spaced (b :: rest) = true).
      now rewrite H2, andb_false_r, H1.
    + destruct (IH false) as (H1 & _). split; [|intros _; exact E].
      destruct (sub_spaces_from false s) as [|b rest] eqn:Es; [reflexivity|].
      change (negb (isspace x && isspace b) && single_spaced (b :: rest) = true).
      now rewrite E, H1.
Qed.

Lemma sub_spaces_from_nil : forall (s : str) (in_run : bool),
    sub_spaces_from in_run s = [] -> forallb isspace s = true.
Proof.
  induction s as [|x s IH]; intros in_run; cbn [sub_spaces_from forallb]; [easy|].
  destruct (isspace x); [|discriminate].
  destruct in_run; [|discriminate]. intros H. now rewrite (IH _ H).
Qed.

Lemma last_all : forall (p : N -> bool) (s : str) (d : N),
    s <> [] -> forallb p s = true -> p (last s d) = true.
Proof.
  intros p s d. induction s as [|x s IH]; [easy|]. intros _ H.
  cbn [forallb] in H. apply andb_prop in H as (Hx & Hs).
  destruct s as [|y s]; [exact Hx|]. apply IH; [discriminate|exact Hs].
Qed.

Lemma sub_spaces_from_last : forall (s : str) (in_run : bool),
    isspace (last s 0%N) = false ->
    isspace (last (sub_spaces_from in_run s) 0%N) = false.
Proof.
  induction s as [|x s IH]; intros in_run Hl; [reflexivity|].
  destruct s as [|y s].
  - cbn [last] in Hl. cbn [sub_spaces_from]. rewrite Hl. exact Hl.
  - assert (Hl' : isspace (last (y :: s) 0%N) = false) by exact Hl.
    assert (Hne : forall b, sub_spaces_from b (y :: s) <> []).
    { intros b Hn. apply sub_spaces_from_nil in Hn.
      apply (last_all isspace (y :: s) 0%N) in Hn; [congruence|discriminate]. }
    assert (Hcons : forall b c, last (c :: sub_spaces_from b (y :: s)) 0%N
                                = last (sub_spaces_from b (y :: s)) 0%N).
    { intros b c. specialize (Hne b).
      destruct (sub_spaces_from b (y :: s)); [congruence|reflexivity]. }
    change (sub_spaces_from in_run (x :: y :: s))
      with (if isspace x
            then (if in_run then sub_spaces_from true (y :: s)
                  else chr " " :: sub_spaces_from true (y :: s))
            else x :: sub_spaces_from false (y :: s)).
    destruct (isspace x); [destruct in_run|]; rewrite ?Hcons; now apply IH.
Qed.

Lemma sub_spaces_from_id : forall (s : str) (in_run : bool),
    single_spaced s = true ->
    (forall c, In c s -> isspace c = true -> c = chr " ") ->
    (in_run = true -> isspace (hd 0%N s) = false) ->
    sub_spaces_from in_run s = s.
Proof.
  induction s as [|x s IH]; intros in_run Hs Hc Hr; [reflexivity|].
  cbn [sub_spaces_from].
  assert (Hs' : single_spaced s = true).
  { destruct s as [|y s]; [reflexivity|].
    change (negb (isspace x && isspace y) && single_spaced (y :: s) = true) in Hs.
    now apply andb_prop in Hs. }
  assert (Hc' : forall c, In c s -> isspace c = true -> c = chr " ").
  { intros c H. apply Hc. now right. }
  destruct (isspace x) eqn:E.
  - destruct in_run; [specialize (Hr eq_refl); cbn [hd] in Hr; congruence|].
    rewrite <- (Hc x (or_introl eq_refl) E). f_equal.
    apply IH; [exact Hs'|exact Hc'|]. intros _.
    destruct s as [|y s]; [reflexivity|].
    change (negb (isspace x && isspace y) && single_spaced (y :: s) = true) in Hs.
    apply andb_prop in Hs as (Hs & _). rewrite E in Hs. cbn [andb hd] in *.
    now destruct (isspace y).
  - f_equal. apply IH; [exact Hs'|exact Hc'|discriminate].
Qed.

(** The text [clean_ocr_text] returns: none of the replaced letters, white
    space only as single blanks between other characters. *)
Lemma clean_ocr_text_clean : forall text : str,
    let out := clean_ocr_text text in
    (forall c, In c out -> confusable c = false)
    /\ (forall c, In c out -> isspace c = true -> c = chr " ")
    /\ isspace (hd 0%N out) = false
    /\ isspace (last out 0%N) = false
    /\ single_spaced out = true.
Proof.
  intros text out. subst out. destruct text as [|c0 text].
  - cbn. repeat split; try easy.
  - change (clean_ocr_text (c0 :: text))
      with (sub_spaces (strip (fold_left (fun t on => replace_char (fst on) (snd on) t)
                                         replacements (c0 :: text)))).
    match goal with |- context [strip ?t] => set (t1 := t) end.
    destruct (strip_ends t1) as (Hh & Hl).
    split; [|split; [|split; [|split]]].
    + intros c H. apply sub_spaces_from_in in H. destruct H as [->|H]; [reflexivity|].
      apply strip_in in H. now apply replacements_in in H.
    + intros c H Hc. apply sub_spaces_from_chars in H.
      destruct H as [H|[_ H]]; [exact H|congruence].
    + unfold sub_spaces. destruct (strip t1) as [|x s]; [reflexivity|].
      cbn [hd] in Hh. cbn [sub_spaces_from]. now rewrite Hh.
    + now apply sub_spaces_from_last.
    + apply sub_spaces_from_single.
Qed.

(** X1. Whatever the OCR text, the cleaned text holds none of the letters O,
    I, l, S, B, G, Z, T (each is replaced by a digit); its only white space is
    the blank; it neither starts nor ends with a blank; and no two blanks
    follow one another. *)
Theorem clean_ocr_text_normal_form : forall text : str,
    let out := clean_ocr_text text in
    (forall c, In c out -> confusable c = false)
    /\ (forall c, In c out -> isspace c = true -> c = chr " ")
    /\ isspace (hd 0%N out) = false
    /\ isspace (last out 0%N) = false
    /\ single_spaced out = true.
Proof. exact clean_ocr_text_clean. Qed.

(** X2. Cleaning is idempotent: a cleaned text is left as it is by a second
    cleaning. *)
Theorem clean_ocr_text_idempotent : forall text : str,
    clean_ocr_text (clean_ocr_text text) = clean_ocr_text text.
Proof.
  intros text. destruct (clean_ocr_text_clean text) as (Hc & Hw & Hh & Hl & Hs).
  set (u := clean_ocr_text text) in *.
  destruct u as [|c0 u'] eqn:Eu; [reflexivity|]. rewrite <- Eu in *.
  assert (Hfold : fold_left (fun t on => replace_char (fst on) (snd on) t)
                            replacements u = u).
  { assert (Hab : forall old new, confusable old = true -> replace_char old new u = u).
    { intros old new Ho. apply replace_char_absent. intros H. apply Hc in H. congruence. }
    cbn [fold_left replacements fst snd]. now rewrite !Hab by reflexivity. }
  transitivity (sub_spaces (strip (fold_left (fun t on => replace_char (fst on) (snd on) t)
                                             replacements u))).
  { rewrite Eu. reflexivity. }
  rewrite Hfold, (strip_id u Hh Hl). unfold sub_spaces.
  apply sub_spaces_from_id; [exact Hs|exact Hw|discriminate].
Qed.

(** ** The overlay extractor *)

Lemma find_gps_in_range : forall (patterns : list (re * nat)) (text : str) (la lo : float),
    find_gps patterns text = Some (la, lo) -> in_range la lo = true.
Proof.
  induction patterns as [|[p n] rest IH]; intros text la lo; cbn [find_gps]; [easy|].
  destruct (search p n text) as [m|]; [|apply IH].
  destruct (coords_of_match n m) as [la' lo'].
  destruct (in_range la' lo') eqn:E; [|apply IH].
  intros H. injection H as <- <-. exact E.
Qed.

(** The loop over the OCR variants keeps what holds of the empty dictionary
    and is kept by the scan of each cleaned text. *)
Lemma scan_invariant :
  forall (P : Found -> Prop) (img : Image) (results : list (label * str)),
    P found0 ->
    (forall (f : Found) (raw : str), P f -> P (scan f (clean_ocr_text raw))) ->
    forall labels, ocr_results img labels = Some results ->
    forall f0, P f0 -> P (fold_left (fun f lt => scan f (snd lt)) results f0).
Proof.
  intros P img results _ Hstep labels. revert results.
  induction labels as [|l labels IH]; intros results; cbn [ocr_results].
  - intros H. injection H as <-. easy.
  - destruct (image_to_string img l) as [raw|]; [|discriminate].
    destruct (ocr_results img labels) as [rs|]; [|discriminate].
    cbn [option_map]. intros H. injection H as <-. intros f0 Hf0.
    cbn [fold_left snd]. apply (IH rs eq_refl). now apply Hstep.
Qed.

Lemma in_range_bounds : forall la lo : float,
    in_range la lo = true ->
    (-90 <= la <= 90)%Q /\ (-180 <= lo <= 180)%Q.
Proof.
  intros la lo H. unfold in_range in H.
  repeat (apply andb_prop in H; destruct H as (H & ?)).
  repeat split; now apply Qle_bool_iff.
Qed.

(** The coordinates of the overlay: both or none, and within range. *)
Lemma overlay_coordinates :
  forall (img : Image) (la lo : option float) (date_str time_str addr : option str),
    extract_gps_from_text_overlay img = Five la lo date_str time_str addr ->
    (la = None /\ lo = None)
    \/ exists lat lon : float,
        la = Some lat /\ lo = Some lon
        /\ (-90 <= lat <= 90)%Q /\ (-180 <= lon <= 180)%Q.
Proof.
  intros img la lo date_str time_str addr. unfold extract_gps_from_text_overlay.
  destruct (negb (cv2_imread_ok img)); [discriminate|].
  destruct (ocr_results img ocr_labels) as [results|] eqn:E; [|discriminate].
  set (P := fun f : Found =>
              (lat f = None /\ lon f = None)
              \/ exists la' lo', lat f = Some la' /\ lon f = Some lo'
                                 /\ in_range la' lo' = true).
  assert (HP : P (fold_left (fun f lt => scan f (snd lt)) results found0)).
  { apply (scan_invariant P img results) with (labels := ocr_labels);
      try exact E; try (left; split; reflexivity).
    intros f raw Hf. unfold P, scan. cbn [lat lon].
    destruct (find_gps gps_patterns (clean_ocr_text raw)) as [[la' lo']|] eqn:Eg.
    - right. exists la', lo'. repeat split. now apply find_gps_in_range in Eg.
    - exact Hf. }
  intros H. injection H as <- <- _ _ _.
  destruct HP as [HP|(la' & lo' & H1 & H2 & H3)]; [now left|right].
  exists la', lo'. split; [exact H1|]. split; [exact H2|]. now apply in_range_bounds.
Qed.


(** X3. The coordinates the overlay extractor returns are both present or
    both absent, and a pair that is present lies within [-90, 90] x
    [-180, 180]. *)
Theorem extract_gps_from_text_overlay_coordinates :
  forall (img : Image) (la lo : option float) (date_str time_str addr : option str),
    extract_gps_from_text_overlay img = Five la lo date_str time_str addr ->
    (la = None /\ lo = None)
    \/ exists lat lon : float,
        la = Some lat /\ lo = Some lon
        /\ (-90 <= lat <= 90)%Q /\ (-180 <= lon <= 180)%Q.
Proof. exact overlay_coordinates. Qed.

(** On the sample photo. *)
Lemma extract_gps_from_text_overlay_coordinates_witness :
  let lat := float_of_decimal (py "18.5913") in
  let lon := float_of_decimal (py "73.7389") in
  extract_gps_from_text_overlay Sample.photo_image
  = Five (Some lat) (Some lon) (Some (py "22/09/2025")) (Some (py "08:05:00 AM"))
         (Some (py "Pune"))
  /\ ((Some lat = None /\ Some lon = None)
      \/ exists lat' lon' : float,
          Some lat = Some lat' /\ Some lon = Some lon'
          /\ (-90 <= lat' <= 90)%Q /\ (-180 <= lon' <= 180)%Q).
Proof.
  intros lat lon.
  assert (E : extract_gps_from_text_overlay Sample.photo_image
              = Five (Some lat) (Some lon) (Some (py "22/09/2025"))
                     (Some (py "08:05:00 AM")) (Some (py "Pune")))
    by (vm_compute; reflexivity).
  split; [exact E|].
  exact (extract_gps_from_text_overlay_coordinates _ _ _ _ _ _ E).
Defined.

(** The text of a match is made of characters of the text searched. *)
Lemma search_group0_in : forall (r : re) (n : nat) (s : str) (m : match_) (c : N),
    search r n s = Some m -> In c (group0 m) -> In c s.
Proof.
  intros r n s m c. induction s as [|x s IH]; cbn [search]; unfold match_at.
  - destruct (run r [] (repeat None n) _) as [[rest g]|]; [|discriminate].
    intros H. injection H as <-. cbn [group0]. now rewrite ?firstn_nil.
  - destruct (run r (x :: s) (repeat None n) _) as [[rest g]|].
    + intros H. injection H as <-. cbn [group0]. intros Hc.
      rewrite <- (firstn_skipn (List.length (x :: s) - List.length rest) (x :: s)).
      apply in_or_app. now left.
    + intros H Hc. right. now apply IH.
Qed.

(** X4. The address the overlay extractor returns is cut out of a cleaned
    text: it holds none of the letters O, I, l, S, B, G, Z, T.  In particular
    it is never "India", the second alternative of the address pattern. *)
Theorem extract_gps_from_text_overlay_address :
  forall (img : Image) (la lo : option float) (date_str time_str : option str)
         (addr : str),
    extract_gps_from_text_overlay img = Five la lo date_str time_str (Some addr) ->
    (forall c, In c addr -> confusable c = false)
    /\ addr <> py "India".
Proof.
  intros img la lo date_str time_str addr H.
  assert (Hc : forall c, In c addr -> confusable c = false).
  { revert H. unfold extract_gps_from_text_overlay.
    destruct (negb (cv2_imread_ok img)); [discriminate|].
    destruct (ocr_results img ocr_labels) as [results|] eqn:E; [|discriminate].
    set (P := fun f : Found =>
                forall a, address f = Some a -> forall c, In c a -> confusable c = false).
    assert (HP : P (fold_left (fun f lt => scan f (snd lt)) results found0)).
    { apply (scan_invariant P img results) with (labels := ocr_labels);
        try exact E; try (intros a Ha; discriminate Ha).
      intros f raw Hf a. unfold scan, find_address. cbn [address].
      destruct (search address_pattern 1 (clean_ocr_text raw)) as [m|] eqn:Es;
        cbn [option_map]; [|apply Hf].
      intros Ha c Hin. injection Ha as <-.
      apply (search_group0_in _ _ _ _ _ Es) in Hin.
      now apply (clean_ocr_text_clean raw). }
    intros H. injection H as _ _ _ _ Ha. exact (HP addr Ha). }
  split; [exact Hc|]. intros ->.
  specialize (Hc (chr "I") (or_introl eq_refl)). discriminate Hc.
Qed.

(** On the sample photo. *)
Lemma extract_gps_from_text_overlay_address_witness :
  (forall c, In c (py "Pune") -> confusable c = false) /\ py "Pune" <> py "India".
Proof.
  apply (extract_gps_from_text_overlay_address Sample.photo_image
           (Some (float_of_decimal (py "18.5913")))
           (Some (float_of_decimal (py "73.7389")))
           (Some (py "22/09/2025")) (Some (py "08:05:00 AM"))).
  vm_compute. reflexivity.
Defined.

(** ** The time of the photo against the time of the upload *)

Local Open Scope Q_scope.

(** A rounding moves a number by at most one part in 2^53 of its
    magnitude, on its own side of zero. *)
Lemma fl64_rel : forall x x' : Q,
    x == x' ->
    (0 <= x' ->
     x' * (1 - (1 # 9007199254740992)) <= fl64 x <= x' * (1 + (1 # 9007199254740992)))
    /\ (x' <= 0 ->
        x' * (1 + (1 # 9007199254740992)) <= fl64 x <= x' * (1 - (1 # 9007199254740992))).
Proof.
  intros x x' E. pose proof (fl64_error x) as H.
  assert (Hp : pow2 (-53) == 1 # 9007199254740992) by reflexivity.
  assert (E1 : fl64 x - x == fl64 x - x').
  { apply Qplus_comp; [reflexivity|]. now apply Qopp_comp. }
  assert (E2 : Qabs x == Qabs x') by now apply Qabs_wd.
  rewrite Hp, E1, E2 in H. split; intros Hx.
  - rewrite (Qabs_pos x' Hx) in H. apply Qabs_Qle_condition in H. lra.
  - rewrite (Qabs_neg x' Hx) in H. apply Qabs_Qle_condition in H. lra.
Qed.

(** The difference in minutes, computed in binary64 from a difference in
    microseconds, is at most ten exactly when the difference is at most 600
    seconds. *)
Lemma minutes_at_most_ten : forall us : Z,
    Qle_bool (Qabs (fdiv (total_seconds us) 60)) 10 = (Z.abs us <=? 600000000)%Z.
Proof.
  intros us. unfold fdiv, total_seconds, int_truediv.
  assert (Ex : inject_Z us / inject_Z 1000000 == inject_Z us * (1 # 1000000)) by field.
  destruct (fl64_rel _ _ Ex) as (Hpos & Hneg).
  set (t := fl64 (inject_Z us / inject_Z 1000000)) in *.
  assert (Et : t / 60 == t * (1 # 60)) by field.
  destruct (fl64_rel _ _ Et) as (Hpos2 & Hneg2).
  set (y := fl64 (t / 60)) in *.
  destruct (Z.leb_spec (Z.abs us) 600000000) as [Hle|Hgt].
  - apply Qle_bool_iff, Qabs_Qle_condition.
    destruct (Z.eq_dec us 600000000) as [->|Hne1]; [vm_compute; split; discriminate|].
    destruct (Z.eq_dec us (-600000000)) as [->|Hne2]; [vm_compute; split; discriminate|].
    destruct (Z_le_gt_dec 0 us) as [H0|H0].
    + assert (Hu : (us <= 599999999)%Z) by lia.
      rewrite Zle_Qle in H0, Hu.
      change (inject_Z 0) with 0 in H0. change (inject_Z 599999999) with 599999999 in Hu.
      specialize (Hpos ltac:(lra)). specialize (Hpos2 ltac:(lra)). lra.
    + assert (Hu : (-599999999 <= us)%Z) by lia. assert (H0' : (us <= 0)%Z) by lia.
      rewrite Zle_Qle in H0', Hu.
      change (inject_Z 0) with 0 in H0'.
      change (inject_Z (-599999999)) with (-599999999) in Hu.
      specialize (Hneg ltac:(lra)). specialize (Hneg2 ltac:(lra)). lra.
  - destruct (Qle_bool (Qabs y) 10) eqn:E; [|reflexivity]. exfalso.
    apply Qle_bool_iff, Qabs_Qle_condition in E.
    destruct (Z_le_gt_dec 0 us) as [H0|H0].
    + assert (Hu : (600000001 <= us)%Z) by lia.
      rewrite Zle_Qle in Hu. change (inject_Z 600000001) with 600000001 in Hu.
      specialize (Hpos ltac:(lra)). specialize (Hpos2 ltac:(lra)). lra.
    + assert (Hu : (us <= -600000001)%Z) by lia.
      rewrite Zle_Qle in Hu. change (inject_Z (-600000001)) with (-600000001) in Hu.
      specialize (Hneg ltac:(lra)). specialize (Hneg2 ltac:(lra)). lra.
Qed.

(** X5. [validate_photo_time] with the limit of 10 minutes answers true
    exactly when the photo time and the reference time are at most 600
    seconds apart, whichever of the two is the later (the difference is
    taken in microseconds; the division into minutes is done in binary64).
    The reference time is the upload time when one is given and the next
    reading of the clock when none is; without a photo time the answer is
    false with "No time extracted from photo", and the clock is not read. *)
Theorem validate_photo_time_threshold :
  forall (photo upload : datetime) (w : World),
    (exists msg,
        validate_photo_time (Some photo) (Some upload) 10 w
        = Done ((Z.abs (timedelta_us photo upload) <=? 600000000)%Z, msg) w)
    /\ (exists msg,
           validate_photo_time (Some photo) None 10 w
           = Done ((Z.abs (timedelta_us photo (clock_now (env w) (ticks w)))
                    <=? 600000000)%Z, msg)
                  (mkWorld (env w) (db w) (S (ticks w)) (flashes w) (log w)))
    /\ (forall (reference : option datetime) (limit : Z),
           validate_photo_time None reference limit w
           = Done (false, py "No time extracted from photo") w)
    /\ Z.abs (timedelta_us photo upload) = Z.abs (timedelta_us upload photo).
Proof.
  intros photo upload w. split; [|split; [|split]].
  - unfold validate_photo_time. cbv [bind ret].
    change (inject_Z 10) with 10. rewrite minutes_at_most_ten.
    destruct (Z.abs (timedelta_us photo upload) <=? 600000000)%Z; eexists; reflexivity.
  - unfold validate_photo_time. cbv [bind ret now].
    change (inject_Z 10) with 10. rewrite minutes_at_most_ten.
    destruct (Z.abs (timedelta_us photo (clock_now (env w) (ticks w))) <=? 600000000)%Z;
      eexists; reflexivity.
  - reflexivity.
  - unfold timedelta_us. lia.
Qed.

(** ** The evidence resolver *)

Local Close Scope Q_scope.

Lemma make_datetime_valid : forall (y m d hh mm ss : Z) (dt : datetime),
    make_datetime y m d hh mm ss = Some dt -> valid_datetime dt = true.
Proof.
  intros y m d hh mm ss dt. unfold make_datetime.
  destruct (_ && _) eqn:E; [|discriminate].
  intros H. injection H as <-. unfold valid_datetime.
  cbn [dt_date dt_time year month day hour minute second microsecond].
  rewrite E. reflexivity.
Qed.

Lemma strptime_valid : forall (s : str) (fmt : list directive) (dt : datetime),
    strptime s fmt = Some dt -> valid_datetime dt = true.
Proof.
  intros s fmt dt. unfold strptime.
  destruct (match_at _ 8 s) as [[m [|? ?]]|]; try discriminate.
  apply make_datetime_valid.
Qed.

Lemma first_format_shape : forall (s : str) (fmts : list (list directive)),
    (exists dt, first_format s fmts = (Some dt, true) /\ valid_datetime dt = true)
    \/ first_format s fmts = (None, false).
Proof.
  intros s fmts. induction fmts as [|fmt rest IH]; cbn [first_format]; [now right|].
  destruct (strptime s fmt) as [dt|] eqn:E; [left|exact IH].
  exists dt. split; [reflexivity|]. now apply strptime_valid in E.
Qed.

Lemma overlay_datetime_shape : forall img : Image,
    (exists dt, extract_datetime_from_text_overlay img = (Some dt, true)
                /\ valid_datetime dt = true)
    \/ extract_datetime_from_text_overlay img = (None, false).
Proof.
  intros img. unfold extract_datetime_from_text_overlay.
  destruct (extract_gps_from_text_overlay img) as [|la lo d t a]; [now right|].
  destruct d as [[|c d]|]; [now right| |now right].
  destruct t as [[|e t]|]; [now right| |now right].
  apply first_format_shape.
Qed.

(** X6. The pair (datetime, ok) read from the overlay is either a datetime
    with ok true or no datetime with ok false, never a mixture; a datetime
    that is returned is a date of the calendar (month 1 to 12, day within the
    month, year 1 to 9999) with a time of day to the second.  When the image
    cannot be read or the OCR fails the pair is (None, False): the function
    does not raise. *)
Theorem extract_datetime_from_text_overlay_ok :
  forall img : Image,
    ((exists dt, extract_datetime_from_text_overlay img = (Some dt, true)
                 /\ valid_datetime dt = true)
     \/ extract_datetime_from_text_overlay img = (None, false))
    /\ (extract_gps_from_text_overlay img = NoneNone ->
        extract_datetime_from_text_overlay img = (None, false)).
Proof.
  intros img. split; [apply overlay_datetime_shape|].
  unfold extract_datetime_from_text_overlay. now intros ->.
Qed.

Lemma date_eqb_eq : forall a b : pydate, date_eqb a b = true -> a = b.
Proof.
  intros [y1 m1 d1] [y2 m2 d2]. unfold date_eqb. cbn [year month day].
  intros H. apply andb_prop in H as (H & Hd). apply andb_prop in H as (Hy & Hm).
  apply Z.eqb_eq in Hy, Hm, Hd. now subst.
Qed.

Lemma extract_gps_and_datetime_resolved : forall (img : Image) (w : World),
    resolved img w (extract_gps_and_datetime img w).
Proof.
  intros img w. unfold extract_gps_and_datetime.
  destruct (extract_gps_from_exif img) as [[la lo]|] eqn:Ex.
  - now apply from_exif.
  - destruct (extract_gps_from_text_overlay img) as [|la lo d t a] eqn:Eo.
    + now apply unreadable.
    + destruct (overlay_coordinates _ _ _ _ _ _ Eo)
        as [[-> ->]|(la' & lo' & -> & -> & _)].
      * now apply (no_coordinates img w d t a).
      * destruct (overlay_datetime_shape img) as [(dt & Ed & _)|Ed]; rewrite Ed.
        -- cbv [bind now].
           destruct (date_eqb (dt_date dt) (dt_date (clock_now (env w) (ticks w)))) eqn:E.
           ++ apply date_eqb_eq in E. now apply (injected img w la' lo' d t a dt).
           ++ now apply (date_mismatch img w la' lo' d t a dt).
        -- now apply (time_parse_failed img w la' lo' d t a).
Qed.

Ltac py_differ :=
  match goal with
  | H : py _ = py _ |- _ => exfalso; vm_compute in H; discriminate H
  | H : Some (py _) = Some (py _) |- _ => exfalso; vm_compute in H; discriminate H
  | H : Some (py _) = None |- _ => discriminate H
  | H : None = Some (py _) |- _ => discriminate H
  end.

(** X7. Whenever [extract_gps_and_datetime] returns: latitude and longitude
    are both present or both absent.  When they are absent the timestamp is
    absent too, the photo file is untouched, and the method is neither "EXIF"
    nor "OCR+Injected".  When they are present the method is "EXIF", with
    the file untouched and the clock not read, or it is "OCR+Injected", and
    then the coordinates lie within [-90, 90] x [-180, 180], the timestamp is
    present, a date of the calendar, and of the date the clock shows, and the
    file is the one [inject_gps_into_exif] leaves.  The database is never
    touched. *)
Theorem extract_gps_and_datetime_outcomes :
  forall (img file : Image) (w w' : World) (ev : Evidence),
    extract_gps_and_datetime img w = Done (ev, file) w' ->
    db w' = db w
    /\ ((ev_lat ev = None /\ ev_lon ev = None /\ ev_dt ev = None /\ file = img
         /\ ev_method ev <> Some (py "EXIF")
         /\ ev_method ev <> Some (py "OCR+Injected"))
        \/ exists lat lon : float,
            ev_lat ev = Some lat /\ ev_lon ev = Some lon
            /\ ((ev_method ev = Some (py "EXIF") /\ file = img /\ w' = w)
                \/ (ev_method ev = Some (py "OCR+Injected")
                    /\ file = inject_gps_into_exif img lat lon
                    /\ (-90 <= lat <= 90)%Q /\ (-180 <= lon <= 180)%Q
                    /\ exists dt : datetime,
                        ev_dt ev = Some dt
                        /\ valid_datetime dt = true
                        /\ dt_date dt = dt_date (clock_now (env w) (ticks w))))).
Proof.
  intros img file w w' ev H.
  pose proof (extract_gps_and_datetime_resolved img w) as R. rewrite H in R.
  inversion R; subst; cbn [ev_lat ev_lon ev_dt ev_method db tick].
  - split; [reflexivity|]. right. exists la, lo. repeat split. left. now repeat split.
  - split; [reflexivity|]. right. exists la, lo. repeat split. right.
    match goal with
    | Ho : extract_gps_from_text_overlay img = Five _ _ _ _ _ |- _ =>
        destruct (overlay_coordinates _ _ _ _ _ _ Ho)
          as [[Hn _]|(la' & lo' & Hla & Hlo & Hb1 & Hb2)]; [discriminate Hn|]
    end.
    injection Hla as <-. injection Hlo as <-.
    split; [reflexivity|]. split; [reflexivity|]. split; [exact Hb1|]. split; [exact Hb2|].
    exists dt. split; [reflexivity|]. split; [|assumption].
    destruct (overlay_datetime_shape img) as [(dt' & Ed & Hv)|Ed]; congruence.
  - split; [reflexivity|]. left.
    repeat split; try reflexivity; intros Hm; py_differ.
  - split; [reflexivity|]. left.
    repeat split; try reflexivity; intros Hm; py_differ.
  - split; [reflexivity|]. left.
    repeat split; try reflexivity; intros Hm; discriminate Hm.
Qed.

(** On the sample photo: resolved from the overlay and injected. *)
Lemma extract_gps_and_datetime_outcomes_witness :
  exists (ev : Evidence) (w' : World),
    extract_gps_and_datetime Sample.photo_image (Sample.world true)
    = Done (ev, inject_gps_into_exif Sample.photo_image
                  (float_of_decimal (py "18.5913")) (float_of_decimal (py "73.7389")))
           w'
    /\ ev_method ev = Some (py "OCR+Injected")
    /\ db w' = db (Sample.world true).
Proof.
  eexists (mkEvidence _ _ _ _ _), (tick (Sample.world true)).
  assert (E : extract_gps_and_datetime Sample.photo_image (Sample.world true)
              = Done (mkEvidence (Some (float_of_decimal (py "18.5913")))
                                 (Some (float_of_decimal (py "73.7389")))
                                 (Some (mkdatetime Sample.today (mktime 8 5 0 0)))
                                 (Some (py "Pune")) (Some (py "OCR+Injected")),
                      inject_gps_into_exif Sample.photo_image
                        (float_of_decimal (py "18.5913"))
                        (float_of_decimal (py "73.7389")))
                     (tick (Sample.world true)))
    by (vm_compute; reflexivity).
  split; [exact E|]. split; [reflexivity|].
  exact (proj1 (extract_gps_and_datetime_outcomes _ _ _ _ _ E)).
Defined.

(** Reading back the GPS dictionary [gps_ifd] writes: the coordinates, each
    within a ten-thousandth of a degree. *)
Lemma gps_ifd_roundtrip : forall (file : Image) (lat lon : float),
    (-90 <= lat <= 90)%Q -> (-180 <= lon <= 180)%Q ->
    exif_gps file = Some (gps_ifd lat lon) ->
    exists lat' lon' : float,
      extract_gps_from_exif file = Some (lat', lon')
      /\ (Qabs (lat' - lat) <= 1 # 10000)%Q
      /\ (Qabs (lon' - lon) <= 1 # 10000)%Q.
Proof.
  intros file lat lon Hlat Hlon Hg.
  destruct (dms_roundtrip lat ltac:(lra)) as (_ & y1 & Hr1 & Hy1).
  destruct (dms_roundtrip lon Hlon) as (_ & y2 & Hr2 & Hy2).
  unfold extract_gps_from_exif. rewrite Hg. unfold gps_ifd.
  cbn [GPSLatitude GPSLongitude GPSLatitudeRef GPSLongitudeRef].
  rewrite Hr1, Hr2.
  eexists _, _. split; [reflexivity|].
  assert (Hsign : forall (x y : Q) (pos neg : str),
             str_eqb pos neg = false -> str_eqb neg neg = true ->
             (Qabs x - (1 # 10000) <= y <= Qabs x + (1 # 10000))%Q ->
             (Qabs ((if str_eqb (if Qle_bool 0 x then pos else neg) neg
                     then - y else y) - x) <= 1 # 10000)%Q).
  { intros x y pos neg Hpn Hnn Hy. destruct (Qle_bool 0 x) eqn:E.
    - apply Qle_bool_iff in E. rewrite (Qabs_pos x E) in Hy. rewrite Hpn.
      apply Qabs_Qle_condition. lra.
    - assert (Hneg : (x <= 0)%Q).
      { destruct (Qlt_le_dec 0 x) as [H|H]; [|exact H].
        apply Qlt_le_weak, Qle_bool_iff in H. congruence. }
      rewrite (Qabs_neg x Hneg) in Hy. rewrite Hnn.
      apply Qabs_Qle_condition. lra. }
  split; apply Hsign; try reflexivity; assumption.
Qed.

(** X8. After a resolution by the overlay that injected the coordinates
    (method "OCR+Injected", the file saved), a second resolution of the file
    is answered from its EXIF block: method "EXIF", each coordinate within
    1e-4 degrees of the one read from the overlay, the address empty, and no
    timestamp at all, the injected EXIF block holding the GPS dictionary
    alone; the clock is not read and the file is left as it is. *)
Theorem extract_gps_and_datetime_after_injection :
  forall (img file : Image) (w w1 : World) (lat lon : float)
         (dt : option datetime) (address : option str),
    pil_save_ok img = true ->
    extract_gps_and_datetime img w
    = Done (mkEvidence (Some lat) (Some lon) dt address (Some (py "OCR+Injected")), file)
           w1 ->
    forall w2 : World,
    exists lat' lon' : float,
      extract_gps_and_datetime file w2
      = Done (mkEvidence (Some lat') (Some lon') None (Some []) (Some (py "EXIF")), file)
             w2
      /\ (Qabs (lat' - lat) <= 1 # 10000)%Q
      /\ (Qabs (lon' - lon) <= 1 # 10000)%Q.
Proof.
  intros img file w w1 lat lon dt address Hsave H w2.
  pose proof (extract_gps_and_datetime_resolved img w) as R. rewrite H in R.
  inversion R; subst; try py_differ.
  match goal with
  | Ho : extract_gps_from_text_overlay img = Five _ _ _ _ _ |- _ =>
      destruct (overlay_coordinates _ _ _ _ _ _ Ho)
        as [[Hn _]|(la' & lo' & Hla & Hlo & Hb1 & Hb2)]; [discriminate Hn|]
  end.
  injection Hla as <-. injection Hlo as <-.
  destruct (dms_roundtrip lat ltac:(lra)) as (Hd1 & _).
  destruct (dms_roundtrip lon Hb2) as (Hd2 & _).
  assert (Hfile : inject_gps_into_exif img lat lon
                  = mkImage (cv2_imread_ok img) (image_to_string img)
                            (Some (gps_ifd lat lon)) None (pil_save_ok img)
                            (face_encodings img)).
  { unfold inject_gps_into_exif. now rewrite Hd1, Hd2, Hsave. }
  destruct (gps_ifd_roundtrip (inject_gps_into_exif img lat lon) lat lon Hb1 Hb2)
    as (lat' & lon' & He & Hc1 & Hc2).
  { now rewrite Hfile. }
  exists lat', lon'. split; [|split; assumption].
  unfold extract_gps_and_datetime. rewrite He. now rewrite Hfile at 1.
Qed.

(** On the sample photo. *)
Lemma extract_gps_and_datetime_after_injection_witness :
  pil_save_ok Sample.photo_image = true
  /\ exists lat' lon' : float,
      extract_gps_and_datetime
        (inject_gps_into_exif Sample.photo_image
           (float_of_decimal (py "18.5913")) (float_of_decimal (py "73.7389")))
        (Sample.world true)
      = Done (mkEvidence (Some lat') (Some lon') None (Some []) (Some (py "EXIF")),
              inject_gps_into_exif Sample.photo_image
                (float_of_decimal (py "18.5913")) (float_of_decimal (py "73.7389")))
             (Sample.world true)
      /\ (Qabs (lat' - float_of_decimal (py "18.5913")) <= 1 # 10000)%Q
      /\ (Qabs (lon' - float_of_decimal (py "73.7389")) <= 1 # 10000)%Q.
Proof.
  split; [reflexivity|].
  apply (extract_gps_and_datetime_after_injection Sample.photo_image _
           (Sample.world true) (tick (Sample.world true)) _ _
           (Some (mkdatetime Sample.today (mktime 8 5 0 0))) (Some (py "Pune")));
    [reflexivity|vm_compute; reflexivity].
Defined.

(** [extract_gps_from_photo] always returns, with the database as it was. *)
Lemma extract_gps_from_photo_returns : forall (img : Image) (w : World),
    exists (found : option (float * float)) (file : Image) (w' : World),
      extract_gps_from_photo img w = Done (found, file) w'
      /\ db w' = db w
      /\ (forall lat lon, found = Some (lat, lon) ->
            extract_gps_from_exif img = Some (lat, lon)
            \/ (extract_gps_from_exif img = None
                /\ (-90 <= lat <= 90)%Q /\ (-180 <= lon <= 180)%Q))
      /\ (extract_gps_from_exif img = None ->
          extract_gps_from_text_overlay img = NoneNone ->
          found = None /\ file = img /\ w' = w).
Proof.
  intros img w. unfold extract_gps_from_photo.
  pose proof (extract_gps_and_datetime_resolved img w) as R.
  inversion R; cbn [ev_lat ev_lon db tick].
  - eexists _, _, _. split; [reflexivity|]. split; [reflexivity|]. split.
    + intros lat lon E. injection E as <- <-. now left.
    + congruence.
  - eexists _, _, _. split; [reflexivity|]. split; [reflexivity|]. split.
    + discriminate.
    + now intros _ _.
  - eexists _, _, _. split; [reflexivity|]. split; [reflexivity|]. split.
    + intros lat lon E. injection E as <- <-. right. split; [assumption|].
      match goal with
      | Ho : extract_gps_from_text_overlay img = Five _ _ _ _ _ |- _ =>
          destruct (overlay_coordinates _ _ _ _ _ _ Ho)
            as [[Hn _]|(la' & lo' & Hla & Hlo & Hb)]; [discriminate Hn|]
      end.
      injection Hla as <-. injection Hlo as <-. exact Hb.
    + congruence.
  - eexists _, _, _. split; [reflexivity|]. split; [reflexivity|]. split.
    + discriminate.
    + congruence.
  - eexists _, _, _. split; [reflexivity|]. split; [reflexivity|]. split.
    + discriminate.
    + congruence.
  - eexists _, _, _. split; [reflexivity|]. split; [reflexivity|]. split.
    + discriminate.
    + congruence.
Qed.

(** X9. [validate_gps_photo] always returns and leaves the database as it
    was, also for a photo on which [extract_gps_and_datetime] raises (no
    EXIF coordinates, image unreadable): the answer is then false with "Photo
    does not contain GPS location data".  The answer "Invalid GPS coordinates
    in photo" is given only for coordinates read from the EXIF block: the
    coordinates read from the overlay are within range already. *)
Theorem validate_gps_photo_returns :
  forall (photo_file : option FileStorage) (w : World),
    exists (ok : bool) (message : str) (w' : World),
      validate_gps_photo photo_file w = Done (ok, message) w'
      /\ db w' = db w
      /\ (message = py "Invalid GPS coordinates in photo" ->
          exists photo, photo_file = Some photo
                        /\ extract_gps_from_exif (content photo) <> None)
      /\ (forall photo,
             photo_file = Some photo -> filename photo <> [] ->
             allowed_photo (filename photo) = true ->
             extract_gps_from_exif (content photo) = None ->
             extract_gps_from_text_overlay (content photo) = NoneNone ->
             ok = false
             /\ message = py "Photo does not contain GPS location data"
             /\ w' = w).
Proof.
  intros [photo|] w; unfold validate_gps_photo.
  2:{ eexists _, _, _. split; [reflexivity|]. split; [reflexivity|].
      split; [intros Hm; py_differ|discriminate]. }
  destruct (filename photo) as [|c name] eqn:En.
  { eexists _, _, _. split; [reflexivity|]. split; [reflexivity|].
    split; [intros Hm; py_differ|]. intros p Hp. injection Hp as <-. congruence. }
  destruct (allowed_photo (c :: name)) eqn:Ea; cbn [negb].
  2:{ eexists _, _, _. split; [reflexivity|]. split; [reflexivity|].
      split; [intros Hm; py_differ|]. intros p Hp. injection Hp as <-.
      rewrite En. congruence. }
  destruct (extract_gps_from_photo_returns (content photo) w)
    as (found & file & w' & E & Hdb & Hfound & Hraise).
  cbv [bind]. rewrite E. cbn [fst].
  destruct found as [[lat lon]|].
  - destruct (Hfound lat lon eq_refl) as [Hx|(Hx & Hb1 & Hb2)].
    + destruct (negb (Qle_bool (-90) lat && Qle_bool lat 90)
                || negb (Qle_bool (-180) lon && Qle_bool lon 180)).
      * eexists _, _, _. split; [reflexivity|]. split; [exact Hdb|]. split.
        -- intros _. exists photo. split; [reflexivity|congruence].
        -- intros p Hp _ _ Hn. injection Hp as <-. congruence.
      * eexists _, _, _. split; [reflexivity|]. split; [exact Hdb|]. split.
        -- intros Hm; py_differ.
        -- intros p Hp _ _ Hn. injection Hp as <-. congruence.
    + assert (Hr : negb (Qle_bool (-90) lat && Qle_bool lat 90)
                   || negb (Qle_bool (-180) lon && Qle_bool lon 180) = false).
      { destruct Hb1 as (H1 & H2), Hb2 as (H3 & H4).
        apply Qle_bool_iff in H1, H2, H3, H4. now rewrite H1, H2, H3, H4. }
      rewrite Hr.
      eexists _, _, _. split; [reflexivity|]. split; [exact Hdb|]. split.
      * intros Hm; py_differ.
      * intros p Hp _ _ _ Ho. injection Hp as <-.
        destruct (Hraise Hx Ho) as (Hf & _). discriminate Hf.
  - eexists _, _, _. split; [reflexivity|]. split; [exact Hdb|]. split.
    + intros Hm; py_differ.
    + intros p Hp _ _ Hx Ho. injection Hp as <-.
      destruct (Hraise Hx Ho) as (_ & _ & ->). now repeat split.
Qed.

(** ** Times of day and working hours *)

Local Open Scope Q_scope.

Lemma Qred_inject_Z : forall z : Z, Qred (inject_Z z) = inject_Z z.
Proof.
  intros z. unfold Qred, inject_Z.
  pose proof (Z.ggcd_gcd z 1) as Hg. pose proof (Z.ggcd_correct_divisors z 1) as Hd.
  destruct (Z.ggcd z 1) as [g [a b]]. cbn [fst snd] in *.
  rewrite Z.gcd_1_r in Hg. subst g. destruct Hd as (Ha & Hb).
  rewrite Z.mul_1_l in Ha, Hb. now subst.
Qed.

Lemma round_half_even_int : forall (x : Q) (m : Z),
    x == inject_Z m -> round_half_even x = m.
Proof.
  intros x m E. unfold round_half_even.
  rewrite (Qfloor_comp _ _ E), Qfloor_Z.
  assert (Ec : (x - inject_Z m ?= 1 # 2) = Lt).
  { apply -> Qlt_alt. rewrite E.
    setoid_replace (inject_Z m - inject_Z m) with 0 by ring. reflexivity. }
  now rewrite Ec.
Qed.

Lemma pow2_ge_1 : forall k : Z, (0 <= k)%Z -> 1 <= pow2 k.
Proof.
  intros k Hk. rewrite pow2_inject by exact Hk.
  change 1 with (inject_Z 1). rewrite <- Zle_Qle.
  pose proof (Z.pow_pos_nonneg 2 k ltac:(lia) Hk). lia.
Qed.

(** An integer below 2^53 in magnitude is a binary64 number: rounding leaves
    it as it is. *)
Lemma fl64_int : forall (x : Q) (n : Z),
    x == inject_Z n -> (Z.abs n < 2 ^ 53)%Z -> fl64 x = inject_Z n.
Proof.
  intros x n E Hn. unfold fl64.
  destruct (Qeq_bool x 0) eqn:E0.
  - apply Qeq_bool_eq in E0. rewrite E in E0.
    assert (n = 0%Z) as ->; [|reflexivity].
    unfold Qeq, inject_Z in E0. cbn in E0. lia.
  - apply Qeq_bool_neq in E0.
    rewrite <- (Qred_inject_Z n). apply Qred_complete.
    assert (Ha : 0 < Qabs x).
    { destruct (Q_dec 0 x) as [[H|H]|H].
      - rewrite Qabs_pos; lra.
      - rewrite Qabs_neg; lra.
      - exfalso. apply E0. now symmetry. }
    pose proof (binade_le _ Ha) as Hp. set (p := binade (Qabs x)) in *.
    assert (Hax : Qabs x == inject_Z (Z.abs n)).
    { rewrite (Qabs_wd _ _ E). unfold Qabs, inject_Z. reflexivity. }
    assert (Hp52 : (p <= 52)%Z).
    { destruct (Z_le_gt_dec p 52) as [H|H]; [exact H|]. exfalso.
      assert (H53 : pow2 53 <= pow2 p).
      { replace p with (53 + (p - 53))%Z by lia. rewrite pow2_add.
        pose proof (pow2_ge_1 (p - 53) ltac:(lia)) as H1.
        pose proof (pow2_pos 53) as H2. nra. }
      rewrite Hax in Hp. rewrite (pow2_inject 53) in H53 by lia.
      assert (Hlt : inject_Z (Z.abs n) < inject_Z (2 ^ 53)) by now rewrite <- Zlt_Qlt.
      lra. }
    assert (Ek : x * pow2 (52 - p) == inject_Z (n * 2 ^ (52 - p))).
    { rewrite E, pow2_inject by lia. now rewrite inject_Z_mult. }
    rewrite (round_half_even_int _ _ Ek), inject_Z_mult.
    rewrite <- (pow2_inject (52 - p)) by lia.
    rewrite <- Qmult_assoc, <- pow2_add.
    replace (52 - p + (p - 52))%Z with 0%Z by lia.
    change (pow2 0) with 1. ring.
Qed.

Lemma py_int_inject_Z : forall z : Z, py_int (inject_Z z) = z.
Proof. intros z. unfold py_int, inject_Z. cbn [Qnum Qden]. apply Z.quot_1_r. Qed.

(** X10. Between two datetimes a whole number [s] of seconds apart (as all
    the datetimes read from photos are), the working hours are the string
    "H:MM" with H = floor(s / 3600) and MM = floor((s mod 3600) / 60), the
    floor division and the remainder being those of integers: the binary64
    arithmetic of the source is exact here.  MM is between 00 and 59 also when
    the OUT time is before the IN time, where H is negative. *)
Theorem calculate_working_hours_whole_seconds :
  forall (in_time out_time : datetime) (s : Z),
    timedelta_us out_time in_time = (1000000 * s)%Z ->
    (Z.abs s < 2 ^ 53)%Z ->
    calculate_working_hours (Some in_time) (Some out_time)
    = (str_of_Z (s / 3600) ++ py ":" ++ format_0d 2 (s mod 3600 / 60))%list
    /\ (0 <= s mod 3600 / 60 <= 59)%Z.
Proof.
  intros in_time out_time s Hus Hs. split.
  - unfold calculate_working_hours, total_seconds, int_truediv. rewrite Hus.
    assert (Es : inject_Z (1000000 * s) / inject_Z 1000000 == inject_Z s).
    { rewrite inject_Z_mult. field. }
    rewrite (fl64_int _ _ Es Hs).
    unfold float_floordiv, float_mod.
    change 3600 with (inject_Z 3600). change 60 with (inject_Z 60).
    rewrite <- !Zdiv_Qdiv.
    assert (Em : inject_Z s - inject_Z (s / 3600) * inject_Z 3600
                 == inject_Z (s mod 3600)).
    { unfold Qminus. rewrite <- inject_Z_mult, <- inject_Z_opp, <- inject_Z_plus.
      rewrite Z.mod_eq by lia.
      replace (s + - (s / 3600 * 3600))%Z with (s - 3600 * (s / 3600))%Z by lia.
      reflexivity. }
    rewrite (Qred_complete _ _ Em), Qred_inject_Z.
    rewrite <- Zdiv_Qdiv, !py_int_inject_Z. reflexivity.
  - pose proof (Z.mod_pos_bound s 3600 ltac:(lia)) as Hm.
    split; [apply Z.div_pos; lia|].
    apply Z.lt_succ_r. apply Z.div_lt_upper_bound; lia.
Qed.

(** From 9:00 to 17:45, and from 17:45 back to 17:44. *)
Lemma calculate_working_hours_whole_seconds_witness :
  calculate_working_hours
    (Some (mkdatetime Sample.today (mktime 9 0 0 0)))
    (Some (mkdatetime Sample.today (mktime 17 45 0 0))) = py "8:45"
  /\ calculate_working_hours
       (Some (mkdatetime Sample.today (mktime 17 45 0 0)))
       (Some (mkdatetime Sample.today (mktime 17 44 0 0))) = py "-1:59".
Proof.
  split.
  - exact (proj1 (calculate_working_hours_whole_seconds
                    (mkdatetime Sample.today (mktime 9 0 0 0))
                    (mkdatetime Sample.today (mktime 17 45 0 0)) 31500
                    eq_refl eq_refl)).
  - exact (proj1 (calculate_working_hours_whole_seconds
                    (mkdatetime Sample.today (mktime 17 45 0 0))
                    (mkdatetime Sample.today (mktime 17 44 0 0)) (-60)
                    eq_refl eq_refl)).
Defined.

Local Close Scope Q_scope.

(** X11. For an hour of the day h (0 to 23), [format_time_12hour] writes the
    hour of the 12-hour clock, ((h + 11) mod 12) + 1, without a leading zero
    (midnight and noon are 12), a colon, the minute on two digits, and " AM"
    before noon or " PM" from noon on. *)
Theorem format_time_12hour_shape :
  forall dt : datetime,
    0 <= hour (dt_time dt) <= 23 ->
    format_time_12hour dt
    = str_of_Z ((hour (dt_time dt) + 11) mod 12 + 1) ++ py ":"
      ++ format_0d 2 (minute (dt_time dt))
      ++ (if hour (dt_time dt) <? 12 then py " AM" else py " PM").
Proof.
  intros [d [h m s us]] Hh. cbn [dt_time hour minute] in *.
  unfold format_time_12hour, strftime_I_M_p. cbn [dt_time hour minute].
  set (rest := py ":" ++ format_0d 2 m ++ (if h <? 12 then py " AM" else py " PM")).
  assert (Hc : h = 0 \/ h = 1 \/ h = 2 \/ h = 3 \/ h = 4 \/ h = 5 \/ h = 6 \/ h = 7
               \/ h = 8 \/ h = 9 \/ h = 10 \/ h = 11 \/ h = 12 \/ h = 13 \/ h = 14
               \/ h = 15 \/ h = 16 \/ h = 17 \/ h = 18 \/ h = 19 \/ h = 20 \/ h = 21
               \/ h = 22 \/ h = 23) by lia.
  clearbody rest.
  repeat destruct Hc as [Hc|Hc]; subst h; vm_compute; reflexivity.
Qed.

(** At 08:05 and at five past midnight. *)
Lemma format_time_12hour_shape_witness :
  format_time_12hour (mkdatetime Sample.today (mktime 8 5 0 0)) = py "8:05 AM"
  /\ format_time_12hour (mkdatetime Sample.today (mktime 0 5 0 0)) = py "12:05 AM".
Proof.
  split.
  - apply (format_time_12hour_shape (mkdatetime Sample.today (mktime 8 5 0 0))).
    cbn. lia.
  - apply (format_time_12hour_shape (mkdatetime Sample.today (mktime 0 5 0 0))).
    cbn. lia.
Defined.

(** ** Submissions *)

Local Close Scope Q_scope.

Lemma differs_from_failed_to_notify : forall (prefix rest : str),
    firstn 11 prefix <> firstn 11 failed_to_notify ->
    (11 <= List.length prefix)%nat ->
    (prefix ++ rest)%list <> failed_to_notify.
Proof.
  intros prefix rest Hp Hl H. apply Hp. rewrite <- H.
  rewrite firstn_app. replace (11 - List.length prefix)%nat with 0%nat by lia.
  cbn [firstn]. now rewrite app_nil_r.
Qed.

Ltac not_failed_to_notify :=
  first
    [ apply differs_from_failed_to_notify;
      [vm_compute; discriminate | vm_compute; lia]
    | let H := fresh in intros H; vm_compute in H; discriminate H ].

(** The paths of [process_attendance]: a rejection before anything is
    written, the exception of the resolver, or the step that records. *)
Lemma process_attendance_cases :
  forall (emp : Employee.t) (photo_file : option FileStorage) (ty : AttType) (w : World),
    (exists msg w',
        process_attendance emp photo_file ty w = Done (false, msg) w'
        /\ db w' = db w /\ env w' = env w /\ flashes w' = flashes w
        /\ msg <> failed_to_notify)
    \/ (exists photo w',
           photo_file = Some photo
           /\ process_attendance emp photo_file ty w
              = Raised (PyError "ValueError: not enough values to unpack") w'
           /\ db w' = db w /\ env w' = env w /\ flashes w' = flashes w
           /\ extract_gps_from_exif (content photo) = None
           /\ extract_gps_from_text_overlay (content photo) = NoneNone)
    \/ (exists lat lon current_time w1,
           db w1 = db w /\ env w1 = env w /\ flashes w1 = flashes w
           /\ process_attendance emp photo_file ty w
              = record_attendance emp ty lat lon
                  (get_address_from_coordinates (env w) lat lon) current_time w1).
Proof.
  intros emp photo_file ty w.
  remember (process_attendance emp photo_file ty w) as r eqn:Er.
  assert (Hrej : forall msg w',
             r = Done (false, msg) w' -> db w' = db w -> env w' = env w ->
             flashes w' = flashes w -> msg <> failed_to_notify ->
             exists msg w',
               r = Done (false, msg) w'
               /\ db w' = db w /\ env w' = env w /\ flashes w' = flashes w
               /\ msg <> failed_to_notify).
  { intros msg w' H1 H2 H3 H4 H5. exists msg, w'. now repeat split. }
  destruct photo_file as [photo|]; unfold process_attendance in Er.
  2:{ left. eapply Hrej; [exact Er|reflexivity..|not_failed_to_notify]. }
  destruct (filename photo) as [|c name] eqn:En.
  { left. eapply Hrej; [exact Er|reflexivity..|not_failed_to_notify]. }
  destruct (allowed_photo (c :: name)); cbn [negb] in Er.
  2:{ left. eapply Hrej; [exact Er|reflexivity..|not_failed_to_notify]. }
  unfold bind at 1, services at 1 in Er. unfold bind at 1, emit at 1 in Er.
  cbn [env db ticks flashes log] in Er.
  destruct (verify_face_match (env w) (content photo) (stored_face_path emp))
    as [[|] face_message]; cbn [negb] in Er.
  2:{ left. eapply Hrej; [exact Er|reflexivity..|not_failed_to_notify]. }
  unfold bind at 1, emit at 1 in Er. cbn [env db ticks flashes log] in Er.
  unfold bind at 1 in Er.
  set (w0 := mkWorld _ _ _ _ _) in Er.
  pose proof (extract_gps_and_datetime_resolved (content photo) w0) as R.
  destruct (extract_gps_and_datetime (content photo) w0) as [[ev file] w1|e w1];
    inversion R as [la lo Hx|Hx Ho|la lo d t a dt Hx Ho Hd Hdate
                    |la lo d t a dt Hx Ho Hd Hdate|la lo d t a Hx Ho Hd
                    |d t a Hx Ho];
    try subst ev; try subst file; try subst w1; try subst e;
    cbn [fst ev_lat ev_lon ev_dt] in Er.
  - (* EXIF *)
    unfold bind at 1, emit at 1 in Er. cbn [env db ticks flashes log w0 tick] in Er.
    destruct (extract_datetime_from_exif (content photo)) as [current_time|].
    2:{ left. eapply Hrej; [exact Er|reflexivity..|not_failed_to_notify]. }
    unfold bind at 1, now at 1 in Er. cbn [env db ticks flashes log] in Er.
    destruct (date_eqb _ _); cbn [negb] in Er.
    2:{ left. eapply Hrej; [exact Er|reflexivity..|not_failed_to_notify]. }
    unfold bind at 1, now at 1 in Er. cbn [env db ticks flashes log] in Er.
    destruct (Qle_bool _ _); cbn [negb] in Er.
    2:{ left. eapply Hrej; [exact Er|reflexivity..|not_failed_to_notify]. }
    right. right. eexists _, _, _, _.
    split; [|split; [|split; [|exact Er]]]; reflexivity.
  - (* overlay, injected *)
    unfold bind at 1, emit at 1 in Er. cbn [env db ticks flashes log w0 tick] in Er.
    unfold bind at 1, now at 1 in Er. cbn [env db ticks flashes log] in Er.
    destruct (date_eqb _ _); cbn [negb] in Er.
    2:{ left. eapply Hrej; [exact Er|reflexivity..|not_failed_to_notify]. }
    unfold bind at 1, now at 1 in Er. cbn [env db ticks flashes log] in Er.
    destruct (Qle_bool _ _); cbn [negb] in Er.
    2:{ left. eapply Hrej; [exact Er|reflexivity..|not_failed_to_notify]. }
    right. right. eexists _, _, _, _.
    split; [|split; [|split; [|exact Er]]]; reflexivity.
  - left. eapply Hrej; [exact Er|reflexivity..|not_failed_to_notify].
  - left. eapply Hrej; [exact Er|reflexivity..|not_failed_to_notify].
  - left. eapply Hrej; [exact Er|reflexivity..|not_failed_to_notify].
  - (* the resolver raises *)
    right. left. exists photo. eexists. split; [reflexivity|]. split; [exact Er|].
    now repeat split.
Qed.

(** ** The sweeps *)

Local Close Scope Q_scope.

Lemma finalize_keys : forall a,
    Attendance.employee_id (finalize a) = Attendance.employee_id a
    /\ Attendance.date (finalize a) = Attendance.date a
    /\ Attendance.in_time (finalize a) = Attendance.in_time a
    /\ Attendance.out_time (finalize a) = Attendance.out_time a.
Proof.
  intros a. unfold finalize.
  now destruct (Attendance.in_time a) eqn:Ei, (Attendance.out_time a) eqn:Eo.
Qed.

Lemma find_map_fixed : forall {A : Type} (p : A -> bool) (f : A -> A) (l : list A),
    (forall x, p (f x) = p x) -> (forall x, p x = true -> f x = x) ->
    find p (map f l) = find p l.
Proof.
  intros A p f l Hp Hf. induction l as [|x l IH]; [reflexivity|].
  cbn [map find]. rewrite Hp. destruct (p x) eqn:E; [now rewrite Hf|exact IH].
Qed.

(** The per-employee sweep, step by step: the records of earlier days of the
    employee finalized, then today's first record of the employee deleted
    when it has no time at all or an IN time of an earlier day. *)
Lemma cleanup_detail : forall (w : World) (e : Z),
    let today := dt_date (clock_now (env w) (ticks w)) in
    let swept :=
      map (fun a => if (Attendance.employee_id a =? e)
                       && date_ltb (Attendance.date a) today
                    then finalize a else a) (attendance (db w)) in
    cleanup_incomplete_attendance e w
    = Done tt
        (mkWorld (env w)
           (with_attendance (db w)
              (match attendance_first (db w) e today with
               | Some a0 =>
                   if match Attendance.in_time a0, Attendance.out_time a0 with
                      | None, None => true
                      | Some i, _ => date_ltb (dt_date i) today
                      | None, Some _ => false
                      end
                   then delete_attendance a0 swept else swept
               | None => swept
               end))
           (S (ticks w)) (flashes w) (log w)).
Proof.
  intros w e today swept. unfold cleanup_incomplete_attendance. run_monad.
  cbn -[delete_attendance attendance_first]. fold today. fold swept.
  assert (Hfirst : attendance_first (with_attendance (db w) swept) e today
                   = attendance_first (db w) e today).
  { unfold attendance_first. cbn [attendance with_attendance]. subst swept.
    apply find_map_fixed.
    - intros x.
      destruct ((Attendance.employee_id x =? e) && date_ltb (Attendance.date x) today);
        [|reflexivity].
      destruct (finalize_keys x) as (-> & -> & _). reflexivity.
    - intros x Hx. apply andb_prop in Hx as (_ & Hd).
      destruct (date_ltb (Attendance.date x) today) eqn:El.
      + apply date_ltb_not_eqb in El. congruence.
      + now rewrite andb_false_r. }
  rewrite Hfirst.
  destruct (attendance_first (db w) e today) as [a0|]; [|reflexivity].
  destruct (Attendance.in_time a0) as [i|], (Attendance.out_time a0);
    try destruct (date_ltb (dt_date i) today); reflexivity.
Qed.

Lemma unique_ids_eq : forall (l : list Attendance.t) (a b : Attendance.t),
    unique (map Attendance.id l) = true ->
    In a l -> In b l -> Attendance.id a = Attendance.id b -> a = b.
Proof.
  induction l as [|x l IH]; intros a b Hu Ha Hb E; [contradiction|].
  cbn [map unique] in Hu. apply andb_prop in Hu as (Hx & Hl).
  apply negb_true_iff in Hx.
  pose proof (unique_not_in Attendance.id l x Hx) as Hne.
  destruct Ha as [->|Ha], Hb as [->|Hb].
  - reflexivity.
  - specialize (Hne b Hb). rewrite <- E, Z.eqb_refl in Hne. discriminate.
  - specialize (Hne a Ha). rewrite E, Z.eqb_refl in Hne. discriminate.
  - now apply IH.
Qed.

Lemma finalize_cases : forall a,
    (incomplete a = false /\ finalize a = a)
    \/ (incomplete a = true
        /\ finalize a
           = Attendance.set_status a
               (match Attendance.in_time a, Attendance.out_time a with
                | None, None => py "Absent"
                | _, _ => py "Half Day"
                end) (Some (py "0:00"))).
Proof.
  intros a. unfold finalize, incomplete.
  destruct (Attendance.in_time a), (Attendance.out_time a); auto.
Qed.

Lemma finalize_idem : forall a, finalize (finalize a) = finalize a.
Proof.
  intros a. destruct (finalize_keys a) as (_ & _ & Hi & Ho).
  unfold finalize at 1. rewrite Hi, Ho.
  unfold finalize. now destruct (Attendance.in_time a), (Attendance.out_time a).
Qed.

Lemma in_delete_attendance : forall (b x : Attendance.t) l,
    In x (delete_attendance b l) <-> In x l /\ Attendance.id x <> Attendance.id b.
Proof.
  intros b x l. unfold delete_attendance. rewrite filter_In, negb_true_iff, Z.eqb_neq.
  reflexivity.
Qed.

(** X12. The per-employee sweep always completes and changes no field of an
    approval request other than its link to a record.  In a database with
    unique keys it leaves every record of another employee in place; and every record it leaves is a record that
    was there, either unchanged or, for a record of the employee of an
    earlier day that lacks a time, with the status "Half Day" ("Absent" when
    it has no time at all) and the working hours "0:00" and nothing else
    changed: no IN or OUT slot and no pending field is ever written. *)
Theorem cleanup_incomplete_attendance_frame :
  forall (w : World) (e : Z),
    pk_ok (db w) = true ->
    let today := dt_date (clock_now (env w) (ticks w)) in
    exists w',
      cleanup_incomplete_attendance e w = Done tt w'
      /\ map request_fields (attendance_approval (db w'))
         = map request_fields (attendance_approval (db w))
      /\ (forall a, In a (attendance (db w)) -> Attendance.employee_id a <> e ->
                    In a (attendance (db w')))
      /\ (forall a', In a' (attendance (db w')) ->
            exists a,
              In a (attendance (db w))
              /\ (a' = a
                  \/ (Attendance.employee_id a = e
                      /\ date_ltb (Attendance.date a) today = true
                      /\ incomplete a = true
                      /\ a' = Attendance.set_status a
                                (match Attendance.in_time a, Attendance.out_time a with
                                 | None, None => py "Absent"
                                 | _, _ => py "Half Day"
                                 end) (Some (py "0:00"))))).
Proof.
  intros w e Hpk today. rewrite (cleanup_detail w e). fold today.
  set (sweep := fun a : Attendance.t =>
                  if (Attendance.employee_id a =? e)
                     && date_ltb (Attendance.date a) today
                  then finalize a else a).
  set (swept := map sweep (attendance (db w))).
  match goal with |- context [with_attendance (db w) ?x] => set (l' := x) end.
  eexists. split; [reflexivity|]. cbn [db attendance with_attendance].
  assert (Hsub : forall x, In x l' -> In x swept).
  { intros x. subst l'. destruct (attendance_first (db w) e today) as [a0|]; [|easy].
    destruct (match Attendance.in_time a0 with Some _ => _ | None => _ end); [|easy].
    intros H. now apply in_delete_attendance in H. }
  split; [reflexivity|]. split.
  - intros a Ha Hne.
    assert (Hs : sweep a = a).
    { unfold sweep. apply Z.eqb_neq in Hne. now rewrite Hne. }
    assert (Hin : In a swept).
    { rewrite <- Hs. now apply in_map. }
    subst l'. destruct (attendance_first (db w) e today) as [a0|] eqn:E0; [|exact Hin].
    destruct (match Attendance.in_time a0 with Some _ => _ | None => _ end); [|exact Hin].
    apply in_delete_attendance. split; [exact Hin|]. intros Eid.
    apply find_some in E0 as (Hin0 & Hp). apply andb_prop in Hp as (He0 & _).
    apply Z.eqb_eq in He0.
    pose proof (unique_ids_eq _ a a0 (pk_ok_unique _ Hpk) Ha Hin0 Eid). congruence.
  - intros a' Ha'. apply Hsub in Ha'. apply in_map_iff in Ha' as (a & <- & Ha).
    exists a. split; [exact Ha|]. unfold sweep.
    destruct ((Attendance.employee_id a =? e) && date_ltb (Attendance.date a) today)
      eqn:E; [|now left].
    apply andb_prop in E as (He & Hd). apply Z.eqb_eq in He.
    destruct (finalize_cases a) as [(_ & ->)|(Hi & ->)]; [now left|right].
    now repeat split.
Qed.

(** On the sample database with a half-open record of 19 September. *)
Lemma cleanup_incomplete_attendance_frame_witness :
  pk_ok Sample.stale_db = true
  /\ exists w',
      cleanup_incomplete_attendance 7 (Sample.world_with true Sample.stale_db)
      = Done tt w'
      /\ forall a', In a' (attendance (db w')) ->
           exists a,
             In a (attendance Sample.stale_db)
             /\ (a' = a
                 \/ (Attendance.employee_id a = 7
                     /\ date_ltb (Attendance.date a) Sample.today = true
                     /\ incomplete a = true
                     /\ a' = Attendance.set_status a
                               (match Attendance.in_time a, Attendance.out_time a with
                                | None, None => py "Absent"
                                | _, _ => py "Half Day"
                                end) (Some (py "0:00")))).
Proof.
  split; [reflexivity|].
  destruct (cleanup_incomplete_attendance_frame
              (Sample.world_with true Sample.stale_db) 7 eq_refl)
    as (w' & Hrun & _ & _ & H).
  exists w'. split; [exact Hrun|exact H].
Defined.

(** X13. When today's first record of the employee has neither an IN time
    nor an OUT time, the per-employee sweep deletes it, whatever its pending
    fields: a record that only carries a request waiting for approval is
    deleted as well, while the fields of the approval requests other than
    their link to a record, the status among them, stay as they are. *)
Theorem cleanup_incomplete_attendance_deletes_timeless :
  forall (w : World) (e : Z) (a : Attendance.t),
    attendance_first (db w) e (dt_date (clock_now (env w) (ticks w))) = Some a ->
    Attendance.in_time a = None ->
    Attendance.out_time a = None ->
    exists w',
      cleanup_incomplete_attendance e w = Done tt w'
      /\ attendance_get (db w') (Attendance.id a) = None
      /\ ~ In a (attendance (db w'))
      /\ map request_fields (attendance_approval (db w'))
         = map request_fields (attendance_approval (db w)).
Proof.
  intros w e a Hfirst Hin Hout. rewrite (cleanup_detail w e), Hfirst, Hin, Hout.
  eexists. split; [reflexivity|]. cbn [db attendance with_attendance attendance_approval].
  split; [|split; [|reflexivity]].
  - unfold attendance_get. cbn [db attendance with_attendance].
    destruct (find _ _) as [x|] eqn:E; [|reflexivity].
    apply find_some in E as (Hx & Ex). apply in_delete_attendance in Hx as (_ & Hne).
    apply Z.eqb_eq in Ex. contradiction.
  - intros H. apply in_delete_attendance in H as (_ & Hne). now apply Hne.
Qed.

(** On the database the sample submission leaves behind: today's record of
    the employee carries the pending request and no time. *)
Lemma cleanup_incomplete_attendance_deletes_timeless_witness :
  exists a w',
    attendance_first Sample.pending_db 7 Sample.today = Some a
    /\ Attendance.pending_approval a = true
    /\ cleanup_incomplete_attendance 7 (Sample.world_with true Sample.pending_db)
       = Done tt w'
    /\ attendance_get (db w') (Attendance.id a) = None
    /\ map request_fields (attendance_approval (db w'))
       = map request_fields (attendance_approval Sample.pending_db).
Proof.
  destruct (attendance_first Sample.pending_db 7 Sample.today) as [a|] eqn:E;
    [|vm_compute in E; discriminate E].
  assert (Hp : Attendance.pending_approval a = true
               /\ Attendance.in_time a = None /\ Attendance.out_time a = None).
  { vm_compute in E. injection E as <-. repeat split. }
  destruct Hp as (Hp & Hi & Ho).
  destruct (cleanup_incomplete_attendance_deletes_timeless
              (Sample.world_with true Sample.pending_db) 7 a E Hi Ho)
    as (w' & Hrun & Hget & _ & Hap).
  exists a, w'. split; [reflexivity|]. split; [exact Hp|]. split; [exact Hrun|].
  split; [exact Hget|exact Hap].
Defined.

(** *** The sweep over all employees *)

Lemma fold_delete_attendance : forall (dels l : list Attendance.t),
    fold_left (fun l record => delete_attendance record l) dels l
    = filter (fun x => negb (existsb (fun r => Attendance.id x =? Attendance.id r) dels)) l.
Proof.
  induction dels as [|r dels IH]; intros l; cbn [fold_left existsb].
  - cbn [negb]. induction l as [|x l IHl]; [reflexivity|]. cbn [filter]. now f_equal.
  - rewrite IH. unfold delete_attendance. clear IH.
    induction l as [|x l IHl]; [reflexivity|]. cbn [filter].
    destruct (Attendance.id x =? Attendance.id r); cbn [negb orb filter].
    + exact IHl.
    + destruct (negb (existsb _ dels)); [now f_equal|exact IHl].
Qed.

(** The sweep over all employees on a table with unique keys: the records
    of earlier days finalized, today's records without a time deleted. *)
Lemma cleanup_all_detail : forall w : World,
    unique (map Attendance.id (attendance (db w))) = true ->
    let today := dt_date (clock_now (env w) (ticks w)) in
    cleanup_all_incomplete_attendance w
    = Done tt
        (mkWorld (env w)
           (with_attendance (db w)
              (filter (fun a => negb (date_eqb (Attendance.date a) today
                                      && match Attendance.in_time a, Attendance.out_time a with
                                         | None, None => true
                                         | _, _ => false
                                         end))
                      (map (fun a => if date_ltb (Attendance.date a) today
                                     then finalize a else a) (attendance (db w)))))
           (S (ticks w)) (flashes w) (log w)).
Proof.
  intros w Hu today. unfold cleanup_all_incomplete_attendance. run_monad.
  cbn [env db ticks flashes log]. fold today.
  set (q := fun a : Attendance.t =>
              date_eqb (Attendance.date a) today
              && match Attendance.in_time a, Attendance.out_time a with
                 | None, None => true
                 | _, _ => false
                 end).
  assert (Hmap : map (fun a => if date_ltb (Attendance.date a) today && incomplete a
                               then finalize a else a) (attendance (db w))
                 = map (fun a => if date_ltb (Attendance.date a) today
                                 then finalize a else a) (attendance (db w))).
  { apply map_ext. intros a. destruct (date_ltb (Attendance.date a) today); [|reflexivity].
    destruct (finalize_cases a) as [(-> & ->)|(-> & _)]; reflexivity. }
  rewrite Hmap.
  set (swept := map _ (attendance (db w))).
  assert (Hus : unique (map Attendance.id swept) = true).
  { subst swept. rewrite map_map. erewrite map_ext; [exact Hu|].
    intros a. cbn. destruct (date_ltb _ _); [apply finalize_id|reflexivity]. }
  rewrite fold_delete_attendance. do 3 f_equal.
  apply filter_ext_in. intros x Hx. f_equal.
  change (existsb (fun r => Attendance.id x =? Attendance.id r) (filter q swept) = q x).
  destruct (q x) eqn:Eq.
  - apply (proj2 (existsb_exists _ _)). exists x. split; [|apply Z.eqb_refl].
    apply filter_In. now split.
  - destruct (existsb _ _) eqn:Ee; [|reflexivity]. exfalso.
    apply existsb_exists in Ee as (r & Hr & Er). apply filter_In in Hr as (Hr & Hq).
    apply Z.eqb_eq in Er.
    pose proof (unique_ids_eq _ x r Hus Hx Hr Er). congruence.
Qed.

Lemma map_filter_commute :
  forall {A : Type} (keep : A -> bool) (f : A -> A) (l : list A),
    (forall x, keep (f x) = keep x) ->
    map f (filter keep l) = filter keep (map f l).
Proof.
  intros A keep f l H. induction l as [|x l IH]; [reflexivity|].
  cbn [filter map]. rewrite H. destruct (keep x); cbn [map]; now rewrite IH.
Qed.

Lemma filter_idem : forall {A : Type} (keep : A -> bool) (l : list A),
    filter keep (filter keep l) = filter keep l.
Proof.
  intros A keep l. induction l as [|x l IH]; [reflexivity|].
  cbn [filter]. destruct (keep x) eqn:E; [|exact IH].
  cbn [filter]. now rewrite E, IH.
Qed.

(** X14. On a database with unique keys the sweep over all employees always
    completes and changes no field of an approval request other than its link
    to a record.  Afterwards every record
    of an earlier day that lacks a time has the working hours "0:00" and the
    status "Half Day", or "Absent" when it has no time at all; no record of
    today without any time is left; and every record that is left was there
    before, unchanged unless it is such a record of an earlier day. *)
Theorem cleanup_all_incomplete_attendance_post :
  forall w : World,
    pk_ok (db w) = true ->
    let today := dt_date (clock_now (env w) (ticks w)) in
    exists w',
      cleanup_all_incomplete_attendance w = Done tt w'
      /\ map request_fields (attendance_approval (db w'))
         = map request_fields (attendance_approval (db w))
      /\ (forall a', In a' (attendance (db w')) ->
            (date_ltb (Attendance.date a') today = true -> incomplete a' = true ->
             Attendance.working_hours a' = Some (py "0:00")
             /\ Attendance.status a'
                = match Attendance.in_time a', Attendance.out_time a' with
                  | None, None => py "Absent"
                  | _, _ => py "Half Day"
                  end)
            /\ (date_eqb (Attendance.date a') today = true ->
                Attendance.in_time a' <> None \/ Attendance.out_time a' <> None)
            /\ exists a,
                In a (attendance (db w))
                /\ (a' = a
                    \/ (date_ltb (Attendance.date a) today = true
                        /\ incomplete a = true /\ a' = finalize a))).
Proof.
  intros w Hpk today. rewrite (cleanup_all_detail w (pk_ok_unique _ Hpk)). fold today.
  eexists. split; [reflexivity|]. cbn [db attendance with_attendance].
  split; [reflexivity|].
  intros a' Ha'. apply filter_In in Ha' as (Ha' & Hkeep).
  apply in_map_iff in Ha' as (a & Ea & Ha).
  apply negb_true_iff in Hkeep.
  split; [|split].
  - intros Hlt Hinc. subst a'.
    destruct (date_ltb (Attendance.date a) today) eqn:El.
    + destruct (finalize_keys a) as (_ & _ & Hi & Ho).
      rewrite Hi, Ho. unfold incomplete in Hinc. rewrite Hi, Ho in Hinc.
      unfold finalize.
      destruct (Attendance.in_time a), (Attendance.out_time a);
        try discriminate Hinc; split; reflexivity.
    + congruence.
  - intros Hd. rewrite Hd in Hkeep. cbn [andb] in Hkeep.
    destruct (Attendance.in_time a'); [left; discriminate|].
    destruct (Attendance.out_time a'); [right; discriminate|discriminate].
  - exists a. split; [exact Ha|].
    destruct (date_ltb (Attendance.date a) today) eqn:El; [|now left].
    destruct (finalize_cases a) as [(_ & Hf)|(Hi & _)].
    + left. congruence.
    + right. now repeat split.
Qed.

(** On the sample database with a half-open record of 19 September. *)
Lemma cleanup_all_incomplete_attendance_post_witness :
  pk_ok Sample.stale_db = true
  /\ exists w',
      cleanup_all_incomplete_attendance (Sample.world_with true Sample.stale_db)
      = Done tt w'
      /\ attendance (db w')
         = [Attendance.set_status Sample.half_open_record (py "Half Day")
              (Some (py "0:00"))].
Proof.
  split; [reflexivity|].
  destruct (cleanup_all_incomplete_attendance_post
              (Sample.world_with true Sample.stale_db) eq_refl)
    as (w' & Hrun & _).
  exists w'. split; [exact Hrun|].
  vm_compute in Hrun. injection Hrun as <-. reflexivity.
Defined.

(** X15. On a database with unique keys, a second sweep over all employees
    on the same day changes nothing: it leaves the database as the first
    left it. *)
Theorem cleanup_all_incomplete_attendance_idempotent :
  forall w : World,
    pk_ok (db w) = true ->
    dt_date (clock_now (env w) (S (ticks w))) = dt_date (clock_now (env w) (ticks w)) ->
    exists w1 w2,
      cleanup_all_incomplete_attendance w = Done tt w1
      /\ cleanup_all_incomplete_attendance w1 = Done tt w2
      /\ db w2 = db w1.
Proof.
  intros w Hpk Hday.
  pose proof (cleanup_all_detail w (pk_ok_unique _ Hpk)) as H1. cbv zeta in H1.
  set (today := dt_date (clock_now (env w) (ticks w))) in *.
  set (keep := fun a : Attendance.t =>
                 negb (date_eqb (Attendance.date a) today
                       && match Attendance.in_time a, Attendance.out_time a with
                          | None, None => true
                          | _, _ => false
                          end)) in *.
  set (sw := fun a : Attendance.t =>
               if date_ltb (Attendance.date a) today then finalize a else a) in *.
  set (w1 := mkWorld _ _ _ _ _) in H1.
  assert (Hsid : forall x, Attendance.id (sw x) = Attendance.id x).
  { intros x. unfold sw. destruct (date_ltb _ _); [apply finalize_id|reflexivity]. }
  assert (Hu1 : unique (map Attendance.id (attendance (db w1))) = true).
  { cbn [w1 db attendance with_attendance]. apply unique_filter.
    rewrite map_map. erewrite map_ext; [exact (pk_ok_unique _ Hpk)|]. exact Hsid. }
  pose proof (cleanup_all_detail w1 Hu1) as H2. cbv zeta in H2.
  cbn [w1 env db ticks flashes log attendance with_attendance] in H2.
  rewrite Hday in H2. fold today in H2. fold keep in H2. fold sw in H2.
  exists w1. eexists. split; [exact H1|]. split; [exact H2|].
  cbn [db w1]. unfold with_attendance. cbn [attendance attendance_approval
    attendance_id_seq attendance_approval_id_seq site employee admins]. f_equal.
  assert (Hkeep : forall x, keep (sw x) = keep x).
  { intros x. unfold keep, sw. destruct (date_ltb _ _); [|reflexivity].
    destruct (finalize_keys x) as (_ & -> & -> & ->). reflexivity. }
  assert (Hsw : forall x, sw (sw x) = sw x).
  { intros x. unfold sw. destruct (date_ltb (Attendance.date x) today) eqn:E.
    - destruct (finalize_keys x) as (_ & -> & _). rewrite E. apply finalize_idem.
    - now rewrite E. }
  rewrite (map_filter_commute keep sw _ Hkeep), filter_idem, map_map.
  f_equal. apply map_ext. exact Hsw.
Qed.

(** On the sample database with a half-open record of 19 September. *)
Lemma cleanup_all_incomplete_attendance_idempotent_witness :
  pk_ok Sample.stale_db = true
  /\ exists w1 w2,
      cleanup_all_incomplete_attendance (Sample.world_with true Sample.stale_db)
      = Done tt w1
      /\ cleanup_all_incomplete_attendance w1 = Done tt w2
      /\ db w2 = db w1.
Proof.
  split; [reflexivity|].
  exact (cleanup_all_incomplete_attendance_idempotent
           (Sample.world_with true Sample.stale_db) eq_refl eq_refl).
Defined.

(** ** Recording a submission *)

Local Close Scope Q_scope.

(** The table the per-employee sweep leaves: keys kept unique and within
    their bound, every row a row that was there, as it was or finalized. *)
Lemma cleanup_run_elements : forall (w : World) (e : Z),
    exists l',
      cleanup_incomplete_attendance e w
      = Done tt (mkWorld (env w) (with_attendance (db w) l') (S (ticks w))
                         (flashes w) (log w))
      /\ (unique (map Attendance.id (attendance (db w))) = true ->
          unique (map Attendance.id l') = true)
      /\ (forall P : Z -> bool,
             forallb (fun a => P (Attendance.id a)) (attendance (db w)) = true ->
             forallb (fun a => P (Attendance.id a)) l' = true)
      /\ (forall x, In x l' ->
            exists a, In a (attendance (db w)) /\ (x = a \/ x = finalize a)).
Proof.
  intros w e. destruct (cleanup_run w e) as (l' & Hrun & Hu & Hf).
  exists l'. split; [exact Hrun|]. split; [exact Hu|]. split; [exact Hf|].
  rewrite (cleanup_detail w e) in Hrun.
  apply (f_equal (fun r => attendance (db (res_world r)))) in Hrun.
  cbn [res_world db attendance with_attendance] in Hrun.
  intros x Hx. rewrite <- Hrun in Hx.
  assert (Hs : In x (map (fun a => if (Attendance.employee_id a =? e)
                                       && date_ltb (Attendance.date a)
                                            (dt_date (clock_now (env w) (ticks w)))
                                    then finalize a else a) (attendance (db w)))).
  { destruct (attendance_first (db w) e _) as [a0|]; [|exact Hx].
    destruct (match Attendance.in_time a0 with Some _ => _ | None => _ end); [|exact Hx].
    now apply in_delete_attendance in Hx. }
  apply in_map_iff in Hs as (a & <- & Ha). exists a. split; [exact Ha|].
  destruct (_ && _); auto.
Qed.

Lemma is_within_site_range_from_shape :
  forall (svc : Services) (lat lon radius : float) (sites : list Site.t) (closest : xfloat),
    (exists s d, is_within_site_range_from svc lat lon sites radius closest
                 = (true, Some s, Finite d)
                 /\ In s sites /\ site_distance svc lat lon s = Some d
                 /\ Qle_bool d radius = true)
    \/ (exists m, is_within_site_range_from svc lat lon sites radius closest
                  = (false, None, m)).
Proof.
  intros svc lat lon radius. induction sites as [|s sites IH]; intros closest;
    cbn [is_within_site_range_from].
  - right. now exists closest.
  - destruct (geodesic_km svc (lat, lon) (Site.latitude s, Site.longitude s))
      as [d|] eqn:E.
    + destruct (Qle_bool d radius) eqn:El.
      * left. exists s, d. split; [reflexivity|]. split; [now left|]. now split.
      * destruct (IH (if xfloat_ltb d closest then Finite d else closest))
          as [(s' & d' & H1 & H2 & H3)|(m & H)].
        -- left. exists s', d'. split; [exact H1|]. split; [now right|exact H3].
        -- right. now exists m.
    + destruct (IH closest) as [(s' & d' & H1 & H2 & H3)|(m & H)].
      * left. exists s', d'. split; [exact H1|]. split; [now right|exact H3].
      * right. now exists m.
Qed.

(** [record_attendance], step by step: the sweep, today's record (found or
    created), and the commit of the branch the proximity check selects. *)
Lemma record_attendance_db :
  forall (w : World) (emp : Employee.t) (ty : AttType) (lat lon : float)
         (address : str) (current_time : datetime),
    let e := Employee.id emp in
    let today := dt_date current_time in
    exists l' : list Attendance.t,
      (unique (map Attendance.id (attendance (db w))) = true ->
       unique (map Attendance.id l') = true)
      /\ (forall P : Z -> bool,
             forallb (fun a => P (Attendance.id a)) (attendance (db w)) = true ->
             forallb (fun a => P (Attendance.id a)) l' = true)
      /\ (forall x, In x l' ->
            exists a, In a (attendance (db w)) /\ (x = a \/ x = finalize a))
      /\ let d1 := with_attendance (db w) l' in
         let found := attendance_first d1 e today in
         let base := match found with
                     | Some a => a
                     | None => Attendance.new (attendance_id_seq (db w)) e today
                     end in
         let table := match found with
                      | Some _ => l'
                      | None => l' ++ [base]
                      end in
         let seq' := match found with
                     | Some _ => attendance_id_seq (db w)
                     | None => attendance_id_seq (db w) + 1
                     end in
         match is_within_site_range (env w) lat lon (employee_sites (db w) emp) 2%Q with
         | (true, Some matched, distance) =>
             let a1 :=
               if is_in ty
               then Attendance.set_site_id
                      (Attendance.set_in base (Some current_time)
                         (Attendance.in_photo base) (Some lat) (Some lon) (Some address))
                      (Some (Site.id matched))
               else Attendance.set_out base (Some current_time)
                      (Attendance.out_photo base) (Some lat) (Some lon) (Some address) in
             let a2 :=
               Attendance.set_status a1
                 (determine_attendance_status (Attendance.in_time a1)
                                              (Attendance.out_time a1))
                 (Some (calculate_working_hours (Attendance.in_time a1)
                                                (Attendance.out_time a1))) in
             record_attendance emp ty lat lon address current_time w
             = Done (true, success_msg ty address (format_time_12hour current_time)
                                       (Site.name matched) distance)
                    (mkWorld (env w)
                       (mkDB (update_attendance a2 table) (attendance_approval (db w))
                             seq' (attendance_approval_id_seq (db w))
                             (site (db w)) (employee (db w)) (admins (db w)))
                       (S (ticks w)) (flashes w) (log w ++ [ProximityCheck]))
         | (true, None, _) =>
             record_attendance emp ty lat lon address current_time w
             = Raised (PyError "AttributeError")
                      (mkWorld (env w) d1 (S (ticks w)) (flashes w)
                               (log w ++ [ProximityCheck]))
         | (false, _, distance) =>
             let a1 := Attendance.set_pending base true (Some ty) (Some lat) (Some lon)
                         (Some address) (Some current_time) None in
             let ap :=
               AttendanceApproval.mk (attendance_approval_id_seq (db w)) e
                 (option_map Attendance.id found) today ty None lat lon (Some address)
                 current_time (py "Pending") None
                 (clock_utcnow (env w) (S (ticks w))) None None in
             record_attendance emp ty lat lon address current_time w
             = Done (false, failed_to_notify)
                    (mkWorld (env w)
                       (mkDB (update_attendance a1 table)
                             (attendance_approval (db w) ++ [ap])
                             seq' (attendance_approval_id_seq (db w) + 1)
                             (site (db w)) (employee (db w)) (admins (db w)))
                       (S (S (ticks w))) (flashes w)
                       (log w ++ [ProximityCheck; AdminEmail false]))
         end.
Proof.
  intros w emp ty lat lon address current_time e today.
  set (w0 := mkWorld (env w) (db w) (ticks w) (flashes w) (log w ++ [ProximityCheck])).
  destruct (cleanup_run_elements w0 e) as (l' & Hrun & Hu & Hf & He).
  exists l'. split; [exact Hu|]. split; [exact Hf|]. split; [exact He|].
  cbv zeta.
  remember (record_attendance emp ty lat lon address current_time w) as r eqn:Er.
  unfold record_attendance in Er. unfold bind at 1, services at 1 in Er.
  unfold bind at 1, get_db at 1 in Er. fold (employee_sites (db w) emp) in Er.
  unfold bind at 1, emit at 1 in Er. cbn [env db] in Er. fold w0 in Er.
  fold e in Er. fold today in Er.
  destruct (is_within_site_range (env w) lat lon (employee_sites (db w) emp) 2%Q)
    as [[within_range matched] distance].
  unfold bind at 1 in Er. rewrite Hrun in Er. unfold bind at 1, get_db at 1 in Er.
  cbn [db env ticks flashes log w0] in Er.
  destruct (attendance_first (with_attendance (db w) l') e today) as [a0|];
    destruct within_range; try destruct matched as [matched|];
    cbn -[py reason_msg pending_msg success_msg format_time_12hour failed_to_notify
          update_attendance Attendance.new determine_attendance_status
          calculate_working_hours] in Er;
    rewrite <- ?app_assoc in Er; cbn [app] in Er;
    exact Er.
Qed.

(** Today's record, found or created, is the first record of the employee
    and the day once it is written back. *)
Lemma written_record_first :
  forall (l' : list Attendance.t) (k e : Z) (today : pydate) (a' : Attendance.t),
    let p := fun a => (Attendance.employee_id a =? e)
                      && date_eqb (Attendance.date a) today in
    let base := match find p l' with
                | Some a => a
                | None => Attendance.new k e today
                end in
    let table := match find p l' with
                 | Some _ => l'
                 | None => l' ++ [Attendance.new k e today]
                 end in
    forallb (fun a => Attendance.id a <? k) l' = true ->
    Attendance.id a' = Attendance.id base ->
    Attendance.employee_id a' = Attendance.employee_id base ->
    Attendance.date a' = Attendance.date base ->
    find p (update_attendance a' table) = Some a'.
Proof.
  intros l' k e today a' p base table Hf Hid He Hd. subst base table.
  destruct (find p l') as [a0|] eqn:E.
  - rewrite update_attendance_put.
    apply (@find_put _ Attendance.id p l' a0 a' E Hid).
    apply find_some in E as (_ & Hp). unfold p in *. now rewrite He, Hd.
  - cbn [Attendance.new Attendance.id Attendance.employee_id Attendance.date] in *.
    subst p. now apply first_after_insert.
Qed.

(** X16. A submission that is answered not accepted with any message other
    than the failed-to-notify one has changed nothing in the database: the
    checks of the photo, the face, the evidence, the date and the time skew
    all come before the first write. *)
Theorem process_attendance_rejection_keeps_db :
  forall (emp : Employee.t) (photo_file : option FileStorage) (ty : AttType)
         (w w' : World) (message : str),
    process_attendance emp photo_file ty w = Done (false, message) w' ->
    message <> failed_to_notify ->
    db w' = db w.
Proof.
  intros emp photo_file ty w w' message H Hm.
  destruct (process_attendance_cases emp photo_file ty w)
    as [(msg & w'' & E & Hdb & _)|[(photo & w'' & _ & E & _)
                                  |(lat & lon & t & w1 & Hdb & _ & _ & E)]].
  - rewrite E in H. injection H as _ <-. exact Hdb.
  - rewrite E in H. discriminate H.
  - rewrite E in H. exfalso.
    destruct (record_attendance_db w1 emp ty lat lon
                (get_address_from_coordinates (env w) lat lon) t)
      as (l' & _ & _ & _ & R). cbv zeta in R.
    destruct (is_within_site_range _ _ _ _ _) as [[[|] [matched|]] distance];
      rewrite R in H; try discriminate H.
    + injection H as <- _. now apply Hm.
    + injection H as <- _. now apply Hm.
Qed.

(** On a photo whose overlay shows coordinates and no time. *)
Lemma process_attendance_rejection_keeps_db_witness :
  exists (message : str) (w' : World),
    process_attendance Sample.emp
      (Some (mkFileStorage (py "site.jpg") Sample.photo_without_time)) type_in
      (Sample.world true)
    = Done (false, message) w'
    /\ log w' = [FaceVerification; EvidenceExtraction]
    /\ db w' = db (Sample.world true).
Proof.
  eexists _, (mkWorld _ _ _ _ _).
  assert (E : process_attendance Sample.emp
                (Some (mkFileStorage (py "site.jpg") Sample.photo_without_time)) type_in
                (Sample.world true)
              = Done (false, py "Failed to extract GPS information from photo. Please ensure your GPS photo has clear, visible coordinates and date/time overlay. Try taking a new photo with better lighting or clearer text.")
                     (mkWorld (Sample.services true) Sample.empty_db 0 []
                              [FaceVerification; EvidenceExtraction]))
    by (vm_compute; reflexivity).
  split; [exact E|]. split; [reflexivity|].
  apply (process_attendance_rejection_keeps_db _ _ _ _ _ _ E).
  intros H. vm_compute in H. discriminate H.
Defined.

(** X17. A submission that passes the identity, evidence, date and
    time-skew checks (photo time at most 600 seconds from the upload time)
    within the radius of a candidate site is recorded at once, whether or not
    the slot was already populated: today's record of the employee carries the
    photo time, the coordinates and the address in the slot of the submitted
    direction, and for an IN also the matched site; its status and working
    hours are those [determine_attendance_status] and
    [calculate_working_hours] give for its IN and OUT times; the answer is
    accepted with the success message; no approval request is stored, none
    changes a field other than its link to a record, and the admin is not
    notified. *)
Theorem process_attendance_in_range :
  forall (w w1 : World) (emp : Employee.t) (photo : FileStorage) (ty : AttType)
         (face_message : str) (lat lon : float) (current_time : datetime)
         (ev_addr ev_meth : option str) (file : Image)
         (matched : Site.t) (distance : xfloat),
    pk_ok (db w) = true ->
    filename photo <> [] ->
    allowed_photo (filename photo) = true ->
    verify_face_match (env w) (content photo) (stored_face_path emp)
    = (true, face_message) ->
    extract_gps_and_datetime (content photo)
      (mkWorld (env w) (db w) (ticks w) (flashes w)
               ((log w ++ [FaceVerification]) ++ [EvidenceExtraction]))
    = Done (mkEvidence (Some lat) (Some lon) (Some current_time) ev_addr ev_meth, file)
           w1 ->
    date_eqb (dt_date current_time) (dt_date (clock_now (env w) (ticks w1))) = true ->
    Z.abs (timedelta_us current_time (clock_now (env w) (S (ticks w1)))) <= 600000000 ->
    is_within_site_range (env w) lat lon (employee_sites (db w) emp) 2%Q
    = (true, Some matched, distance) ->
    let address := get_address_from_coordinates (env w) lat lon in
    exists (w' : World) (a : Attendance.t),
      process_attendance emp (Some photo) ty w
      = Done (true, success_msg ty address (format_time_12hour current_time)
                                (Site.name matched) distance) w'
      /\ attendance_first (db w') (Employee.id emp) (dt_date current_time) = Some a
      /\ (if is_in ty
          then (Attendance.in_time a, Attendance.in_latitude a, Attendance.in_longitude a,
                Attendance.in_address a, Attendance.site_id a)
               = (Some current_time, Some lat, Some lon, Some address,
                  Some (Site.id matched))
          else (Attendance.out_time a, Attendance.out_latitude a,
                Attendance.out_longitude a, Attendance.out_address a)
               = (Some current_time, Some lat, Some lon, Some address))
      /\ Attendance.status a
         = determine_attendance_status (Attendance.in_time a) (Attendance.out_time a)
      /\ Attendance.working_hours a
         = Some (calculate_working_hours (Attendance.in_time a) (Attendance.out_time a))
      /\ map request_fields (attendance_approval (db w'))
         = map request_fields (attendance_approval (db w))
      /\ log w' = log w ++ [FaceVerification; EvidenceExtraction; ReverseGeocoding;
                            ProximityCheck].
Proof.
  intros w w1 emp photo ty face_message lat lon current_time ev_addr ev_meth file
         matched distance Hpk Hname Hext Hface Hev Hdate Hskew Hrange address.
  assert (Hq : Qle_bool (Qabs (fdiv (total_seconds
                                       (timedelta_us current_time
                                          (clock_now (env w) (S (ticks w1)))))
                                    60%Q)) 10%Q = true).
  { rewrite minutes_at_most_ten. now apply Z.leb_le. }
  rewrite (process_attendance_reaches_record w w1 emp photo ty face_message lat lon
             current_time ev_addr ev_meth file Hname Hext Hface Hev Hdate Hq).
  fold address. set (w2 := mkWorld _ _ _ _ _).
  destruct (record_attendance_db w2 emp ty lat lon address current_time)
    as (l' & Hu & Hf & _ & R). cbv zeta in R.
  cbn [w2 env db ticks flashes log] in R, Hu, Hf. rewrite Hrange in R.
  specialize (Hf (fun i => i <? attendance_id_seq (db w)) (pk_ok_fresh _ Hpk)).
  unfold attendance_first in R. cbn [attendance with_attendance] in R.
  match type of R with
  | context [Attendance.set_in ?b _ _ _ _ _] => set (base := b) in R
  end.
  match type of R with
  | context [update_attendance ?x _] => set (a2 := x) in R
  end.
  eexists. exists a2. split; [exact R|]. cbn [db log attendance_approval].
  split; [|split; [|split; [|split; [|split]]]].
  - unfold attendance_first. cbn [attendance].
    pose proof (written_record_first l' (attendance_id_seq (db w)) (Employee.id emp)
                  (dt_date current_time) a2 Hf) as W.
    cbv zeta in W. subst a2 base. revert W.
    destruct (find _ l'); intro W; apply W; destruct ty; reflexivity.
  - subst a2. destruct ty; reflexivity.
  - subst a2. destruct ty; reflexivity.
  - subst a2. destruct ty; reflexivity.
  - reflexivity.
  - rewrite <- !app_assoc. reflexivity.
Qed.

(** On the sample photo taken 300 m from the site: the IN slot and the site
    are written, and no approval request is stored. *)
Lemma process_attendance_in_range_witness :
  pk_ok (db Scenario.near_world) = true
  /\ exists (w' : World) (a : Attendance.t),
      process_attendance Sample.emp (Some Sample.photo) type_in Scenario.near_world
      = Done (true, success_msg type_in (py "Hinjewadi, Pune, Maharashtra, India")
                      (py "8:05 AM") (py "Head Office") (Finite (3 # 10)%Q)) w'
      /\ attendance_first (db w') 7 Sample.today = Some a
      /\ Attendance.in_time a = Some (mkdatetime Sample.today (mktime 8 5 0 0))
      /\ Attendance.site_id a = Some 1%Z
      /\ map request_fields (attendance_approval (db w')) = [].
Proof.
  split; [reflexivity|].
  destruct (process_attendance_in_range
              Scenario.near_world
              (mkWorld Sample.services_near Sample.empty_db 1 []
                       [FaceVerification; EvidenceExtraction])
              Sample.emp Sample.photo type_in (py "Face verified successfully")
              (float_of_decimal (py "18.5913")) (float_of_decimal (py "73.7389"))
              (mkdatetime Sample.today (mktime 8 5 0 0))
              (Some (py "Pune")) (Some (py "OCR+Injected"))
              (inject_gps_into_exif Sample.photo_image
                 (float_of_decimal (py "18.5913")) (float_of_decimal (py "73.7389")))
              Sample.office (Finite (3 # 10)%Q))
    as (w' & a & Hrun & Hfirst & Hslot & _ & _ & Hap & _).
  - reflexivity.
  - discriminate.
  - reflexivity.
  - reflexivity.
  - vm_compute. reflexivity.
  - reflexivity.
  - vm_compute. discriminate.
  - reflexivity.
  - exists w', a. split; [exact Hrun|]. split; [exact Hfirst|].
    cbn [is_in] in Hslot.
    split; [exact (f_equal (fun t => fst (fst (fst (fst t)))) Hslot)|].
    split; [exact (f_equal snd Hslot)|exact Hap].
Defined.
(** ** The checks before a submission is recorded *)

Local Close Scope Q_scope.

(** A photo dated another day than the upload, or timed more than ten minutes
    from it, is turned down once the address is resolved. *)
Lemma process_attendance_not_fresh :
  forall (w w1 : World) (emp : Employee.t) (photo : FileStorage) (ty : AttType)
         (face_message : str) (lat lon : float) (current_time : datetime)
         (ev_addr ev_meth : option str) (file : Image),
    filename photo <> [] ->
    allowed_photo (filename photo) = true ->
    verify_face_match (env w) (content photo) (stored_face_path emp)
    = (true, face_message) ->
    extract_gps_and_datetime (content photo)
      (mkWorld (env w) (db w) (ticks w) (flashes w)
               ((log w ++ [FaceVerification]) ++ [EvidenceExtraction]))
    = Done (mkEvidence (Some lat) (Some lon) (Some current_time) ev_addr ev_meth, file)
           w1 ->
    let upload_time := clock_now (env w) (S (ticks w1)) in
    let minutes := Qabs (fdiv (total_seconds (timedelta_us current_time upload_time))
                              60%Q) in
    date_eqb (dt_date current_time) (dt_date (clock_now (env w) (ticks w1))) = false
    \/ Qle_bool minutes 10%Q = false ->
    process_attendance emp (Some photo) ty w
    = Done (false,
            if date_eqb (dt_date current_time) (dt_date (clock_now (env w) (ticks w1)))
            then py "Time validation failed: Photo time differs from upload time by "
                 ++ format_f 1 minutes ++ py " minutes (max allowed: 10 min)"
            else py "Photo date does not match today's date. Please use a fresh GPS photo taken today.")
           (mkWorld (env w) (db w)
              (if date_eqb (dt_date current_time)
                           (dt_date (clock_now (env w) (ticks w1)))
               then S (S (ticks w1)) else S (ticks w1))
              (flashes w)
              (((log w ++ [FaceVerification]) ++ [EvidenceExtraction])
               ++ [ReverseGeocoding])).
Proof.
  intros w w1 emp photo ty face_message lat lon current_time ev_addr ev_meth file
         Hname Hext Hface Hev upload_time minutes Hstale.
  pose proof (extract_gps_and_datetime_world _ _ _ _ Hev) as Hw1.
  destruct w1 as [e1 d1 t1 f1 l1]. cbn [env db ticks flashes log] in *.
  injection Hw1 as -> -> -> ->.
  unfold process_attendance.
  destruct (filename photo) as [|c name] eqn:Hn; [contradiction|].
  rewrite Hext. cbn [negb].
  unfold bind at 1, services at 1. unfold bind at 1, emit at 1.
  cbn [env db ticks flashes log]. rewrite Hface. cbn [negb].
  unfold bind at 1, emit at 1. cbn [env db ticks flashes log].
  unfold bind at 1. rewrite Hev. cbn [fst ev_lat ev_lon ev_dt].
  unfold bind at 1, emit at 1. unfold bind at 1, now at 1.
  cbn [env db ticks flashes log].
  destruct (date_eqb (dt_date current_time) (dt_date (clock_now (env w) t1))) eqn:Ed;
    cbn [negb]; [|reflexivity].
  destruct Hstale as [Hd|Hm]; [discriminate Hd|].
  unfold bind at 1, now at 1. cbn [env db ticks flashes log].
  fold upload_time. fold minutes. rewrite Hm. reflexivity.
Qed.

(** X18. A submission that passes the identity and evidence checks is turned
    down, with the database as it was and before the sites are looked at,
    when the photo is dated another day than the upload or when its time
    differs from the upload time by more than 600 seconds, exactly: the
    comparison the code makes on the rounded minutes decides as the
    microseconds do.  The answer names the date in the first case and gives
    the minutes to one decimal in the second. *)
Theorem process_attendance_stale_photo :
  forall (w w1 : World) (emp : Employee.t) (photo : FileStorage) (ty : AttType)
         (face_message : str) (lat lon : float) (current_time : datetime)
         (ev_addr ev_meth : option str) (file : Image),
    filename photo <> [] ->
    allowed_photo (filename photo) = true ->
    verify_face_match (env w) (content photo) (stored_face_path emp)
    = (true, face_message) ->
    extract_gps_and_datetime (content photo)
      (mkWorld (env w) (db w) (ticks w) (flashes w)
               ((log w ++ [FaceVerification]) ++ [EvidenceExtraction]))
    = Done (mkEvidence (Some lat) (Some lon) (Some current_time) ev_addr ev_meth, file)
           w1 ->
    let same_day :=
      date_eqb (dt_date current_time) (dt_date (clock_now (env w) (ticks w1))) in
    let skew := timedelta_us current_time (clock_now (env w) (S (ticks w1))) in
    same_day = false \/ 600000000 < Z.abs skew ->
    exists w',
      process_attendance emp (Some photo) ty w
      = Done (false,
              if same_day
              then py "Time validation failed: Photo time differs from upload time by "
                   ++ format_f 1 (Qabs (fdiv (total_seconds skew) 60%Q))
                   ++ py " minutes (max allowed: 10 min)"
              else py "Photo date does not match today's date. Please use a fresh GPS photo taken today.")
             w'
      /\ db w' = db w
      /\ log w' = log w ++ [FaceVerification; EvidenceExtraction; ReverseGeocoding].
Proof.
  intros w w1 emp photo ty face_message lat lon current_time ev_addr ev_meth file
         Hname Hext Hface Hev same_day skew Hstale.
  eexists. split.
  - apply (process_attendance_not_fresh w w1 emp photo ty face_message lat lon
             current_time ev_addr ev_meth file Hname Hext Hface Hev).
    destruct Hstale as [Hd|Hs]; [left; exact Hd|right].
    rewrite minutes_at_most_ten. apply Z.leb_gt. exact Hs.
  - cbn [db log]. split; [reflexivity|]. rewrite <- !app_assoc. reflexivity.
Qed.

(** On the sample photo of 08:05 uploaded at 08:20:30. *)
Lemma process_attendance_stale_photo_witness :
  exists w',
    process_attendance Sample.emp (Some Sample.photo) type_in Scenario.late_world
    = Done (false,
            py "Time validation failed: Photo time differs from upload time by 15.5 minutes (max allowed: 10 min)")
           w'
    /\ db w' = Sample.empty_db
    /\ log w' = [FaceVerification; EvidenceExtraction; ReverseGeocoding].
Proof.
  destruct (process_attendance_stale_photo
              Scenario.late_world
              (mkWorld Scenario.services_late Sample.empty_db 1 []
                       [FaceVerification; EvidenceExtraction])
              Sample.emp Sample.photo type_in (py "Face verified successfully")
              (float_of_decimal (py "18.5913")) (float_of_decimal (py "73.7389"))
              (mkdatetime Sample.today (mktime 8 5 0 0))
              (Some (py "Pune")) (Some (py "OCR+Injected"))
              (inject_gps_into_exif Sample.photo_image
                 (float_of_decimal (py "18.5913")) (float_of_decimal (py "73.7389"))))
    as (w' & Hrun & Hdb & Hlog).
  - discriminate.
  - reflexivity.
  - reflexivity.
  - vm_compute. reflexivity.
  - right. vm_compute. reflexivity.
  - exists w'. split; [exact Hrun|split; [exact Hdb|exact Hlog]].
Defined.

(** X19. For an overlay photo, one without EXIF coordinates whose overlay
    shows a coordinate pair, a date that is not today's and a date and time
    that cannot be put together are both answered as a failure to extract the
    GPS information: the coordinates that were read are not used, the address
    is not looked up, the database stays as it was, and the answers that name
    the date or the time are not given. *)
Theorem process_attendance_overlay_without_todays_time :
  forall (w : World) (emp : Employee.t) (photo : FileStorage) (ty : AttType)
         (face_message : str) (la lo : float) (d t a : option str),
    filename photo <> [] ->
    allowed_photo (filename photo) = true ->
    verify_face_match (env w) (content photo) (stored_face_path emp)
    = (true, face_message) ->
    extract_gps_from_exif (content photo) = None ->
    extract_gps_from_text_overlay (content photo) = Five (Some la) (Some lo) d t a ->
    (forall dt, extract_datetime_from_text_overlay (content photo) = (Some dt, true) ->
                date_eqb (dt_date dt) (dt_date (clock_now (env w) (ticks w))) = false) ->
    exists w',
      process_attendance emp (Some photo) ty w
      = Done (false, py "Failed to extract GPS information from photo. Please ensure your GPS photo has clear, visible coordinates and date/time overlay. Try taking a new photo with better lighting or clearer text.") w'
      /\ db w' = db w
      /\ log w' = log w ++ [FaceVerification; EvidenceExtraction].
Proof.
  intros w emp photo ty face_message la lo d t a Hname Hext Hface Hx Ho Hdt.
  unfold process_attendance.
  destruct (filename photo) as [|c name] eqn:Hn; [contradiction|].
  rewrite Hext. cbn [negb].
  unfold bind at 1, services at 1. unfold bind at 1, emit at 1.
  cbn [env db ticks flashes log]. rewrite Hface. cbn [negb].
  unfold bind at 1, emit at 1. cbn [env db ticks flashes log].
  unfold bind at 1. unfold extract_gps_and_datetime. rewrite Hx, Ho.
  destruct (extract_datetime_from_text_overlay (content photo)) as [[dt|] [|]] eqn:Ed.
  - unfold bind at 1, now at 1. cbn [env db ticks flashes log].
    rewrite (Hdt dt eq_refl). unfold ret. cbn [fst ev_lat ev_lon ev_dt].
    eexists. split; [reflexivity|]. cbn [db log]. split; [reflexivity|].
    now rewrite <- app_assoc.
  - unfold ret. cbn [fst ev_lat ev_lon ev_dt].
    eexists. split; [reflexivity|]. cbn [db log]. split; [reflexivity|].
    now rewrite <- app_assoc.
  - unfold ret. cbn [fst ev_lat ev_lon ev_dt].
    eexists. split; [reflexivity|]. cbn [db log]. split; [reflexivity|].
    now rewrite <- app_assoc.
  - unfold ret. cbn [fst ev_lat ev_lon ev_dt].
    eexists. split; [reflexivity|]. cbn [db log]. split; [reflexivity|].
    now rewrite <- app_assoc.
Qed.

(** On the sample photo of 22 September submitted on the 23rd. *)
Lemma process_attendance_overlay_without_todays_time_witness :
  extract_datetime_from_text_overlay Sample.photo_image
  = (Some (mkdatetime Sample.today (mktime 8 5 0 0)), true)
  /\ exists w',
      process_attendance Sample.emp (Some Sample.photo) type_in Scenario.next_day_world
      = Done (false, py "Failed to extract GPS information from photo. Please ensure your GPS photo has clear, visible coordinates and date/time overlay. Try taking a new photo with better lighting or clearer text.") w'
      /\ db w' = Sample.empty_db
      /\ log w' = [FaceVerification; EvidenceExtraction].
Proof.
  assert (E : extract_datetime_from_text_overlay Sample.photo_image
              = (Some (mkdatetime Sample.today (mktime 8 5 0 0)), true))
    by (vm_compute; reflexivity).
  split; [exact E|].
  apply (process_attendance_overlay_without_todays_time
           Scenario.next_day_world Sample.emp Sample.photo type_in
           (py "Face verified successfully")
           (float_of_decimal (py "18.5913")) (float_of_decimal (py "73.7389"))
           (Some (py "22/09/2025")) (Some (py "08:05:00 AM")) (Some (py "Pune"))).
  - discriminate.
  - reflexivity.
  - reflexivity.
  - reflexivity.
  - vm_compute. reflexivity.
  - intros dt H. change (content Sample.photo) with Sample.photo_image in H.
    rewrite E in H. injection H as <-. reflexivity.
Defined.

(** X20. When the photo carries no EXIF coordinates and the overlay reader
    gives up (OpenCV cannot read the file, or the OCR raises),
    [process_attendance] does not answer: after the face check it raises the
    [ValueError] of the five-value unpacking, with the database as it was. *)
Theorem process_attendance_unreadable_photo :
  forall (w : World) (emp : Employee.t) (photo : FileStorage) (ty : AttType)
         (face_message : str),
    filename photo <> [] ->
    allowed_photo (filename photo) = true ->
    verify_face_match (env w) (content photo) (stored_face_path emp)
    = (true, face_message) ->
    extract_gps_from_exif (content photo) = None ->
    extract_gps_from_text_overlay (content photo) = NoneNone ->
    exists w',
      process_attendance emp (Some photo) ty w
      = Raised (PyError "ValueError: not enough values to unpack") w'
      /\ db w' = db w
      /\ flashes w' = flashes w
      /\ log w' = log w ++ [FaceVerification; EvidenceExtraction].
Proof.
  intros w emp photo ty face_message Hname Hext Hface Hx Ho.
  unfold process_attendance.
  destruct (filename photo) as [|c name] eqn:Hn; [contradiction|].
  rewrite Hext. cbn [negb].
  unfold bind at 1, services at 1. unfold bind at 1, emit at 1.
  cbn [env db ticks flashes log]. rewrite Hface. cbn [negb].
  unfold bind at 1, emit at 1. cbn [env db ticks flashes log].
  unfold bind at 1. unfold extract_gps_and_datetime. rewrite Hx, Ho.
  unfold raise. eexists. split; [reflexivity|]. cbn [db flashes log].
  split; [reflexivity|]. split; [reflexivity|]. now rewrite <- app_assoc.
Qed.

(** On a file OpenCV cannot read. *)
Lemma process_attendance_unreadable_photo_witness :
  cv2_imread_ok (content Scenario.unreadable_photo) = false
  /\ exists w',
      process_attendance Sample.emp (Some Scenario.unreadable_photo) type_in
                         (Sample.world true)
      = Raised (PyError "ValueError: not enough values to unpack") w'
      /\ db w' = Sample.empty_db
      /\ flashes w' = []
      /\ log w' = [FaceVerification; EvidenceExtraction].
Proof.
  split; [reflexivity|].
  apply (process_attendance_unreadable_photo
           (Sample.world true) Sample.emp Scenario.unreadable_photo type_in
           (py "Face verified successfully")).
  - discriminate.
  - reflexivity.
  - reflexivity.
  - reflexivity.
  - reflexivity.
Defined.

(** X21. An employee without a reference photo, or whose reference file is
    not in the upload folder, cannot record attendance: every photo with an
    accepted name is turned down by the face check, with one of its messages,
    before the evidence is read and with the database as it was. *)
Theorem process_attendance_without_reference_photo :
  forall (w : World) (emp : Employee.t) (photo : FileStorage) (ty : AttType),
    filename photo <> [] ->
    allowed_photo (filename photo) = true ->
    match stored_face_path emp with
    | Some p => stored_photo (env w) p
    | None => None
    end = None ->
    exists w',
      process_attendance emp (Some photo) ty w
      = Done (false,
              py "Face verification failed: "
              ++ match face_encodings (content photo) with
                 | inl e => py "Face verification error: " ++ e
                 | inr O => py "No face detected in uploaded photo"
                 | inr (S O) => py "Employee face not found in database"
                 | inr (S (S _)) =>
                     py "Multiple faces detected. Please upload photo with single face"
                 end) w'
      /\ db w' = db w
      /\ log w' = log w ++ [FaceVerification].
Proof.
  intros w emp photo ty Hname Hext Hstored.
  unfold process_attendance.
  destruct (filename photo) as [|c name] eqn:Hn; [contradiction|].
  rewrite Hext. cbn [negb].
  unfold bind at 1, services at 1. unfold bind at 1, emit at 1.
  cbn [env db ticks flashes log]. unfold verify_face_match. rewrite Hstored.
  destruct (face_encodings (content photo)) as [e|[|[|n]]]; cbn [negb];
    eexists; (split; [reflexivity|]); cbn [db log]; split; reflexivity.
Qed.

(** On the sample employee with the photo column empty. *)
Lemma process_attendance_without_reference_photo_witness :
  exists w',
    process_attendance Scenario.emp_without_photo (Some Sample.photo) type_in
                       (Sample.world true)
    = Done (false, py "Face verification failed: Employee face not found in database") w'
    /\ db w' = Sample.empty_db
    /\ log w' = [FaceVerification].
Proof.
  apply (process_attendance_without_reference_photo
           (Sample.world true) Scenario.emp_without_photo Sample.photo type_in).
  - discriminate.
  - reflexivity.
  - reflexivity.
Defined.
(** ** Status and working hours *)

Local Close Scope Q_scope.

Lemma in_put : forall {A : Type} (key : A -> Z) (a x : A) (l : list A),
    In x (put key a l) -> x = a \/ In x l.
Proof.
  intros A key a x l H. unfold put in H. apply in_map_iff in H as (y & E & Hy).
  destruct (key y =? key a); subst; auto.
Qed.

Lemma consistent_new : forall i e d, consistent (Attendance.new i e d).
Proof. intros i e d. split; [reflexivity|now left]. Qed.

Lemma consistent_finalize : forall a, consistent a -> consistent (finalize a).
Proof.
  intros a Ha. unfold finalize.
  destruct (Attendance.in_time a) as [i|] eqn:Ei,
           (Attendance.out_time a) as [o|] eqn:Eo; [exact Ha| | |];
    (split; [|right]); cbn [Attendance.set_status Attendance.status
      Attendance.working_hours Attendance.in_time Attendance.out_time];
    rewrite Ei, Eo; cbn [determine_attendance_status calculate_working_hours];
    rewrite ?andb_false_r; reflexivity.
Qed.

Lemma consistent_recomputed : forall a,
    consistent (Attendance.set_status a
                  (determine_attendance_status (Attendance.in_time a)
                                               (Attendance.out_time a))
                  (Some (calculate_working_hours (Attendance.in_time a)
                                                 (Attendance.out_time a)))).
Proof. intros a. split; [reflexivity|now right]. Qed.

Lemma consistent_set_pending : forall a pa ty la lo ad tm ph,
    consistent a -> consistent (Attendance.set_pending a pa ty la lo ad tm ph).
Proof. intros a pa ty la lo ad tm ph H. exact H. Qed.

Lemma consistent_update : forall a l,
    consistent a -> Forall consistent l -> Forall consistent (update_attendance a l).
Proof.
  intros a l Ha Hl. apply Forall_forall. intros x Hx.
  rewrite update_attendance_put in Hx. apply in_put in Hx as [->|Hx]; [exact Ha|].
  now apply (proj1 (Forall_forall _ _) Hl).
Qed.

(** The step that records keeps the records consistent. *)
Lemma record_attendance_consistent :
  forall (w : World) (emp : Employee.t) (ty : AttType) (lat lon : float)
         (address : str) (current_time : datetime),
    Forall consistent (attendance (db w)) ->
    Forall consistent
      (attendance (db (res_world (record_attendance emp ty lat lon address
                                                    current_time w)))).
Proof.
  intros w emp ty lat lon address current_time Hw.
  destruct (record_attendance_db w emp ty lat lon address current_time)
    as (l' & _ & _ & He & R). cbv zeta in R.
  assert (Hl' : Forall consistent l').
  { apply Forall_forall. intros x Hx. destruct (He x Hx) as (a & Ha & [->| ->]).
    - now apply (proj1 (Forall_forall _ _) Hw).
    - apply consistent_finalize. now apply (proj1 (Forall_forall _ _) Hw). }
  unfold attendance_first in R. cbn [attendance with_attendance] in R.
  set (e := Employee.id emp) in *. set (today := dt_date current_time) in *.
  set (p := fun a : Attendance.t =>
              (Attendance.employee_id a =? e) && date_eqb (Attendance.date a) today) in *.
  assert (Hbase : consistent match find p l' with
                             | Some a => a
                             | None => Attendance.new (attendance_id_seq (db w)) e today
                             end).
  { destruct (find p l') as [a0|] eqn:E; [|apply consistent_new].
    apply find_some in E as (Hin & _). now apply (proj1 (Forall_forall _ _) Hl'). }
  assert (Htable : Forall consistent
                     match find p l' with
                     | Some _ => l'
                     | None => l' ++ [match find p l' with
                                      | Some a => a
                                      | None => Attendance.new (attendance_id_seq (db w))
                                                               e today
                                      end]
                     end).
  { destruct (find p l') as [a0|] eqn:E; [exact Hl'|].
    apply Forall_app. split; [exact Hl'|]. constructor; [apply consistent_new|constructor]. }
  destruct (is_within_site_range (env w) lat lon (employee_sites (db w) emp) 2%Q)
    as [[[|] [matched|]] distance]; rewrite R; cbn [res_world db attendance with_attendance].
  - apply consistent_update; [|exact Htable]. apply consistent_recomputed.
  - exact Hl'.
  - apply consistent_update; [|exact Htable]. apply consistent_set_pending. exact Hbase.
  - apply consistent_update; [|exact Htable]. apply consistent_set_pending. exact Hbase.
Qed.

Lemma process_attendance_consistent :
  forall (w : World) (emp : Employee.t) (photo_file : option FileStorage) (ty : AttType),
    Forall consistent (attendance (db w)) ->
    Forall consistent
      (attendance (db (res_world (process_attendance emp photo_file ty w)))).
Proof.
  intros w emp photo_file ty Hw.
  destruct (process_attendance_cases emp photo_file ty w)
    as [(msg & w' & -> & Hdb & _)
       |[(photo & w' & _ & -> & Hdb & _)
        |(lat & lon & current_time & w1 & Hdb & _ & _ & ->)]].
  - cbn [res_world]. now rewrite Hdb.
  - cbn [res_world]. now rewrite Hdb.
  - apply record_attendance_consistent. now rewrite Hdb.
Qed.

Lemma approve_attendance_consistent :
  forall (w : World) (session : Session) (remarks : option str) (approval_id : Z),
    Forall consistent (attendance (db w)) ->
    Forall consistent
      (attendance (db (res_world (approve_attendance session remarks approval_id w)))).
Proof.
  intros w session remarks approval_id Hw.
  unfold approve_attendance. run_monad.
  destruct (admin_id session) as [aid|]; [|exact Hw].
  cbn [env db ticks flashes log].
  destruct (find _ (attendance_approval (db w))) as [approval|]; [|exact Hw].
  cbn [env db ticks flashes log].
  destruct (find _ (admins (db w))) as [admin|]; [|exact Hw].
  cbn -[py update_attendance attendance_first insert_attendance
        determine_attendance_status calculate_working_hours clear_pending].
  unfold attendance_first. cbn [attendance with_attendance_approval].
  destruct (find _ (attendance (db w))) as [a0|] eqn:E.
  - cbn -[py update_attendance determine_attendance_status calculate_working_hours
          clear_pending].
    apply consistent_update; [|exact Hw].
    match goal with |- consistent (Attendance.set_status ?a _ _) =>
      apply (consistent_recomputed a) end.
  - cbn -[py update_attendance determine_attendance_status calculate_working_hours
          clear_pending Attendance.new].
    apply consistent_update.
    + match goal with |- consistent (Attendance.set_status ?a _ _) =>
        apply (consistent_recomputed a) end.
    + apply Forall_app. split; [exact Hw|].
      constructor; [apply consistent_new|constructor].
Qed.

Lemma reject_attendance_consistent :
  forall (w : World) (session : Session) (remarks : option str) (approval_id : Z),
    Forall consistent (attendance (db w)) ->
    Forall consistent
      (attendance (db (res_world (reject_attendance session remarks approval_id w)))).
Proof.
  intros w session remarks approval_id Hw.
  unfold reject_attendance. run_monad.
  destruct (admin_id session) as [aid|]; [|exact Hw].
  cbn [env db ticks flashes log].
  destruct (find _ (attendance_approval (db w))) as [approval|]; [|exact Hw].
  cbn [env db ticks flashes log].
  destruct (find _ (admins (db w))) as [admin|]; [|exact Hw].
  cbn -[py update_attendance attendance_first clear_pending].
  unfold attendance_first. cbn [attendance with_attendance_approval].
  destruct (find _ (attendance (db w))) as [a0|] eqn:E.
  - cbn -[py update_attendance clear_pending].
    apply consistent_update; [|exact Hw].
    apply consistent_set_pending. apply find_some in E as (Hin & _).
    now apply (proj1 (Forall_forall _ _) Hw).
  - exact Hw.
Qed.

Lemma cleanup_incomplete_attendance_consistent : forall (w : World) (e : Z),
    Forall consistent (attendance (db w)) ->
    Forall consistent
      (attendance (db (res_world (cleanup_incomplete_attendance e w)))).
Proof.
  intros w e Hw. destruct (cleanup_run_elements w e) as (l' & -> & _ & _ & He).
  cbn [res_world db attendance with_attendance].
  apply Forall_forall. intros x Hx. destruct (He x Hx) as (a & Ha & [->| ->]).
  - now apply (proj1 (Forall_forall _ _) Hw).
  - apply consistent_finalize. now apply (proj1 (Forall_forall _ _) Hw).
Qed.

Lemma cleanup_all_incomplete_attendance_consistent : forall w : World,
    Forall consistent (attendance (db w)) ->
    Forall consistent
      (attendance (db (res_world (cleanup_all_incomplete_attendance w)))).
Proof.
  intros w Hw. unfold cleanup_all_incomplete_attendance. run_monad.
  cbn [res_world env db ticks flashes log attendance with_attendance].
  rewrite fold_delete_attendance.
  apply Forall_forall. intros x Hx. apply filter_In in Hx as (Hx & _).
  apply in_map_iff in Hx as (a & <- & Ha).
  pose proof (proj1 (Forall_forall _ _) Hw a Ha) as Hc.
  destruct (_ && _); [now apply consistent_finalize|exact Hc].
Qed.

(** X22. The status and the working hours of the records stay in step with
    their times.  When in every record the status is the one
    [determine_attendance_status] gives for its IN and OUT times, and the
    working hours are either not written or those [calculate_working_hours]
    gives, the same holds after a submission, after an approval, after a
    rejection and after either sweep, whether the operation answers or
    raises. *)
Theorem status_consistency_invariant :
  forall w : World,
    Forall consistent (attendance (db w)) ->
    (forall emp photo_file ty,
        Forall consistent
          (attendance (db (res_world (process_attendance emp photo_file ty w)))))
    /\ (forall session remarks approval_id,
           Forall consistent
             (attendance
                (db (res_world (approve_attendance session remarks approval_id w)))))
    /\ (forall session remarks approval_id,
           Forall consistent
             (attendance
                (db (res_world (reject_attendance session remarks approval_id w)))))
    /\ (forall e,
           Forall consistent
             (attendance (db (res_world (cleanup_incomplete_attendance e w)))))
    /\ Forall consistent
         (attendance (db (res_world (cleanup_all_incomplete_attendance w)))).
Proof.
  intros w Hw. split; [|split; [|split; [|split]]].
  - intros emp photo_file ty. now apply process_attendance_consistent.
  - intros session remarks approval_id. now apply approve_attendance_consistent.
  - intros session remarks approval_id. now apply reject_attendance_consistent.
  - intros e. now apply cleanup_incomplete_attendance_consistent.
  - now apply cleanup_all_incomplete_attendance_consistent.
Qed.

(** On the database the sample submission leaves behind, and its approval. *)
Lemma status_consistency_invariant_witness :
  Forall consistent (attendance Sample.pending_db)
  /\ Forall consistent
       (attendance
          (db (res_world (approve_attendance Sample.admin_session None 1
                            (Sample.world_with true Sample.pending_db))))).
Proof.
  assert (H : Forall consistent (attendance Sample.pending_db)).
  { apply (process_attendance_consistent (Sample.world false) Sample.emp
             (Some Sample.photo) type_in (Forall_nil _)). }
  split; [exact H|].
  exact (proj1 (proj2 (status_consistency_invariant
                         (Sample.world_with true Sample.pending_db) H))
           Sample.admin_session None 1).
Defined.
(** ** Admin decisions and pages *)

Local Close Scope Q_scope.

Lemma in_put_other : forall {A : Type} (key : A -> Z) (a x : A) (l : list A),
    In x l -> key x <> key a -> In x (put key a l).
Proof.
  intros A key a x l Hx Hne. unfold put. apply in_map_iff. exists x.
  apply Z.eqb_neq in Hne. now rewrite Hne.
Qed.

(** X23. Approving a stored request, by an admin in session: the request
    becomes Approved with the admin, the decision time and the remarks (empty
    when none are sent); the first record of the request's employee and day,
    created when there is none, takes the request's time, photo, coordinates
    and address into the slot of the request's direction, keeps its other
    slot and its site (an approval links no site), has its pending fields
    cleared and its status and working hours recomputed; every other record
    stays in place. *)
Theorem approve_attendance_effect :
  forall (w : World) (session : Session) (remarks : option str)
         (approval_id aid : Z) (approval : AttendanceApproval.t) (admin : Admin.t),
    pk_ok (db w) = true ->
    admin_id session = Some aid ->
    find (fun a => AttendanceApproval.id a =? approval_id)
         (attendance_approval (db w)) = Some approval ->
    find (fun a => Admin.id a =? aid) (admins (db w)) = Some admin ->
    let e := AttendanceApproval.employee_id approval in
    let day := AttendanceApproval.date approval in
    let base := match attendance_first (db w) e day with
                | Some a => a
                | None => Attendance.new (attendance_id_seq (db w)) e day
                end in
    let written := (Some (AttendanceApproval.time approval),
                    AttendanceApproval.photo approval,
                    Some (AttendanceApproval.latitude approval),
                    Some (AttendanceApproval.longitude approval),
                    AttendanceApproval.address approval) in
    exists w' a',
      approve_attendance session remarks approval_id w
      = Done (Redirect "admin.dashboard") w'
      /\ find (fun a => AttendanceApproval.id a =? approval_id)
              (attendance_approval (db w'))
         = Some (AttendanceApproval.decide approval (py "Approved")
                   (clock_utcnow (env w) (ticks w)) (Admin.id admin)
                   (match remarks with Some r => r | None => [] end))
      /\ attendance_first (db w') e day = Some a'
      /\ (if is_in (AttendanceApproval.attendance_type approval)
          then in_slot a' = written /\ out_slot a' = out_slot base
          else out_slot a' = written /\ in_slot a' = in_slot base)
      /\ Attendance.site_id a' = Attendance.site_id base
      /\ pending a' = no_pending
      /\ Attendance.status a'
         = determine_attendance_status (Attendance.in_time a') (Attendance.out_time a')
      /\ Attendance.working_hours a'
         = Some (calculate_working_hours (Attendance.in_time a') (Attendance.out_time a'))
      /\ (forall x, In x (attendance (db w)) -> Attendance.id x <> Attendance.id base ->
                    In x (attendance (db w'))).
Proof.
  intros w session remarks approval_id aid approval admin Hpk Hs Hap Had e day base
         written.
  assert (Hid : AttendanceApproval.id approval = approval_id).
  { apply find_some in Hap as [_ E]. now apply Z.eqb_eq in E. }
  unfold approve_attendance. run_monad. rewrite Hs, Hap. cbn -[py]. rewrite Had.
  cbn -[py update_attendance update_approval attendance_first insert_attendance
        determine_attendance_status calculate_working_hours].
  fold e. fold day.
  set (ty := AttendanceApproval.attendance_type approval).
  set (approval' := AttendanceApproval.decide approval _ _ _ _).
  assert (Hfind : find (fun a => AttendanceApproval.id a =? approval_id)
                       (update_approval approval' (attendance_approval (db w)))
                  = Some approval').
  { rewrite update_approval_put.
    apply find_put with (a := approval); auto.
    cbn. rewrite Hid. apply Z.eqb_refl. }
  unfold attendance_first in *. cbn [attendance with_attendance_approval].
  subst base.
  destruct (find _ (attendance (db w))) as [a0|] eqn:Ha0.
  - eexists. eexists. split; [reflexivity|].
    cbn -[py update_attendance update_approval determine_attendance_status
          calculate_working_hours].
    split; [exact Hfind|]. split.
    { apply (@find_put _ Attendance.id _ _ a0); auto.
      - destruct ty; reflexivity.
      - apply find_some in Ha0 as [_ E]. destruct ty; exact E. }
    split; [destruct ty; split; reflexivity|].
    split; [destruct ty; reflexivity|].
    split; [reflexivity|]. split; [reflexivity|]. split; [reflexivity|].
    intros x Hx Hne. rewrite update_attendance_put. apply in_put_other; [exact Hx|].
    destruct ty; exact Hne.
  - eexists. eexists. split; [reflexivity|].
    cbn -[py update_attendance update_approval determine_attendance_status
          calculate_working_hours Attendance.new].
    split; [exact Hfind|]. split.
    { apply first_after_insert; auto using pk_ok_fresh; destruct ty; reflexivity. }
    split; [destruct ty; split; reflexivity|].
    split; [destruct ty; reflexivity|].
    split; [reflexivity|]. split; [reflexivity|]. split; [reflexivity|].
    intros x Hx Hne. rewrite update_attendance_put. apply in_put_other.
    + apply in_or_app. now left.
    + destruct ty; exact Hne.
Qed.

(** On the database the sample submission leaves behind: the approved IN is
    recorded without a site. *)
Lemma approve_attendance_effect_witness :
  pk_ok Sample.pending_db = true
  /\ exists w' a',
      approve_attendance Sample.admin_session None 1
                         (Sample.world_with true Sample.pending_db)
      = Done (Redirect "admin.dashboard") w'
      /\ attendance_first (db w') 7 Sample.today = Some a'
      /\ Attendance.in_time a' = Some (mkdatetime Sample.today (mktime 8 5 0 0))
      /\ Attendance.site_id a' = None
      /\ pending a' = no_pending.
Proof.
  split; [vm_compute; reflexivity|].
  destruct (approve_attendance_effect
              (Sample.world_with true Sample.pending_db) Sample.admin_session None 1 1
              Sample.request Sample.admin)
    as (w' & a' & Hrun & _ & Hfirst & Hslot & Hsite & Hpending & _).
  - vm_compute. reflexivity.
  - reflexivity.
  - vm_compute. reflexivity.
  - reflexivity.
  - exists w', a'. split; [exact Hrun|]. split; [exact Hfirst|].
    cbn [is_in AttendanceApproval.attendance_type Sample.request] in Hslot.
    destruct Hslot as (Hin & _).
    split; [exact (f_equal (fun t => fst (fst (fst (fst t)))) Hin)|].
    split; [|exact Hpending].
    rewrite Hsite. vm_compute. reflexivity.
Defined.

(** X24. A decision changes the database only for an admin in session, a
    stored request and a stored admin.  Without an admin in the session both
    routes redirect to the login page with a flash message; for an unknown
    request they raise the 404 of [get_or_404]; for a session whose admin is
    not stored they raise on [admin.id].  In all three cases the database is
    as it was. *)
Theorem admin_decision_guards :
  forall (w : World) (session : Session) (remarks : option str) (approval_id : Z),
    let found := find (fun a => AttendanceApproval.id a =? approval_id)
                      (attendance_approval (db w)) in
    let stored aid := find (fun a => Admin.id a =? aid) (admins (db w)) in
    let to_login :=
      Done (Redirect "admin.login")
           (mkWorld (env w) (db w) (ticks w)
                    (flashes w ++ [(py "Please log in first.", py "danger")]) (log w)) in
    forall decision,
      decision = approve_attendance \/ decision = reject_attendance ->
      match admin_id session with
      | None => decision session remarks approval_id w = to_login
      | Some aid =>
          match found, stored aid with
          | None, _ => decision session remarks approval_id w = Raised NotFound404 w
          | Some _, None =>
              decision session remarks approval_id w
              = Raised (PyError "AttributeError")
                       (mkWorld (env w) (db w) (S (ticks w)) (flashes w) (log w))
          | Some _, Some _ =>
              exists w', decision session remarks approval_id w
                         = Done (Redirect "admin.dashboard") w'
          end
      end.
Proof.
  intros w session remarks approval_id found stored to_login decision Hd.
  subst found stored to_login.
  destruct Hd as [-> | ->].
  - unfold approve_attendance. run_monad.
    destruct (admin_id session) as [aid|]; [|destruct w; reflexivity].
    cbn [env db ticks flashes log].
    destruct (find _ (attendance_approval (db w))) as [approval|];
      [|destruct w; reflexivity].
    cbn [env db ticks flashes log].
    destruct (find _ (admins (db w))) as [admin|]; [|reflexivity].
    cbn -[py update_attendance update_approval attendance_first insert_attendance
          determine_attendance_status calculate_working_hours].
    destruct (attendance_first _ _ _); eexists; reflexivity.
  - unfold reject_attendance. run_monad.
    destruct (admin_id session) as [aid|]; [|destruct w; reflexivity].
    cbn [env db ticks flashes log].
    destruct (find _ (attendance_approval (db w))) as [approval|];
      [|destruct w; reflexivity].
    cbn [env db ticks flashes log].
    destruct (find _ (admins (db w))) as [admin|]; [|reflexivity].
    eexists; reflexivity.
Qed.





(** On the sample deployment, for a request that is not stored. *)
Lemma admin_decision_guards_witness :
  approve_attendance Sample.admin_session None 99 (Sample.world true)
  = Raised NotFound404 (Sample.world true).
Proof.
  exact (admin_decision_guards (Sample.world true) Sample.admin_session None 99
           approve_attendance (or_introl eq_refl)).
Defined.

Lemma before_first_dot_app : forall a b : str,
    existsb (N.eqb (chr ".")) a = false ->
    before_first_dot (a ++ chr "." :: b) = a.
Proof.
  induction a as [|c a IH]; intros b H; cbn [app before_first_dot].
  - now rewrite N.eqb_refl.
  - cbn [existsb] in H. apply orb_false_iff in H as (Hc & Ha).
    rewrite N.eqb_sym, Hc. f_equal. now apply IH.
Qed.

Lemma existsb_rev : forall {A : Type} (p : A -> bool) (l : list A),
    existsb p (rev l) = existsb p l.
Proof.
  intros A p l. induction l as [|x l IH]; [reflexivity|].
  cbn [rev existsb]. rewrite existsb_app, IH. cbn [existsb].
  rewrite orb_false_r. apply orb_comm.
Qed.

(** X26. [allowed_file] looks at what follows the last dot of the name, and
    at nothing else: a name that ends in a dot and an extension without dots
    is allowed exactly when the extension, in lower case, is one of png, jpg,
    jpeg and gif, whatever stands before that dot. *)
Theorem allowed_file_last_extension :
  forall stem ext : str,
    existsb (N.eqb (chr ".")) ext = false ->
    allowed_file (stem ++ py "." ++ ext)
    = existsb (str_eqb (lower ext)) ALLOWED_EXTENSIONS.
Proof.
  intros stem ext Hext. unfold allowed_file.
  change (py ".") with [chr "."]. cbn [app].
  rewrite existsb_app. cbn [existsb]. rewrite N.eqb_refl. cbn [orb].
  rewrite orb_true_r. cbn [andb]. unfold rsplit_dot_1.
  rewrite rev_app_distr. cbn [rev]. rewrite <- app_assoc. cbn [app].
  rewrite before_first_dot_app by now rewrite existsb_rev.
  now rewrite rev_involutive.
Qed.

(** A double extension: the last one decides. *)
Lemma allowed_file_last_extension_witness :
  allowed_file (py "shell.php" ++ py "." ++ py "JPG") = true
  /\ allowed_file (py "photo.jpg" ++ py "." ++ py "exe") = false.
Proof.
  split.
  - rewrite (allowed_file_last_extension (py "shell.php") (py "JPG") eq_refl).
    reflexivity.
  - rewrite (allowed_file_last_extension (py "photo.jpg") (py "exe") eq_refl).
    reflexivity.
Defined.
(** ** Submissions, end to end *)

Local Close Scope Q_scope.

(** The step that records always answers. *)
Lemma record_attendance_answers :
  forall (w : World) (emp : Employee.t) (ty : AttType) (lat lon : float)
         (address : str) (current_time : datetime),
    exists accepted message w',
      record_attendance emp ty lat lon address current_time w
      = Done (accepted, message) w'
      /\ env w' = env w /\ flashes w' = flashes w.
Proof.
  intros w emp ty lat lon address current_time.
  destruct (record_attendance_db w emp ty lat lon address current_time)
    as (l' & _ & _ & _ & R). cbv zeta in R.
  destruct (is_within_site_range_from_shape (env w) lat lon 2%Q
              (employee_sites (db w) emp) PosInf)
    as [(s & d & E & _)|(m & E)];
    fold (is_within_site_range (env w) lat lon (employee_sites (db w) emp) 2%Q) in E;
    rewrite E in R; rewrite R; eexists _, _, _; (split; [reflexivity|]);
    split; reflexivity.
Qed.

(** X27. [process_attendance] raises in one case only.  When the photo has no
    EXIF coordinates and the overlay reader gives up, it raises the
    [ValueError] of the five-value unpacking, the database being as it was;
    in every other case it answers with a flag and a message.  It never
    flashes a message itself. *)
Theorem process_attendance_answers :
  forall (emp : Employee.t) (photo_file : option FileStorage) (ty : AttType) (w : World),
    (exists accepted message w',
        process_attendance emp photo_file ty w = Done (accepted, message) w'
        /\ flashes w' = flashes w)
    \/ (exists photo w',
           photo_file = Some photo
           /\ process_attendance emp photo_file ty w
              = Raised (PyError "ValueError: not enough values to unpack") w'
           /\ db w' = db w /\ flashes w' = flashes w
           /\ extract_gps_from_exif (content photo) = None
           /\ extract_gps_from_text_overlay (content photo) = NoneNone).
Proof.
  intros emp photo_file ty w.
  destruct (process_attendance_cases emp photo_file ty w)
    as [(msg & w' & E & _ & _ & Hf & _)
       |[(photo & w' & Hp & E & Hdb & _ & Hf & Hx & Ho)
        |(lat & lon & current_time & w1 & _ & _ & Hf & E)]].
  - left. exists false, msg, w'. now split.
  - right. exists photo, w'. now repeat split.
  - left. destruct (record_attendance_answers w1 emp ty lat lon
                      (get_address_from_coordinates (env w) lat lon) current_time)
      as (accepted & message & w' & R & _ & Hf').
    exists accepted, message, w'. split; [now rewrite E|]. now rewrite Hf'.
Qed.

(** X28. Clearing today's attendance, for an employee in session who is
    stored: when the employee has a record of the day the clock shows, the
    first such record is deleted and every record with another key stays;
    when there is none, the database is as it was.  Either way one message
    is flashed and the response is the redirect to the dashboard. *)
Theorem clear_today_attendance_effect :
  forall (w : World) (session : Session) (uid : Z) (emp : Employee.t),
    user_type session = Some (py "employee") ->
    user_id session = Some uid ->
    uid <> 0 ->
    find (fun e => Employee.id e =? uid) (employee (db w)) = Some emp ->
    let today := dt_date (clock_now (env w) (ticks w)) in
    exists w',
      clear_today_attendance session w = Done (Redirect "employee.employee_dashboard") w'
      /\ match attendance_first (db w) (Employee.id emp) today with
         | Some a =>
             attendance_get (db w') (Attendance.id a) = None
             /\ (forall x, In x (attendance (db w)) ->
                           Attendance.id x <> Attendance.id a ->
                           In x (attendance (db w')))
             /\ (forall x, In x (attendance (db w')) -> In x (attendance (db w)))
             /\ flashes w'
                = flashes w ++ [(py "Today's attendance cleared successfully!",
                                 py "success")]
         | None =>
             db w' = db w
             /\ flashes w'
                = flashes w ++ [(py "No attendance record found for today.", py "info")]
         end.
Proof.
  intros w session uid emp Hut Hui Hnz Hemp today.
  unfold clear_today_attendance, EmployeeRoutes.login_required. rewrite Hut, Hui.
  replace (str_eqb (py "employee") (py "employee")) with true by reflexivity.
  apply Z.eqb_neq in Hnz. rewrite Hnz. cbn [negb andb].
  run_monad. rewrite Hemp. cbn [env db ticks flashes log]. fold today.
  destruct (attendance_first (db w) (Employee.id emp) today) as [a|] eqn:Ea.
  - eexists. split; [reflexivity|]. cbn [db flashes attendance with_attendance].
    split; [|split; [|split; [|reflexivity]]].
    + unfold attendance_get. cbn [attendance with_attendance].
      destruct (find (fun x => Attendance.id x =? Attendance.id a)
                     (delete_attendance a (attendance (db w)))) as [x|] eqn:E;
        [|reflexivity].
      apply find_some in E as (Hx & Ex). apply in_delete_attendance in Hx as (_ & Hne).
      apply Z.eqb_eq in Ex. contradiction.
    + intros x Hx Hne. apply in_delete_attendance. now split.
    + intros x Hx. now apply in_delete_attendance in Hx.
  - eexists. split; [reflexivity|]. cbn [db flashes]. split; reflexivity.
Qed.

(** On the database the sample submission leaves behind. *)
Lemma clear_today_attendance_effect_witness :
  exists w',
    clear_today_attendance Sample.employee_session
                           (Sample.world_with true Sample.pending_db)
    = Done (Redirect "employee.employee_dashboard") w'
    /\ attendance (db w') = [].
Proof.
  destruct (clear_today_attendance_effect
              (Sample.world_with true Sample.pending_db) Sample.employee_session 7
              Sample.emp eq_refl eq_refl)
    as (w' & Hrun & _).
  - discriminate.
  - reflexivity.
  - exists w'. split; [exact Hrun|].
    vm_compute in Hrun. injection Hrun as <-. reflexivity.
Defined.

(** *** From the submission to the approval *)

Lemma map_key_put : forall {A : Type} (key : A -> Z) (a : A) (l : list A),
    map key (put key a l) = map key l.
Proof.
  intros A key a l. unfold put. rewrite map_map. apply map_ext. intros x.
  destruct (key x =? key a) eqn:E; [|reflexivity]. apply Z.eqb_eq in E. now symmetry.
Qed.

Lemma unique_snoc_fresh : forall (ids : list Z) (k : Z),
    unique ids = true -> forallb (fun i => i <? k) ids = true ->
    unique (ids ++ [k]) = true.
Proof.
  induction ids as [|i ids IH]; intros k Hu Hf; [reflexivity|].
  cbn [unique forallb app] in *.
  apply andb_true_iff in Hu as (Hi & Hu). apply andb_true_iff in Hf as (Hk & Hf).
  rewrite (IH k Hu Hf), andb_true_r. rewrite existsb_app. cbn [existsb].
  apply negb_true_iff in Hi. rewrite Hi. apply Z.ltb_lt in Hk.
  replace (i =? k) with false by (symmetry; apply Z.eqb_neq; lia). reflexivity.
Qed.

Lemma forallb_ids : forall {A : Type} (key : A -> Z) (P : Z -> bool) (l : list A),
    forallb (fun a => P (key a)) l = forallb P (map key l).
Proof.
  intros A key P l. induction l as [|x l IH]; [reflexivity|].
  cbn [forallb map]. now rewrite IH.
Qed.

Lemma forallb_below_succ : forall (ids : list Z) (k : Z),
    forallb (fun i => i <? k) ids = true -> forallb (fun i => i <? k + 1) ids = true.
Proof.
  intros ids k H. rewrite forallb_forall in *. intros i Hi.
  specialize (H i Hi). apply Z.ltb_lt in H. apply Z.ltb_lt. lia.
Qed.

Lemma find_snoc_fresh :
  forall {A : Type} (key : A -> Z) (l : list A) (x : A),
    forallb (fun i => i <? key x) (map key l) = true ->
    find (fun a => key a =? key x) (l ++ [x]) = Some x.
Proof.
  intros A key l x H. induction l as [|y l IH]; cbn [app find map forallb] in *.
  - now rewrite Z.eqb_refl.
  - apply andb_true_iff in H as (Hy & Hl). apply Z.ltb_lt in Hy.
    replace (key y =? key x) with false by (symmetry; apply Z.eqb_neq; lia).
    now apply IH.
Qed.

Lemma find_none_all : forall {A : Type} (p : A -> bool) (l : list A),
    (forall x, In x l -> p x = false) -> find p l = None.
Proof.
  intros A p l H. induction l as [|x l IH]; [reflexivity|].
  cbn [find]. rewrite (H x (or_introl eq_refl)). apply IH.
  intros y Hy. apply H. now right.
Qed.

(** The keys stay in order through the write of a submission: the record
    written back over the swept table, with the new record and the new
    request at the next values of their sequences. *)
Lemma pk_ok_written :
  forall (d : DB) (l' : list Attendance.t) (a1 : Attendance.t)
         (ap : AttendanceApproval.t) (e : Z) (today : pydate),
    pk_ok d = true ->
    unique (map Attendance.id l') = true ->
    forallb (fun a => Attendance.id a <? attendance_id_seq d) l' = true ->
    AttendanceApproval.id ap = attendance_approval_id_seq d ->
    let p := fun a => (Attendance.employee_id a =? e)
                      && date_eqb (Attendance.date a) today in
    pk_ok (mkDB (update_attendance a1
                   match find p l' with
                   | Some _ => l'
                   | None => l' ++ [Attendance.new (attendance_id_seq d) e today]
                   end)
                (attendance_approval d ++ [ap])
                match find p l' with
                | Some _ => attendance_id_seq d
                | None => attendance_id_seq d + 1
                end
                (attendance_approval_id_seq d + 1) (site d) (employee d) (admins d))
    = true.
Proof.
  intros d l' a1 ap e today Hpk Hu Hf Hid p.
  unfold pk_ok in *. cbn [attendance attendance_approval attendance_id_seq
                          attendance_approval_id_seq].
  repeat (apply andb_true_iff in Hpk as [Hpk ?]).
  rewrite (forallb_ids Attendance.id (fun i => i <? _)).
  rewrite update_attendance_put, map_key_put.
  rewrite (forallb_ids Attendance.id (fun i => i <? attendance_id_seq d)) in Hf.
  rewrite (forallb_ids AttendanceApproval.id (fun i => i <? _)).
  rewrite (forallb_ids AttendanceApproval.id (fun i => i <? _)) in *.
  rewrite !map_app. cbn [map]. rewrite Hid.
  assert (Hap : unique (map AttendanceApproval.id (attendance_approval d)
                        ++ [attendance_approval_id_seq d]) = true)
    by now apply unique_snoc_fresh.
  assert (Hapf : forallb (fun i => i <? attendance_approval_id_seq d + 1)
                         (map AttendanceApproval.id (attendance_approval d)
                          ++ [attendance_approval_id_seq d]) = true).
  { rewrite forallb_app. rewrite forallb_below_succ by assumption.
    cbn [forallb]. rewrite andb_true_r. apply Z.ltb_lt. lia. }
  rewrite Hap, Hapf, !andb_true_r.
  destruct (find p l').
  - now rewrite Hu, Hf.
  - rewrite map_app. cbn [map Attendance.new Attendance.id].
    rewrite unique_snoc_fresh by assumption.
    rewrite forallb_app, forallb_below_succ by assumption.
    cbn [forallb andb]. rewrite andb_true_r. apply Z.ltb_lt. lia.
Qed.

(** X29. From the submission to the approval.  A submission that passes the
    checks out of range of every site stores a request under the next key of
    the request sequence; when an admin then approves that request, the
    employee's record of the day carries the photo time, the coordinates and
    the address of the submission in the slot of its direction and no photo,
    its pending fields are cleared, and its status is the one its times
    give.  The record links no site when the employee had no record of the
    day before the submission. *)
Theorem out_of_range_submission_then_approval :
  forall (w w1 : World) (emp : Employee.t) (photo : FileStorage) (ty : AttType)
         (face_message : str) (lat lon : float) (current_time : datetime)
         (ev_addr ev_meth : option str) (file : Image)
         (matched : option Site.t) (distance : xfloat)
         (session : Session) (remarks : option str) (aid : Z) (admin : Admin.t),
    pk_ok (db w) = true ->
    filename photo <> [] ->
    allowed_photo (filename photo) = true ->
    verify_face_match (env w) (content photo) (stored_face_path emp)
    = (true, face_message) ->
    extract_gps_and_datetime (content photo)
      (mkWorld (env w) (db w) (ticks w) (flashes w)
               ((log w ++ [FaceVerification]) ++ [EvidenceExtraction]))
    = Done (mkEvidence (Some lat) (Some lon) (Some current_time) ev_addr ev_meth, file)
           w1 ->
    date_eqb (dt_date current_time) (dt_date (clock_now (env w) (ticks w1))) = true ->
    Z.abs (timedelta_us current_time (clock_now (env w) (S (ticks w1)))) <= 600000000 ->
    is_within_site_range (env w) lat lon (employee_sites (db w) emp) 2%Q
    = (false, matched, distance) ->
    admin_id session = Some aid ->
    find (fun a => Admin.id a =? aid) (admins (db w)) = Some admin ->
    let address := get_address_from_coordinates (env w) lat lon in
    let e := Employee.id emp in
    let today := dt_date current_time in
    exists (accepted : bool) (message : str) (w' w'' : World) (a : Attendance.t),
      process_attendance emp (Some photo) ty w = Done (accepted, message) w'
      /\ approve_attendance session remarks (attendance_approval_id_seq (db w)) w'
         = Done (Redirect "admin.dashboard") w''
      /\ attendance_first (db w'') e today = Some a
      /\ (if is_in ty then in_slot a else out_slot a)
         = (Some current_time, None, Some lat, Some lon, Some address)
      /\ pending a = no_pending
      /\ Attendance.status a
         = determine_attendance_status (Attendance.in_time a) (Attendance.out_time a)
      /\ (attendance_first (db w) e today = None -> Attendance.site_id a = None).
Proof.
  intros w w1 emp photo ty face_message lat lon current_time ev_addr ev_meth file
         matched distance session remarks aid admin
         Hpk Hname Hext Hface Hev Hdate Hskew Hrange Hs Had address e today.
  assert (Hq : Qle_bool (Qabs (fdiv (total_seconds
                                       (timedelta_us current_time
                                          (clock_now (env w) (S (ticks w1)))))
                                    60%Q)) 10%Q = true).
  { rewrite minutes_at_most_ten. now apply Z.leb_le. }
  rewrite (process_attendance_reaches_record w w1 emp photo ty face_message lat lon
             current_time ev_addr ev_meth file Hname Hext Hface Hev Hdate Hq).
  fold address. set (w2 := mkWorld _ _ _ _ _).
  destruct (record_attendance_db w2 emp ty lat lon address current_time)
    as (l' & Hu & Hf & He & R). cbv zeta in R.
  cbn [w2 env db ticks flashes log] in R, Hu, Hf, He. rewrite Hrange in R.
  specialize (Hu (pk_ok_unique _ Hpk)).
  specialize (Hf (fun i => i <? attendance_id_seq (db w)) (pk_ok_fresh _ Hpk)).
  unfold attendance_first in R. cbn [attendance with_attendance] in R.
  fold e in R. fold today in R.
  set (p := fun a : Attendance.t =>
              (Attendance.employee_id a =? e) && date_eqb (Attendance.date a) today) in *.
  match type of R with
  | context [Attendance.set_pending ?b _ _ _ _ _ _ _] => set (base := b) in R
  end.
  match type of R with
  | context [update_attendance ?x _] => set (a1 := x) in R
  end.
  match type of R with
  | context [attendance_approval (db w) ++ [?x]] => set (ap := x) in R
  end.
  match type of R with
  | _ = Done _ ?x => set (w' := x) in R
  end.
  assert (Hpk' : pk_ok (db w') = true).
  { subst w'. cbn [db]. subst base.
    pose proof (pk_ok_written (db w) l' a1 ap e today Hpk Hu Hf eq_refl) as H.
    cbv zeta in H. fold p in H.
    destruct (find p l'); exact H. }
  assert (Hfind : find (fun a => AttendanceApproval.id a =? attendance_approval_id_seq (db w))
                       (attendance_approval (db w')) = Some ap).
  { subst w'. cbn [db attendance_approval].
    apply (find_snoc_fresh AttendanceApproval.id (attendance_approval (db w)) ap).
    rewrite <- (forallb_ids AttendanceApproval.id
                  (fun i => i <? attendance_approval_id_seq (db w))).
    unfold pk_ok in Hpk. repeat (apply andb_true_iff in Hpk as [Hpk ?]). assumption. }
  assert (Hfirst' : attendance_first (db w') e today = Some a1).
  { subst w'. unfold attendance_first. cbn [db attendance]. fold p.
    pose proof (written_record_first l' (attendance_id_seq (db w)) e today a1 Hf) as W.
    cbv zeta in W. fold p in W. subst a1 base. revert W.
    destruct (find p l'); intro W; apply W; reflexivity. }
  destruct (approve_attendance_effect w' session remarks
              (attendance_approval_id_seq (db w)) aid ap admin Hpk' Hs Hfind Had)
    as (w'' & a & Hrun & _ & Hfirst & Hslot & Hsite & Hpend & Hstatus & _).
  cbn [ap AttendanceApproval.employee_id AttendanceApproval.date
       AttendanceApproval.attendance_type AttendanceApproval.time
       AttendanceApproval.photo AttendanceApproval.latitude
       AttendanceApproval.longitude AttendanceApproval.address]
    in Hfirst, Hslot, Hsite.
  fold e in Hfirst, Hsite. fold today in Hfirst, Hsite.
  eexists _, _, w', w'', a. split; [exact R|]. split; [exact Hrun|].
  split; [exact Hfirst|]. split; [destruct ty; apply Hslot|].
  split; [exact Hpend|]. split; [exact Hstatus|].
  intros Hnone. rewrite Hsite, Hfirst'.
  assert (Hl' : find p l' = None).
  { apply find_none_all. intros x Hx. destruct (He x Hx) as (a0 & Ha0 & Hx0).
    unfold attendance_first in Hnone. fold p in Hnone.
    pose proof (find_none _ _ Hnone a0 Ha0) as Hp0.
    destruct Hx0 as [->| ->]; [exact Hp0|].
    unfold p in *. destruct (finalize_keys a0) as (-> & -> & _). exact Hp0. }
  subst a1 base. rewrite Hl'. reflexivity.
Qed.

(** On the sample submission, 23.4 km from the only site, and its approval:
    the IN of 08:05 is recorded without a site. *)
Lemma out_of_range_submission_then_approval_witness :
  pk_ok (db (Sample.world true)) = true
  /\ exists (accepted : bool) (message : str) (w' w'' : World) (a : Attendance.t),
      process_attendance Sample.emp (Some Sample.photo) type_in (Sample.world true)
      = Done (accepted, message) w'
      /\ approve_attendance Sample.admin_session None 1 w'
         = Done (Redirect "admin.dashboard") w''
      /\ attendance_first (db w'') 7 Sample.today = Some a
      /\ Attendance.in_time a = Some (mkdatetime Sample.today (mktime 8 5 0 0))
      /\ pending a = no_pending
      /\ Attendance.site_id a = None.
Proof.
  split; [reflexivity|].
  destruct (out_of_range_submission_then_approval
              (Sample.world true)
              (mkWorld (Sample.services true) Sample.empty_db 1 []
                       [FaceVerification; EvidenceExtraction])
              Sample.emp Sample.photo type_in (py "Face verified successfully")
              (float_of_decimal (py "18.5913")) (float_of_decimal (py "73.7389"))
              (mkdatetime Sample.today (mktime 8 5 0 0))
              (Some (py "Pune")) (Some (py "OCR+Injected"))
              (inject_gps_into_exif Sample.photo_image
                 (float_of_decimal (py "18.5913")) (float_of_decimal (py "73.7389")))
              None (Finite (117 # 5)%Q) Sample.admin_session None 1 Sample.admin)
    as (accepted & message & w' & w'' & a & Hsub & Hrun & Hfirst & Hslot & Hpend & _
        & Hsite).
  - reflexivity.
  - discriminate.
  - reflexivity.
  - reflexivity.
  - vm_compute. reflexivity.
  - reflexivity.
  - vm_compute. discriminate.
  - reflexivity.
  - reflexivity.
  - reflexivity.
  - exists accepted, message, w', w'', a.
    split; [exact Hsub|]. split; [exact Hrun|]. split; [exact Hfirst|].
    cbn [is_in] in Hslot.
    split; [exact (f_equal (fun t => fst (fst (fst (fst t)))) Hslot)|].
    split; [exact Hpend|]. apply Hsite. reflexivity.
Defined.
